(** * Route synthesis and air-quality annotation: a shallow embedding

    The development follows the Python package [fnl_agnt]:
    - [air_quality_tools.py]: pollutant readings to a 0-100 score and a tier;
    - [osm_route_tools.py]: step synthesis, nearest-sensor join, route
      analysis and the three orchestrators;
    - [destination_tools_osm.py]: nearest destination of a type.

    Numbers.  The score of [air_quality_tools.py] is computed in Python's
    own arithmetic: an [int] is a [Z], a [float] is a binary64 whose every
    operation rounds to nearest, ties to even, and the conversion of an
    [int] too large for a [float] raises ([Py.number], [Py.fl]).  In the
    route and destination tools, where the theorems are about order, counts
    and structure, coordinates, distances and scores are rationals and
    [round(x, n)] rounds half to even at [n] decimals ([Py.round]).

    External collaborators (the street graph, the place search, the sensor
    API, the [geopy] geodesic distance) are Section variables. *)

From Stdlib Require Import QArith Qround Qabs Qminmax Lqa ZArith Lia String List Bool.
From Stdlib Require Import DecimalString.
From stdpp Require Import base option gmap strings.
Import ListNotations.

Open Scope string_scope.
Open Scope list_scope.
Open Scope Q_scope.

(* ===================================================================== *)
(** * Part I: definitions                                                 *)
(* ===================================================================== *)

(** ** Python values and the builtins the package relies on *)

Module Py.

(** Nearest integer, ties to the even one. *)
Definition round_half_even (q : Q) : Z :=
  let f := Qfloor q in
  match Qcompare (q - inject_Z f) (1 # 2) with
  | Lt => f
  | Gt => (f + 1)%Z
  | Eq => if Z.even f then f else (f + 1)%Z
  end.

(** [round(q, ndigits)] on an exact value: half to even at [ndigits]
    decimals. *)
Definition round (q : Q) (ndigits : nat) : Q :=
  let scale := inject_Z (10 ^ Z.of_nat ndigits) in
  inject_Z (round_half_even (q * scale)) / scale.

(** [max(a, b)] keeps its first argument unless the second is larger. *)
Definition max (a b : Q) : Q :=
  match Qcompare a b with Lt => b | _ => a end.

(** [min(a, b)] keeps its first argument unless the second is smaller. *)
Definition min (a b : Q) : Q :=
  match Qcompare b a with Lt => b | _ => a end.

(** *** Floats and ints *)

(** A Python [float], a binary64: not a number, an infinity, or a finite
    value, carried by the rational it denotes (the two zeros are one value:
    [==] and the order do not tell them apart). *)
Inductive float :=
| FNan
| FInf (negative : bool)
| FFin (q : Q).

(** The spacing of the binary64 around [x], a value counted in units of
    2^-1074: 53 significant bits are kept, and the spacing is one unit in
    the subnormal range. *)
Definition grid (x : Q) : Z := Z.max 0 (Z.log2 (Qfloor x) - 52).

(** The multiple of the spacing nearest to [x], ties to the even one. *)
Definition nearest (x : Q) : Z :=
  (round_half_even (x / inject_Z (2 ^ grid x)) * 2 ^ grid x)%Z.

(** The rounding of a real to binary64: to nearest, ties to even; a result
    of 2^1024 or more overflows to an infinity.  A [float] literal and the
    result of every [float] operation are rounded so. *)
Definition fl (q : Q) : float :=
  let r := nearest (Qabs q * inject_Z (2 ^ 1074)) in
  if (2 ^ 2098 <=? r)%Z then FInf (negb (Qle_bool 0 q))
  else FFin (Qred ((if Qle_bool 0 q then 1 else - (1))
                   * (inject_Z r / inject_Z (2 ^ 1074)))).

Definition fneg (x : float) : float :=
  match x with
  | FNan => FNan
  | FInf s => FInf (negb s)
  | FFin q => FFin (Qred (- q))
  end.

Definition fadd (x y : float) : float :=
  match x, y with
  | FNan, _ | _, FNan => FNan
  | FInf s, FInf t => if Bool.eqb s t then FInf s else FNan
  | FInf s, FFin _ | FFin _, FInf s => FInf s
  | FFin a, FFin b => fl (a + b)
  end.

Definition fsub (x y : float) : float := fadd x (fneg y).

Definition fmul (x y : float) : float :=
  match x, y with
  | FNan, _ | _, FNan => FNan
  | FInf s, FInf t => FInf (xorb s t)
  | FInf s, FFin q | FFin q, FInf s =>
      if Qeq_bool q 0 then FNan else FInf (xorb s (negb (Qle_bool 0 q)))
  | FFin a, FFin b => fl (a * b)
  end.

(** [x < y] on extended values: false when either is a NaN. *)
Definition flt (x y : float) : bool :=
  match x, y with
  | FNan, _ | _, FNan => false
  | FInf true, FInf true => false
  | FInf true, _ => true
  | _, FInf true => false
  | FInf false, _ => false
  | FFin _, FInf false => true
  | FFin a, FFin b => negb (Qle_bool b a)
  end.

(** A Python number: an [int] of any size or a [float]. *)
Inductive number :=
| NInt (z : Z)
| NFloat (x : float).

(** The exact value of a number, as an extended rational. *)
Definition exact (a : number) : float :=
  match a with
  | NInt z => FFin (inject_Z z)
  | NFloat x => x
  end.

(** [a < b]: Python compares an [int] with a [float] by value, exactly. *)
Definition lt (a b : number) : bool := flt (exact a) (exact b).

(** [a <= b] *)
Definition le (a b : number) : bool :=
  match exact a, exact b with
  | FNan, _ | _, FNan => false
  | x, y => negb (flt y x)
  end.

(** [max(a, b)] and [min(a, b)] on numbers: the first argument is kept
    unless the second is strictly beyond it. *)
Definition nmax (a b : number) : number := if lt a b then b else a.
Definition nmin (a b : number) : number := if lt b a then b else a.

(** [float(a)]; [None] is the [OverflowError] of an [int] too large. *)
Definition to_float (a : number) : option float :=
  match a with
  | NInt z => match fl (inject_Z z) with FInf _ => None | x => Some x end
  | NFloat x => Some x
  end.

(** [a * b], [a + b], [a - b]: exact on two [int]s, otherwise on the two
    operands as [float]s; [None] is the [OverflowError] of the conversion. *)
Definition mul (a b : number) : option number :=
  match a, b with
  | NInt x, NInt y => Some (NInt (x * y))
  | _, _ => x ← to_float a; y ← to_float b; Some (NFloat (fmul x y))
  end.

Definition add (a b : number) : option number :=
  match a, b with
  | NInt x, NInt y => Some (NInt (x + y))
  | _, _ => x ← to_float a; y ← to_float b; Some (NFloat (fadd x y))
  end.

Definition sub (a b : number) : option number :=
  match a, b with
  | NInt x, NInt y => Some (NInt (x - y))
  | _, _ => x ← to_float a; y ← to_float b; Some (NFloat (fsub x y))
  end.

(** [round(a, ndigits)] for [ndigits >= 0]: an [int] is kept; a NaN or an
    infinity is kept; a finite [float] is rounded in decimal on its exact
    value, half to even, and the decimal is read back as a [float]
    ([None] is the [OverflowError] of a result too large). *)
Definition nround (a : number) (ndigits : nat) : option number :=
  match a with
  | NInt z => Some (NInt z)
  | NFloat (FFin q) =>
      match fl (round q ndigits) with
      | FInf _ => None
      | x => Some (NFloat x)
      end
  | NFloat x => Some (NFloat x)
  end.

(** Neither a NaN nor an infinity. *)
Definition is_finite (a : number) : bool :=
  match exact a with
  | FFin _ => true
  | _ => false
  end.

(** The rational a finite number denotes (0 for a NaN or an infinity, which
    have none). *)
Definition value (a : number) : Q :=
  match exact a with
  | FFin q => q
  | _ => 0
  end.

(** *** Values of a JSON object *)

(** What [response.json()] can put behind a key of a metrics object. *)
Unset Elimination Schemes.
Inductive pyval :=
| PNone
| PBool (b : bool)
| PInt (z : Z)
| PFloat (x : float)
| PStr (s : string)
| PList (xs : list pyval)
| PDict (d : gmap string pyval).
Set Elimination Schemes.

(** [bool(v)] *)
Definition truthy (v : pyval) : bool :=
  match v with
  | PNone => false
  | PBool b => b
  | PInt z => negb (z =? 0)%Z
  | PFloat (FFin q) => negb (Qeq_bool q 0)
  | PFloat _ => true
  | PStr s => negb (String.eqb s "")
  | PList xs => match xs with [] => false | _ => true end
  | PDict d => negb (bool_decide (d = ∅))
  end.

(** [v or d] *)
Definition or_else (v d : pyval) : pyval := if truthy v then v else d.

(** [d.get(key, default)] *)
Definition dict_get (d : gmap string pyval) (key : string) (default : pyval)
  : pyval :=
  match d !! key with Some v => v | None => default end.

(** A value that takes part in arithmetic as a number; [True] counts as 1. *)
Definition as_number (v : pyval) : option number :=
  match v with
  | PInt z => Some (NInt z)
  | PFloat x => Some (NFloat x)
  | PBool b => Some (NInt (if b then 1 else 0))
  | _ => None
  end.

Definition of_number (a : number) : pyval :=
  match a with
  | NInt z => PInt z
  | NFloat x => PFloat x
  end.

(** [v * k] for an [int] literal [k]; [None] is a raised exception.
    Numbers are multiplied, sequences repeated. *)
Definition times_int (v : pyval) (k : nat) : option pyval :=
  match v with
  | PInt _ | PFloat _ | PBool _ =>
      a ← as_number v; of_number <$> mul a (NInt (Z.of_nat k))
  | PStr s => Some (PStr (String.concat "" (repeat s k)))
  | PList xs => Some (PList (List.concat (repeat xs k)))
  | PNone | PDict _ => None
  end.

(** [v * x] for a [float] literal [x]: only numbers qualify. *)
Definition times_float (v : pyval) (x : float) : option number :=
  a ← as_number v; mul a (NFloat x).

(** [a - v] for an [int] literal [a]: only numbers qualify. *)
Definition rsub (a : Z) (v : pyval) : option number :=
  b ← as_number v; sub (NInt a) b.

End Py.

(** ** air_quality_tools.py *)

Module AirQualityTools.

(** The body of the [try] block of [calculate_air_quality_score];
    [None] stands for a raised exception ([TypeError], [OverflowError]). *)
Definition score_body (metrics : gmap string Py.pyval) : option Py.number :=
  let pm25 := Py.or_else (Py.dict_get metrics "massPM2_5Avg" (Py.PInt 0))
                         (Py.PInt 0) in
  let pm10 := Py.or_else (Py.dict_get metrics "massPM10_0Avg" (Py.PInt 0))
                         (Py.PInt 0) in
  d25 ← Py.times_int pm25 2;
  r25 ← Py.rsub 100 d25;
  let pm25_score := Py.nmax (Py.NInt 0) r25 in
  d10 ← Py.times_float pm10 (Py.fl (1 # 2));
  r10 ← Py.sub (Py.NInt 100) d10;
  let pm10_score := Py.nmax (Py.NInt 0) r10 in
  weighted25 ← Py.mul pm25_score (Py.NFloat (Py.fl (7 # 10)));
  weighted10 ← Py.mul pm10_score (Py.NFloat (Py.fl (3 # 10)));
  overall_score ← Py.add weighted25 weighted10;
  Py.nround (Py.nmax (Py.NInt 0) (Py.nmin (Py.NInt 100) overall_score)) 2.

(** [calculate_air_quality_score]: the bare [except] turns every exception
    into the neutral score 50.0.  The result, always a finite number, is
    given by its value. *)
Definition calculate_air_quality_score (metrics : gmap string Py.pyval) : Q :=
  match score_body metrics with
  | Some score => Py.value score
  | None => 50
  end.

(** [get_quality_level] *)
Definition get_quality_level (score : Q) : string :=
  if Qle_bool 80 score then "🟢 Excelente"
  else if Qle_bool 60 score then "🟡 Buena"
  else if Qle_bool 40 score then "🟠 Moderada"
  else "🔴 Mala".

End AirQualityTools.

(** ** The scoring formula as the specification words it *)

Module ScoringSpec.

Definition clamp (x lo hi : Q) : Q := Qmax lo (Qmin hi x).

(** [0.7 * clamp(100 - pm25*2, 0, 100) + 0.3 * clamp(100 - pm10*0.5, 0, 100)],
    clamped to [0, 100] and rounded to 2 decimals. *)
Definition spec_score (pm25 pm10 : Q) : Q :=
  let pm25_score := clamp (100 - pm25 * 2) 0 100 in
  let pm10_score := clamp (100 - pm10 * (1 # 2)) 0 100 in
  Py.round (clamp ((7 # 10) * pm25_score + (3 # 10) * pm10_score) 0 100) 2.

(** What [metrics.get(key, 0) or 0] gives on a reading that is a number,
    absent or null: the number, or the [int] 0 when it is absent, null or
    zero.  [None] when the reading is of another type. *)
Definition number_read (entry : option Py.pyval) : option Py.number :=
  match entry with
  | None | Some Py.PNone => Some (Py.NInt 0)
  | Some v =>
      a ← Py.as_number v; Some (if Py.truthy v then a else Py.NInt 0)
  end.

Definition reads_as (entry : option Py.pyval) (a : Py.number) : Prop :=
  number_read entry = Some a.

Definition k25 : string := "massPM2_5Avg".
Definition k10 : string := "massPM10_0Avg".

(** The two components, [max(0, 100 - pm25 * 2)] and
    [max(0, 100 - pm10 * 0.5)], in Python's arithmetic. *)
Definition component25 (pm25 : Py.number) : option Py.number :=
  d ← Py.mul pm25 (Py.NInt 2);
  r ← Py.sub (Py.NInt 100) d;
  Some (Py.nmax (Py.NInt 0) r).

Definition component10 (pm10 : Py.number) : option Py.number :=
  d ← Py.mul pm10 (Py.NFloat (Py.fl (1 # 2)));
  r ← Py.sub (Py.NInt 100) d;
  Some (Py.nmax (Py.NInt 0) r).

(** The formula the code evaluates on two numbers, in Python's arithmetic;
    [None] when a conversion overflows. *)
Definition code_score (pm25 pm10 : Py.number) : option Py.number :=
  pm25_score ← component25 pm25;
  pm10_score ← component10 pm10;
  weighted25 ← Py.mul pm25_score (Py.NFloat (Py.fl (7 # 10)));
  weighted10 ← Py.mul pm10_score (Py.NFloat (Py.fl (3 # 10)));
  overall_score ← Py.add weighted25 weighted10;
  Py.nround (Py.nmax (Py.NInt 0) (Py.nmin (Py.NInt 100) overall_score)) 2.

(** [round(0.3 * max(0, 100 - pm10 * 0.5), 2)] in Python's arithmetic. *)
Definition pm10_only_score (pm10 : Py.number) : option Py.number :=
  pm10_score ← component10 pm10;
  weighted10 ← Py.mul (Py.NFloat (Py.fl (3 # 10))) pm10_score;
  Py.nround weighted10 2.

(** What the function returns for a computation: the value of its result,
    or 50 when it raised. *)
Definition outcome (r : option Py.number) : Q :=
  match r with
  | Some score => Py.value score
  | None => 50
  end.

(** A reading that is a float, or the [int] 0 that a zero, null or missing
    reading is read as. *)
Definition fractional (a : Py.number) : Prop :=
  match a with
  | Py.NInt z => z = 0%Z
  | Py.NFloat _ => True
  end.

(** Two readings of one kind: two [int]s, or two floats (or zeros). *)
Definition same_kind (a b : Py.number) : Prop :=
  (exists z z' : Z, a = Py.NInt z /\ b = Py.NInt z')
  \/ (fractional a /\ fractional b).

(** [max(0, r)] for a float [r], as the float it converts to. *)
Definition fmax0 (r : Py.float) : Py.float :=
  if Py.lt (Py.NInt 0) (Py.NFloat r) then r else Py.FFin 0.

(** The float that enters the weighted sum for a component. *)
Definition weight_input (component : option Py.number)
  : option Py.float :=
  s ← component; Py.to_float s.

Definition non_numeric (v : Py.pyval) : Prop :=
  match v with Py.PStr _ | Py.PList _ | Py.PDict _ => True | _ => False end.

(** Inputs on which the theorems are exercised. *)
Definition sample_metrics : gmap string Py.pyval :=
  {[ k25 := Py.PInt 12; k10 := Py.PInt 40 ]}.

Definition negative_metrics : gmap string Py.pyval :=
  {[ k25 := Py.PInt (-10); k10 := Py.PInt 200 ]}.

Definition smog_metrics : gmap string Py.pyval :=
  {[ k25 := Py.PInt 75; k10 := Py.PInt 60 ]}.

(** A reading with a fraction, and one beyond the range of a [float]. *)
Definition fraction_metrics : gmap string Py.pyval :=
  {[ k25 := Py.PInt 0; k10 := Py.PFloat (Py.fl (35 # 10)) ]}.

Definition huge_metrics : gmap string Py.pyval :=
  {[ k25 := Py.PInt 60; k10 := Py.PInt (10 ^ 400) ]}.

End ScoringSpec.

(** ** Exceptions *)

Module Exc.

(** A computation that returns or raises; the message is [str(e)]. *)
Inductive exc (A : Type) : Type :=
| Raise (msg : string)
| Ret (a : A).
Arguments Raise {A} msg.
Arguments Ret {A} a.

#[export] Instance exc_bind : MBind exc := fun A B f m =>
  match m with
  | Raise msg => Raise msg
  | Ret a => f a
  end.

(** An indexing or builtin call that fails raises with the given message. *)
Definition of_option {A : Type} (msg : string) (o : option A) : exc A :=
  match o with
  | Some a => Ret a
  | None => Raise msg
  end.

End Exc.

(** ** The nearest-neighbour scan

    [find_nearest_air_quality_node] (osm_route_tools.py) and
    [find_nearest_destination] (destination_tools_osm.py) run the same loop
    over different candidate records; it is written once, over the
    candidate's coordinates. *)

Module SpatialJoin.

Definition Qltb (a b : Q) : bool := negb (Qle_bool b a).

(** [distance < min_distance], where [None] is [float('inf')]. *)
Definition below (distance : Q) (min_distance : option Q) : bool :=
  match min_distance with
  | None => true
  | Some m => Qltb distance m
  end.

Section Scan.
Context {A : Type}.
Variable geodesic_km : Q * Q -> Q * Q -> Q.
Variable coords : A -> Q * Q.
Variable point : Q * Q.
Variable max_distance_km : Q.

(** The [for] loop, from the state [(nearest, min_distance)]. *)
Fixpoint scan (candidates : list A) (nearest : option A)
         (min_distance : option Q) : option A * option Q :=
  match candidates with
  | [] => (nearest, min_distance)
  | node :: rest =>
      let distance := geodesic_km point (coords node) in
      if below distance min_distance && Qle_bool distance max_distance_km
      then scan rest (Some node) (Some distance)
      else scan rest nearest min_distance
  end.

Definition nearest_within (candidates : list A) : option A * option Q :=
  scan candidates None None.
End Scan.

End SpatialJoin.

(** ** destination_tools_osm.py *)

Module DestinationToolsOsm.
Import Exc.

Record Destination := {
  nombre : string;
  lat : Q;
  lng : Q;
  type : string;
  address : string
}.

(** The dictionary [find_destination_osm] returns. *)
Record DestinationSearch := {
  success : bool;
  matches : list Destination;
  error : option string
}.

(** The dictionary [find_nearest_destination] returns. *)
Inductive NearestResult :=
| NearestFound (nearest_destination : Destination) (distance_km : Q)
               (origin : Q * Q) (search_type : string)
| NearestFailure (error : string).

Definition nearest_success (r : NearestResult) : bool :=
  match r with NearestFound _ _ _ _ => true | NearestFailure _ => false end.

Section Collaborators.
Variable geodesic_km : Q * Q -> Q * Q -> Q.
(** The place search; whatever it raises is its caller's to catch. *)
Variable find_destination_osm : string -> exc DestinationSearch.
(** [str] of a float, as an f-string prints it. *)
Variable str_float : Q -> string.

Definition find_nearest_destination (origin_lat origin_lng : Q)
           (destination_type : string) (max_distance_km : Q)
  : NearestResult :=
  match find_destination_osm destination_type with
  | Raise msg => NearestFailure msg
  | Ret dest_result =>
      if negb (success dest_result)
         || match matches dest_result with [] => true | _ => false end
      then NearestFailure ("No se encontraron " +:+ destination_type)
      else
        let origin := (origin_lat, origin_lng) in
        match SpatialJoin.nearest_within geodesic_km
                (fun d => (lat d, lng d)) origin max_distance_km
                (matches dest_result) with
        | (Some nearest_dest, Some min_distance) =>
            NearestFound nearest_dest (Py.round min_distance 2)
                         origin destination_type
        | _ =>
            NearestFailure ("No hay " +:+ destination_type +:+ " dentro de "
                            +:+ str_float max_distance_km +:+ "km")
        end
  end.
End Collaborators.

End DestinationToolsOsm.

(** ** osm_route_tools.py: steps and route analysis *)

Module OsmRouteTools.
Import Exc AirQualityTools.

(** An entry of [route_coords]. *)
Record Coord := { lat : Q; lng : Q; node_id : Z }.

(** An entry of [nodes_with_air_quality]: the sensor, and the score found
    under [node['air_quality']['air_quality_score']]. *)
Module Sensor.
Record t := { nombre : string; lat : Q; lng : Q; air_quality_score : Q }.
End Sensor.

(** What [get_air_quality_for_all_nodes] returns: [success] is false when
    the fetch failed, and then no sensor list is present. *)
Record AirQualityData := {
  success : bool;
  nodes_with_air_quality : list Sensor.t
}.

(** The [air_quality] field of a step. *)
Record PointAirQuality := {
  score : Q;
  level : string;
  nearest_sensor : option string;
  sensor_distance_km : option Q
}.

Inductive StepType := start | navigation | arrival.

Record RouteStep := {
  step_number : nat;
  instruction : string;
  coordinates : Coord;
  distance_from_start_km : Q;
  estimated_time_min : Q;
  air_quality : PointAirQuality;
  icon : string;
  type : StepType
}.

Record QualityPoint := {
  qp_coordinates : Coord;
  qp_score : Q;
  qp_quality_level : string;
  qp_nearest_sensor : string
}.

(** The dictionary [analyze_route_air_quality] returns; a key that a branch
    does not set is [None]. *)
Record RouteAirQuality := {
  average_air_quality_score : Q;
  quality_level : string;
  message : option string;
  samples_analyzed : option nat;
  min_score : option Q;
  max_score : option Q;
  quality_points : option (list QualityPoint);
  recommendation : option string
}.

Definition speeds : gmap string Q :=
  {[ "drive" := 40; "walk" := 5; "bike" := 15 ]}.

Definition get_osm_speed_kmh (mode : string) : Q :=
  default 20 (speeds !! mode).

Definition calculate_osm_duration (distance_km : Q) (mode : string) : Q :=
  (distance_km / get_osm_speed_kmh mode) * 60.

Definition names : gmap string string :=
  {[ "drive" := "vehículo"; "walk" := "caminando"; "bike" := "bicicleta" ]}.

Definition get_mode_display_name (mode : string) : string :=
  default mode (names !! mode).

Definition generate_segment_instruction (segment_idx : nat) (progress : Q)
           (mode : string) : string :=
  let mode_name := get_mode_display_name mode in
  if SpatialJoin.Qltb progress (3 # 10)
  then "⬆️ Continúe por la ruta principal en " +:+ mode_name
  else if SpatialJoin.Qltb progress (6 # 10)
  then "➡️ Manténgase en esta vía en " +:+ mode_name
  else if SpatialJoin.Qltb progress (9 # 10)
  then "↗️ Se acerca a su destino en " +:+ mode_name
  else "🎯 Prepare su llegada al destino final".

Definition icons : list string :=
  ["⬆️"; "➡️"; "↗️"; "🔷"; "🔶"; "🚦"; "🛣️"; "🎯"].

Definition get_segment_icon (segment_idx : nat) : string :=
  List.nth (segment_idx mod length icons) icons "".

Definition generate_air_quality_recommendation (score : Q) : string :=
  if Qle_bool 80 score
  then "✅ Calidad del aire excelente. Ideal para actividades al aire libre."
  else if Qle_bool 60 score
  then "⚠️ Calidad del aire buena. Puede realizar su viaje normalmente."
  else if Qle_bool 40 score
  then "🔶 Calidad moderada. Personas sensibles deben considerar precauciones."
  else "🔴 Calidad del aire mala. Use mascarilla y evite actividades intensas.".

(** [range(start, stop, step)] for a positive [step]; [fuel] bounds the
    number of elements. *)
Fixpoint range_from (fuel start stop step : nat) : list nat :=
  match fuel with
  | O => []
  | S fuel' =>
      if (start <? stop)%nat
      then start :: range_from fuel' (start + step)%nat stop step
      else []
  end.

Definition range_step (stop step : nat) : list nat :=
  range_from stop 0 stop step.

(** [sum(xs)], [min(xs)] and [max(xs)] of a non-empty list. *)
Definition sum (xs : list Q) : Q := fold_left Qplus xs 0.

Definition list_min (xs : list Q) : option Q :=
  match xs with
  | [] => None
  | x :: rest => Some (fold_left Py.min rest x)
  end.

Definition list_max (xs : list Q) : option Q :=
  match xs with
  | [] => None
  | x :: rest => Some (fold_left Py.max rest x)
  end.

(** The default of [max_distance_km] in [find_nearest_air_quality_node]. *)
Definition sensor_radius_km : Q := 3.

Section Synthesis.
Variable geodesic_km : Q * Q -> Q * Q -> Q.

Definition find_nearest_air_quality_node (lat lng : Q)
           (air_quality_nodes : list Sensor.t) (max_distance_km : Q)
  : option Sensor.t :=
  fst (SpatialJoin.nearest_within geodesic_km
         (fun node => (Sensor.lat node, Sensor.lng node))
         (lat, lng) max_distance_km air_quality_nodes).

Definition evaluate_point_air_quality (point : Coord)
           (air_quality_data : AirQualityData) : PointAirQuality :=
  if negb (success air_quality_data)
  then {| score := 50; level := "🔵 Sin datos";
          nearest_sensor := None; sensor_distance_km := None |}
  else
    let air_quality_nodes := nodes_with_air_quality air_quality_data in
    match find_nearest_air_quality_node (lat point) (lng point)
            air_quality_nodes sensor_radius_km with
    | Some nearest =>
        let score := Sensor.air_quality_score nearest in
        {| score := score;
           level := get_quality_level score;
           nearest_sensor := Some (Sensor.nombre nearest);
           sensor_distance_km :=
             Some (Py.round (geodesic_km (lat point, lng point)
                               (Sensor.lat nearest, Sensor.lng nearest)) 2) |}
    | None =>
        {| score := 50; level := "🔵 Sin datos cercanos";
           nearest_sensor := None; sensor_distance_km := None |}
    end.

Definition calculate_distance_along_route (start_point current_point : Coord)
  : Q :=
  geodesic_km (lat start_point, lng start_point)
              (lat current_point, lng current_point).

(** [generate_basic_steps]; [None] is the [IndexError] of [route_coords[0]]
    on an empty list. *)
Definition generate_basic_steps (route_coords : list Coord)
           (air_quality_data : AirQualityData) (mode : string)
           (total_distance_km : Q) : option (list RouteStep) :=
  first ← route_coords !! 0%nat;
  let steps :=
    [ {| step_number := 1;
         instruction := "📍 Inicio del viaje";
         coordinates := first;
         distance_from_start_km := 0;
         estimated_time_min := 0;
         air_quality := evaluate_point_air_quality first air_quality_data;
         icon := "📍";
         type := start |} ] in
  steps ←
    (if (2 <? length route_coords)%nat
     then
       mid_point ← route_coords !! (length route_coords / 2)%nat;
       let mid_distance := calculate_distance_along_route first mid_point in
       Some (steps ++
         [ {| step_number := 2;
              instruction := "🎯 Continúe hacia su destino";
              coordinates := mid_point;
              distance_from_start_km := Py.round mid_distance 2;
              estimated_time_min :=
                Py.round (mid_distance / get_osm_speed_kmh mode * 60) 1;
              air_quality :=
                evaluate_point_air_quality mid_point air_quality_data;
              icon := "🎯";
              type := navigation |} ])
     else Some steps);
  final ← last route_coords;
  Some (steps ++
    [ {| step_number := length steps + 1;
         instruction := "✅ Ha llegado a su destino";
         coordinates := final;
         distance_from_start_km := Py.round total_distance_km 2;
         estimated_time_min :=
           Py.round (total_distance_km / get_osm_speed_kmh mode * 60) 1;
         air_quality := evaluate_point_air_quality final air_quality_data;
         icon := "✅";
         type := arrival |} ]).

(** The [for segment_idx in range(1, num_segments)] loop of
    [generate_detailed_route_steps], from the steps built so far. *)
Fixpoint navigation_steps (route_coords : list Coord)
         (air_quality_data : AirQualityData) (mode : string)
         (first : Coord) (segment_size : nat)
         (segment_idxs : list nat) (steps : list RouteStep)
  : option (list RouteStep) :=
  match segment_idxs with
  | [] => Some steps
  | segment_idx :: rest =>
      let point_idx := (segment_idx * segment_size)%nat in
      if (length route_coords <=? point_idx)%nat
      then Some steps
      else
        current_point ← route_coords !! point_idx;
        let distance_from_start :=
          calculate_distance_along_route first current_point in
        let progress :=
          inject_Z (Z.of_nat point_idx)
          / inject_Z (Z.of_nat (length route_coords)) in
        let instruction :=
          generate_segment_instruction segment_idx progress mode in
        navigation_steps route_coords air_quality_data mode first
          segment_size rest
          (steps ++
           [ {| step_number := length steps + 1;
                instruction := instruction;
                coordinates := current_point;
                distance_from_start_km := Py.round distance_from_start 2;
                estimated_time_min :=
                  Py.round (distance_from_start / get_osm_speed_kmh mode * 60) 1;
                air_quality :=
                  evaluate_point_air_quality current_point air_quality_data;
                icon := get_segment_icon segment_idx;
                type := navigation |} ])
  end.

Definition generate_detailed_route_steps (route_coords : list Coord)
           (air_quality_data : AirQualityData) (mode : string)
           (total_distance_km : Q) : option (list RouteStep) :=
  if (length route_coords <? 3)%nat
  then generate_basic_steps route_coords air_quality_data mode
         total_distance_km
  else
    first ← route_coords !! 0%nat;
    let steps :=
      [ {| step_number := 1;
           instruction := "📍 Inicie su viaje desde el punto de origen";
           coordinates := first;
           distance_from_start_km := 0;
           estimated_time_min := 0;
           air_quality := evaluate_point_air_quality first air_quality_data;
           icon := "📍";
           type := start |} ] in
    let num_segments :=
      Nat.min 8 (Nat.max 3 (length route_coords / 10)) in
    let segment_size := (length route_coords / num_segments)%nat in
    steps ← navigation_steps route_coords air_quality_data mode first
              segment_size (seq 1 (num_segments - 1)) steps;
    final ← last route_coords;
    Some (steps ++
      [ {| step_number := length steps + 1;
           instruction := "🎯 Ha llegado a su destino";
           coordinates := final;
           distance_from_start_km := Py.round total_distance_km 2;
           estimated_time_min :=
             Py.round (total_distance_km / get_osm_speed_kmh mode * 60) 1;
           air_quality := evaluate_point_air_quality final air_quality_data;
           icon := "🎯";
           type := arrival |} ]).

(** The sampled indices and points of [analyze_route_air_quality]. *)
Definition sample_indices (route_coords : list Coord) : list nat :=
  range_step (length route_coords) (Nat.max 1 (length route_coords / 10)).

Definition sample_points (route_coords : list Coord) : list Coord :=
  omap (fun i => if (i <? length route_coords)%nat
                 then route_coords !! i else None)
       (sample_indices route_coords).

(** The [for point in sample_points] loop, from [(scores, quality_points)]. *)
Fixpoint collect_scores (air_quality_nodes : list Sensor.t)
         (points : list Coord) (scores : list Q)
         (quality_points : list QualityPoint)
  : list Q * list QualityPoint :=
  match points with
  | [] => (scores, quality_points)
  | point :: rest =>
      match find_nearest_air_quality_node (lat point) (lng point)
              air_quality_nodes sensor_radius_km with
      | Some nearest_node =>
          let score := Sensor.air_quality_score nearest_node in
          collect_scores air_quality_nodes rest (scores ++ [score])
            (quality_points ++
             [ {| qp_coordinates := point;
                  qp_score := score;
                  qp_quality_level := get_quality_level score;
                  qp_nearest_sensor := Sensor.nombre nearest_node |} ])
      | None => collect_scores air_quality_nodes rest scores quality_points
      end
  end.

Definition no_data (level msg : string) : RouteAirQuality :=
  {| average_air_quality_score := 50;
     quality_level := level;
     message := Some msg;
     samples_analyzed := None;
     min_score := None;
     max_score := None;
     quality_points := None;
     recommendation := None |}.

Definition analyze_route_air_quality (route_coords : list Coord)
           (air_quality_data : AirQualityData) : RouteAirQuality :=
  if negb (success air_quality_data)
  then no_data "🔵 Sin datos" "No hay datos disponibles de calidad del aire"
  else
    let air_quality_nodes := nodes_with_air_quality air_quality_data in
    match air_quality_nodes with
    | [] => no_data "🔵 Sin datos"
              "No se encontraron sensores de calidad del aire"
    | _ =>
        let '(scores, quality_points) :=
          collect_scores air_quality_nodes (sample_points route_coords)
            [] [] in
        match scores with
        | [] => no_data "🔵 Desconocida"
                  "No se pudieron obtener datos de calidad del aire en la ruta"
        | _ =>
            let avg_score :=
              sum scores / inject_Z (Z.of_nat (length scores)) in
            {| average_air_quality_score := Py.round avg_score 2;
               quality_level := get_quality_level avg_score;
               message := None;
               samples_analyzed := Some (length scores);
               min_score := (fun m => Py.round m 2) <$> list_min scores;
               max_score := (fun m => Py.round m 2) <$> list_max scores;
               quality_points := Some (take 3 quality_points);
               recommendation :=
                 Some (generate_air_quality_recommendation avg_score) |}
        end
    end.
End Synthesis.

(** *** The orchestrators *)

Record Place := { place_lat : Q; place_lng : Q; place_name : string }.

Record RouteSummary := {
  origin : Place;
  destination : Place;
  total_distance_km : Q;
  total_distance_m : Q;
  estimated_duration_min : Q;
  transport_mode : string;
  nodes_in_route : nat;
  coordinates_count : nat
}.

Record Bounds := { north : Q; south : Q; east : Q; west : Q }.

Record Marker := { marker_lat : Q; marker_lng : Q; marker_type : string }.

Record MapData := {
  bounds : Bounds;
  center : Q * Q;
  origin_marker : Marker;
  destination_marker : Marker
}.

Record NearestSearch := {
  ns_type : string;
  straight_line_distance_km : Q;
  actual_route_distance_km : Q
}.

(** The successful result; the last four keys are the ones the search and
    nearest-of-type orchestrators add. *)
Record RouteResult := {
  route_type : string;
  route_summary : RouteSummary;
  step_by_step_instructions : list RouteStep;
  route_coordinates : list (Q * Q);
  air_quality_analysis : RouteAirQuality;
  map_data : MapData;
  timestamp : string;
  destination_info : option DestinationToolsOsm.Destination;
  search_query : option string;
  alternative_destinations : option (list DestinationToolsOsm.Destination);
  nearest_search : option NearestSearch
}.

(** What an orchestrator hands to its caller: the result dictionary with
    [success = True], or [{"success": False, "error": ...}]. *)
Inductive RouteResponse :=
| RouteOk (result : RouteResult)
| RouteError (error : string).

Definition response_success (r : RouteResponse) : bool :=
  match r with RouteOk _ => true | RouteError _ => false end.


(** What steps 1 to 5 of [get_osm_route_with_air_quality] obtain from the
    street graph: the coordinates of the shortest path and the summed edge
    lengths in meters. *)
Record OsmPath := { path_coords : list Coord; path_length_m : Q }.

Definition calculate_osm_bounds (route_coords : list Coord) : option Bounds :=
  let lats := map lat route_coords in
  let lngs := map lng route_coords in
  n ← list_max lats;
  s ← list_min lats;
  e ← list_max lngs;
  w ← list_min lngs;
  Some {| north := n; south := s; east := e; west := w |}.

Definition find_route_center (route_coords : list Coord) : option (Q * Q) :=
  mid ← route_coords !! (length route_coords / 2)%nat;
  Some (lat mid, lng mid).

Definition with_destination_info (r : RouteResult)
           (info : DestinationToolsOsm.Destination)
           (query : option string)
           (alternatives : option (list DestinationToolsOsm.Destination))
           (nearest : option NearestSearch) : RouteResult :=
  {| route_type := route_type r;
     route_summary := route_summary r;
     step_by_step_instructions := step_by_step_instructions r;
     route_coordinates := route_coordinates r;
     air_quality_analysis := air_quality_analysis r;
     map_data := map_data r;
     timestamp := timestamp r;
     destination_info := Some info;
     search_query := query;
     alternative_destinations := alternatives;
     nearest_search := nearest |}.

Section Orchestrators.
Variable geodesic_km : Q * Q -> Q * Q -> Q.
(** Graph download, snapping, shortest path, coordinates and length. *)
Variable osm_path : Q -> Q -> Q -> Q -> string -> exc OsmPath.
(** The value of [get_air_quality_for_all_nodes()], which catches its own
    exceptions. *)
Variable air_quality_snapshot : AirQualityData.
(** [datetime.now().isoformat()] *)
Variable now_isoformat : string.
Variable find_destination_osm :
  string -> exc DestinationToolsOsm.DestinationSearch.
Variable str_float : Q -> string.

(** The [try] block of [get_osm_route_with_air_quality]. *)
Definition route_body (origin_lat origin_lng destination_lat destination_lng : Q)
           (mode : string) : exc RouteResult :=
  path ← osm_path origin_lat origin_lng destination_lat destination_lng mode;
  let route_coords := path_coords path in
  let route_length_m := path_length_m path in
  let route_length_km := route_length_m / 1000 in
  let air_quality_data := air_quality_snapshot in
  steps ← of_option "list index out of range"
            (generate_detailed_route_steps geodesic_km route_coords
               air_quality_data mode route_length_km);
  let route_air_quality :=
    analyze_route_air_quality geodesic_km route_coords air_quality_data in
  bounds ← of_option "max() arg is an empty sequence"
             (calculate_osm_bounds route_coords);
  center ← of_option "list index out of range"
             (find_route_center route_coords);
  Ret {| route_type := "REAL_OSM_ROUTE";
         route_summary :=
           {| origin := {| place_lat := origin_lat; place_lng := origin_lng;
                           place_name := "Origen" |};
              destination := {| place_lat := destination_lat;
                                place_lng := destination_lng;
                                place_name := "Destino" |};
              total_distance_km := Py.round route_length_km 2;
              total_distance_m := Py.round route_length_m 2;
              estimated_duration_min :=
                Py.round (calculate_osm_duration route_length_km mode) 1;
              transport_mode := get_mode_display_name mode;
              nodes_in_route := length route_coords;
              coordinates_count := length route_coords |};
         step_by_step_instructions := steps;
         route_coordinates := map (fun coord => (lat coord, lng coord))
                                  route_coords;
         air_quality_analysis := route_air_quality;
         map_data :=
           {| bounds := bounds;
              center := center;
              origin_marker := {| marker_lat := origin_lat;
                                  marker_lng := origin_lng;
                                  marker_type := "origin" |};
              destination_marker := {| marker_lat := destination_lat;
                                       marker_lng := destination_lng;
                                       marker_type := "destination" |} |};
         timestamp := now_isoformat;
         destination_info := None;
         search_query := None;
         alternative_destinations := None;
         nearest_search := None |}.

Definition get_osm_route_with_air_quality
           (origin_lat origin_lng destination_lat destination_lng : Q)
           (mode : string) : RouteResponse :=
  match route_body origin_lat origin_lng destination_lat destination_lng
          mode with
  | Ret result => RouteOk result
  | Raise e => RouteError ("Error en cálculo de ruta: " +:+ e)
  end.

(** The [try] block of [get_complete_route_with_osm_search]. *)
Definition search_body (origin_lat origin_lng : Q)
           (destination_query mode : string) : exc RouteResponse :=
  dest_result ← find_destination_osm destination_query;
  if negb (DestinationToolsOsm.success dest_result)
     || match DestinationToolsOsm.matches dest_result with
        | [] => true | _ => false end
  then Ret (RouteError ("No se encontró '" +:+ destination_query
                        +:+ "' en OpenStreetMap"))
  else
    destination ← of_option "list index out of range"
                    (DestinationToolsOsm.matches dest_result !! 0%nat);
    match get_osm_route_with_air_quality origin_lat origin_lng
            (DestinationToolsOsm.lat destination)
            (DestinationToolsOsm.lng destination) mode with
    | RouteError e => Ret (RouteError e)
    | RouteOk route_result =>
        Ret (RouteOk (with_destination_info route_result destination
                        (Some destination_query)
                        (Some (take 2 (drop 1
                           (DestinationToolsOsm.matches dest_result))))
                        None))
    end.

Definition get_complete_route_with_osm_search (origin_lat origin_lng : Q)
           (destination_query mode : string) : RouteResponse :=
  match search_body origin_lat origin_lng destination_query mode with
  | Ret response => response
  | Raise e => RouteError e
  end.

(** The default of [max_distance_km] in [find_nearest_destination]. *)
Definition destination_radius_km : Q := 10.

(** The [try] block of [get_nearest_route_with_air_quality]. *)
Definition nearest_body (origin_lat origin_lng : Q)
           (destination_type mode : string) : exc RouteResponse :=
  match DestinationToolsOsm.find_nearest_destination geodesic_km
          find_destination_osm str_float origin_lat origin_lng
          destination_type destination_radius_km with
  | DestinationToolsOsm.NearestFailure e => Ret (RouteError e)
  | DestinationToolsOsm.NearestFound destination distance_km _ _ =>
      match get_osm_route_with_air_quality origin_lat origin_lng
              (DestinationToolsOsm.lat destination)
              (DestinationToolsOsm.lng destination) mode with
      | RouteError e => Ret (RouteError e)
      | RouteOk route_result =>
          Ret (RouteOk (with_destination_info route_result destination
                          None None
                          (Some {| ns_type := destination_type;
                                   straight_line_distance_km := distance_km;
                                   actual_route_distance_km :=
                                     total_distance_km
                                       (route_summary route_result) |})))
      end
  end.

Definition get_nearest_route_with_air_quality (origin_lat origin_lng : Q)
           (destination_type mode : string) : RouteResponse :=
  match nearest_body origin_lat origin_lng destination_type mode with
  | Ret response => response
  | Raise e => RouteError e
  end.
End Orchestrators.

End OsmRouteTools.

(** ** Properties of a step sequence, as the specification words them *)

Module StepSpec.
Import OsmRouteTools.

(** [step_number] is contiguous starting at 1. *)
Definition numbered_from_one (steps : list RouteStep) : Prop :=
  map step_number steps = seq 1 (length steps).

Definition non_negative (steps : list RouteStep) : Prop :=
  Forall (fun s => 0 <= distance_from_start_km s /\ 0 <= estimated_time_min s)
         steps.

(** Distance and time do not decrease from a step to the next, except from
    a navigation step to the arrival step. *)
Definition non_decreasing_up_to_arrival (steps : list RouteStep) : Prop :=
  forall (i : nat) (a b : RouteStep),
    steps !! i = Some a -> steps !! S i = Some b ->
    (type a = navigation /\ type b = arrival)
    \/ (distance_from_start_km a <= distance_from_start_km b
        /\ estimated_time_min a <= estimated_time_min b).

Definition step_invariant (steps : list RouteStep) : Prop :=
  numbered_from_one steps
  /\ non_negative steps
  /\ non_decreasing_up_to_arrival steps.

(** The start step carries 0 and 0, so no later step is below it. *)
Definition starts_at_zero (steps : list RouteStep) : Prop :=
  exists (s : RouteStep) (rest : list RouteStep),
    steps = s :: rest
    /\ type s = start
    /\ distance_from_start_km s = 0 /\ estimated_time_min s = 0.

Section Navigation.
Variable geodesic_km : Q * Q -> Q * Q -> Q.
Variable route_coords : list Coord.
Variable air_quality_data : AirQualityData.
Variable mode : string.
Variable first : Coord.
Variable segment_size : nat.

(** [s] is the navigation step the loop appends for [segment_idx] when
    [number - 1] steps exist. *)
Definition navigation_at (number segment_idx : nat) (s : RouteStep) : Prop :=
  exists current_point : Coord,
    route_coords !! (segment_idx * segment_size)%nat = Some current_point
    /\ step_number s = number
    /\ coordinates s = current_point
    /\ type s = navigation
    /\ distance_from_start_km s
       = Py.round (calculate_distance_along_route geodesic_km first
                     current_point) 2
    /\ estimated_time_min s
       = Py.round (calculate_distance_along_route geodesic_km first
                     current_point / get_osm_speed_kmh mode * 60) 1
    /\ air_quality s
       = evaluate_point_air_quality geodesic_km current_point
           air_quality_data.

(** The steps appended for a list of segment indices, after [base] steps. *)
Inductive navigation_run : nat -> list nat -> list RouteStep -> Prop :=
| run_done (base : nat) : navigation_run base [] []
| run_step (base segment_idx : nat) (rest : list nat)
           (s : RouteStep) (navs : list RouteStep) :
    navigation_at (base + 1) segment_idx s ->
    navigation_run (base + 1) rest navs ->
    navigation_run base (segment_idx :: rest) (s :: navs).
End Navigation.



End StepSpec.

(** ** Concrete inputs

    The geodesic of [geopy] is not computable in [Q]; on concrete inputs the
    theorems are exercised with [flat_km], 111 km per degree of latitude and
    of longitude.  The sample points share one meridian, where the geodesic is
    the meridian arc and grows with the difference of latitude as [flat_km]
    does. *)

Module Samples.
Import OsmRouteTools.

Definition flat_km (p q : Q * Q) : Q :=
  111 * (Qabs (fst p - fst q) + Qabs (snd p - snd q)).

Definition sensor_at (name : string) (km_north : Z) (score : Q) : Sensor.t :=
  {| Sensor.nombre := name;
     Sensor.lat := km_north # 111;
     Sensor.lng := - (765 # 10);
     Sensor.air_quality_score := score |}.

(** Sensors 1, 2 and 5 km north of the point [(0, -76.5)]. *)
Definition sensor_1km : Sensor.t := sensor_at "uno" 1 80.
Definition sensor_2km : Sensor.t := sensor_at "dos" 2 60.
Definition sensor_5km : Sensor.t := sensor_at "cinco" 5 40.
Definition three_sensors : list Sensor.t :=
  [sensor_1km; sensor_2km; sensor_5km].

(** A route node [k] hundredths of a degree north of latitude 3.40. *)
Definition node_north (k : Z) : Coord :=
  {| lat := (340 + k) # 100; lng := - (765 # 10); node_id := k |}.

(** [n] nodes heading north. *)
Definition route_north (n : nat) : list Coord :=
  map (fun k => node_north (Z.of_nat k)) (seq 0 n).

(** Out 0.10 degrees (about 11 km) and back to 0.01 degrees from the start. *)
Definition route_out_and_back : list Coord :=
  [node_north 0; node_north 10; node_north 1].

Definition snapshot_failed : AirQualityData :=
  {| success := false; nodes_with_air_quality := [] |}.

Definition snapshot_empty : AirQualityData :=
  {| success := true; nodes_with_air_quality := [] |}.


Definition farmacia_far : DestinationToolsOsm.Destination :=
  {| DestinationToolsOsm.nombre := "Farmacia Cruz Verde";
     DestinationToolsOsm.lat := 2 # 111;
     DestinationToolsOsm.lng := - (765 # 10);
     DestinationToolsOsm.type := "pharmacy";
     DestinationToolsOsm.address := "Cra. 4 # 10-25" |}.

Definition farmacia_near : DestinationToolsOsm.Destination :=
  {| DestinationToolsOsm.nombre := "Farmacia Dr. Simi";
     DestinationToolsOsm.lat := 1 # 111;
     DestinationToolsOsm.lng := - (765 # 10);
     DestinationToolsOsm.type := "pharmacy";
     DestinationToolsOsm.address := "Calle 5 # 62-15" |}.

(** A place search that always answers with the two pharmacies. *)
Definition search_farmacias (_ : string)
  : Exc.exc DestinationToolsOsm.DestinationSearch :=
  Exc.Ret {| DestinationToolsOsm.success := true;
             DestinationToolsOsm.matches := [farmacia_far; farmacia_near];
             DestinationToolsOsm.error := None |}.

(** A place search whose provider is down. *)
Definition search_down (_ : string)
  : Exc.exc DestinationToolsOsm.DestinationSearch :=
  Exc.Raise "connection refused".

Definition str_float_stub (_ : Q) : string := "10.0".

(** A graph provider that answers with four nodes heading north, 3.4 km. *)
Definition path_north (_ _ _ _ : Q) (_ : string) : Exc.exc OsmPath :=
  Exc.Ret {| path_coords := route_north 4; path_length_m := 3400 |}.

(** A graph provider that cannot reach the area. *)
Definition path_down (_ _ _ _ : Q) (_ : string) : Exc.exc OsmPath :=
  Exc.Raise "no path".

End Samples.

(** ** air_quality_tools.py: the sensor feed *)

Module AirQualityFeed.
Import Exc Py.

(** A normalised node of [get_cali_nodes]; the API gives the name as a
    string and the coordinates as numbers. *)
Record CaliNode := {
  id : pyval;
  nombre : string;
  lat : Q;
  lng : Q;
  direccion : pyval;
  deviceId : pyval;
  tipo : string
}.

(** What [get_cali_nodes] returns: the nodes and their count, or an error. *)
Inductive NodesResult :=
| NodesOk (nodes : list CaliNode) (total : nat)
| NodesError (error : string).

(** The [latest_data] dictionary of [get_air_quality_metrics]. *)
Record LatestData := {
  latest_deviceId : pyval;
  timestamp : pyval;
  massPM2_5IcaAvg : pyval;
  massPM10_0IcaAvg : pyval;
  massPM10_0Avg : pyval;
  massPM2_5Avg : pyval;
  air_quality_score : Q
}.

(** The response of [requests.get]: the status, and what [response.json()]
    gives, a list of readings, unless it raises. *)
Record HttpResponse := {
  status_code : Z;
  json : exc (list (gmap string pyval))
}.

(** What [get_air_quality_metrics] returns; [metrics = None] is the empty
    dictionary [{}]. *)
Inductive MetricsResult :=
| MetricsOk (metrics : option LatestData) (deviceId : pyval) (date : string)
            (total_readings : nat)
| MetricsError (error : string) (deviceId : pyval).

(** An entry [{**node, "air_quality": metrics}]. *)
Record NodeWithAirQuality := { node : CaliNode; air_quality : LatestData }.

(** What [get_air_quality_for_all_nodes] returns. *)
Inductive AllNodesResult :=
| AllNodesOk (nodes_with_air_quality : list NodeWithAirQuality)
             (total_nodes nodes_with_data : nat)
| AllNodesError (error : string).

(** [str] of an [int], as an f-string prints it. *)
Definition str_int (z : Z) : string := NilZero.string_of_int (Z.to_int z).

Section Feed.
(** [requests.get] on [metrics/range_public] with [deviceId] and
    [start_date]; it may raise. *)
Variable requests_get : pyval -> string -> exc HttpResponse.
(** [datetime.now().strftime("%Y-%m-%d")] *)
Variable today : string.
(** The value of [get_cali_nodes()], which catches its own exceptions. *)
Variable get_cali_nodes : NodesResult.

Definition get_air_quality_metrics (deviceId : pyval)
           (start_date : option string) : MetricsResult :=
  let start_date :=
    match start_date with
    | Some d => if String.eqb d "" then today else d
    | None => today
    end in
  match requests_get deviceId start_date with
  | Raise e => MetricsError e deviceId
  | Ret response =>
      if (status_code response =? 200)%Z
      then
        match json response with
        | Raise e => MetricsError e deviceId
        | Ret metrics_data =>
            let latest_data :=
              match last metrics_data with
              | Some latest =>
                  Some {| latest_deviceId := deviceId;
                          timestamp := dict_get latest "timestamp" PNone;
                          massPM2_5IcaAvg :=
                            dict_get latest "massPM2_5IcaAvg" PNone;
                          massPM10_0IcaAvg :=
                            dict_get latest "massPM10_0IcaAvg" PNone;
                          massPM10_0Avg := dict_get latest "massPM10_0Avg" PNone;
                          massPM2_5Avg := dict_get latest "massPM2_5Avg" PNone;
                          air_quality_score :=
                            AirQualityTools.calculate_air_quality_score latest |}
              | None => None
              end in
            MetricsOk latest_data deviceId start_date (length metrics_data)
        end
      else MetricsError ("API Error: " +:+ str_int (status_code response))
                        deviceId
  end.

(** The [for node in nodes] loop of [get_air_quality_for_all_nodes], from the
    entries collected so far. *)
Fixpoint collect_air_quality (nodes : list CaliNode)
         (air_quality_data : list NodeWithAirQuality)
  : list NodeWithAirQuality :=
  match nodes with
  | [] => air_quality_data
  | node :: rest =>
      if truthy (deviceId node)
      then
        match get_air_quality_metrics (deviceId node) None with
        | MetricsOk (Some metrics) _ _ _ =>
            collect_air_quality rest
              (air_quality_data ++ [ {| node := node; air_quality := metrics |} ])
        | _ => collect_air_quality rest air_quality_data
        end
      else collect_air_quality rest air_quality_data
  end.

Definition get_air_quality_for_all_nodes : AllNodesResult :=
  match get_cali_nodes with
  | NodesError e => AllNodesError e
  | NodesOk nodes _ =>
      let air_quality_data := collect_air_quality nodes [] in
      AllNodesOk air_quality_data (length nodes) (length air_quality_data)
  end.
End Feed.

(** How osm_route_tools.py reads an entry: name, coordinates and
    [node['air_quality']['air_quality_score']]. *)
Definition as_sensor (entry : NodeWithAirQuality) : OsmRouteTools.Sensor.t :=
  {| OsmRouteTools.Sensor.nombre := nombre (node entry);
     OsmRouteTools.Sensor.lat := lat (node entry);
     OsmRouteTools.Sensor.lng := lng (node entry);
     OsmRouteTools.Sensor.air_quality_score :=
       air_quality_score (air_quality entry) |}.

(** How osm_route_tools.py reads the result: [.get('success')] and
    [.get('nodes_with_air_quality', [])]. *)
Definition as_snapshot (r : AllNodesResult) : OsmRouteTools.AirQualityData :=
  match r with
  | AllNodesOk entries _ _ =>
      {| OsmRouteTools.success := true;
         OsmRouteTools.nodes_with_air_quality := map as_sensor entries |}
  | AllNodesError _ =>
      {| OsmRouteTools.success := false;
         OsmRouteTools.nodes_with_air_quality := [] |}
  end.

End AirQualityFeed.

(** ** destination_tools_osm.py: the place search *)

Module DestinationSearchOsm.
Import Exc DestinationToolsOsm.

(** [l[:limit]], also for a negative [limit]. *)
Definition slice_to {A : Type} (l : list A) (limit : Z) : list A :=
  if (0 <=? limit)%Z
  then take (Z.to_nat limit) l
  else take (length l - Z.to_nat (- limit)) l.

(** The dictionary [find_destination_osm] returns, with the keys the
    orchestrators do not read. *)
Record SearchResult := {
  result : DestinationSearch;
  search_term : option string;
  total_matches : option nat;
  source : option string
}.

(** The success dictionary; the three places that build it differ in
    [source] only. *)
Definition found (matches : list Destination) (limit : Z)
           (destination_name source : string) : SearchResult :=
  {| result := {| success := true;
                  matches := slice_to matches limit;
                  error := None |};
     search_term := Some destination_name;
     total_matches := Some (length matches);
     source := Some source |}.

Section Providers.
(** The tag search over OpenStreetMap. *)
Variable find_destination_by_tags : string -> string -> Z -> exc (list Destination).
(** The static gazetteer. *)
Variable find_destination_backup : string -> list Destination.

Definition find_destination_osm (destination_name location : string)
           (limit : Z) : SearchResult :=
  match find_destination_by_tags destination_name location limit with
  | Ret matches =>
      match matches with
      | _ :: _ => found matches limit destination_name "osm_tags"
      | [] =>
          let backup_matches := find_destination_backup destination_name in
          match backup_matches with
          | _ :: _ =>
              found backup_matches limit destination_name "backup_database"
          | [] =>
              {| result :=
                   {| success := false;
                      matches := [];
                      error := Some ("No se encontraron resultados para '"
                                     +:+ destination_name +:+ "'") |};
                 search_term := Some destination_name;
                 total_matches := None;
                 source := None |}
          end
      end
  | Raise e =>
      let backup_matches := find_destination_backup destination_name in
      match backup_matches with
      | _ :: _ => found backup_matches limit destination_name "backup_fallback"
      | [] =>
          {| result := {| success := false; matches := []; error := Some e |};
             search_term := None;
             total_matches := None;
             source := None |}
      end
  end.

(** The call [find_destination_osm(query)] of the orchestrators, with the
    default location and limit. *)
Definition search (query : string) : exc DestinationSearch :=
  Ret (result (find_destination_osm query "Cali, Colombia" 5)).
End Providers.

End DestinationSearchOsm.

(** ** destination_tools_osm.py: the static gazetteer *)

Module DestinationBackup.
Import DestinationToolsOsm.

(** [sub in s] on strings. *)
Fixpoint contains (sub s : string) : bool :=
  String.prefix sub s
  || match s with
     | EmptyString => false
     | String _ rest => contains sub rest
     end.

Definition place (nombre : string) (lat lng : Q) (type address : string)
  : Destination :=
  {| nombre := nombre; lat := lat; lng := lng; type := type;
     address := address |}.

(** [destinations_db], in the order of the dictionary literal. *)
Definition destinations_db : list (string * list Destination) :=
  [ ("hospital",
     [ place "Hospital Universitario del Valle" (33759 # 10000)
             (- (765325 # 10000)) "hospital" "Calle 5 # 36-08";
       place "Clínica Imbanaco" (34205 # 10000) (- (765462 # 10000))
             "hospital" "Cra. 38 # 5A-100";
       place "Fundación Valle del Lili" (33686 # 10000) (- (765307 # 10000))
             "hospital" "Cra. 98 # 18-49";
       place "Hospital San Juan de Dios" (34512 # 10000) (- (765401 # 10000))
             "hospital" "Cra. 10 # 1-27" ]);
    ("universidad",
     [ place "Universidad del Valle" (33759 # 10000) (- (765325 # 10000))
             "university" "Ciudad Universitaria Meléndez";
       place "Universidad Santiago de Cali" (34412 # 10000)
             (- (765456 # 10000)) "university" "Calle 5 # 62-00";
       place "Universidad Icesi" (33409 # 10000) (- (765301 # 10000))
             "university" "Cra. 122 # 1-80";
       place "Universidad Autónoma de Occidente" (34376 # 10000)
             (- (765465 # 10000)) "university" "Cra. 122 # 1-80" ]);
    ("centro comercial",
     [ place "Centro Comercial Jardín Plaza" (33689 # 10000)
             (- (765297 # 10000)) "mall" "Cra. 100 # 5-169";
       place "Centro Comercial Único" (34203 # 10000) (- (765468 # 10000))
             "mall" "Cra. 38 # 5-01";
       place "Centro Comercial Chipichape" (34926 # 10000)
             (- (765008 # 10000)) "mall" "Cra. 38 # 53-45" ]);
    ("parque",
     [ place "Parque del Perro" (34025 # 10000) (- (765456 # 10000))
             "park" "Calle 2 Oeste";
       place "Parque del Gato" (34518 # 10000) (- (765321 # 10000))
             "park" "Cra. 4 # 10-00";
       place "Parque de la Caña" (34852 # 10000) (- (765051 # 10000))
             "park" "Cra. 56 # 3-00" ]);
    ("aeropuerto",
     [ place "Aeropuerto Alfonso Bonilla Aragón" (35432 # 10000)
             (- (763815 # 10000)) "airport" "Palmira, Valle del Cauca" ]);
    ("farmacia",
     [ place "Farmacia Cruz Verde" (34510 # 10000) (- (765320 # 10000))
             "pharmacy" "Cra. 4 # 10-25";
       place "Farmacia Dr. Simi" (34415 # 10000) (- (765460 # 10000))
             "pharmacy" "Calle 5 # 62-15" ]);
    ("banco",
     [ place "Banco de Bogotá" (34515 # 10000) (- (765318 # 10000))
             "bank" "Cra. 4 # 10-30";
       place "Bancolombia" (34418 # 10000) (- (765458 # 10000))
             "bank" "Calle 5 # 62-20" ]) ].

(** Every place of the gazetteer, category after category. *)
Definition all_places : list Destination :=
  List.concat (map snd destinations_db).

Section Builtins.
(** [str.lower] and [str.split] of Python, which follow Unicode. *)
Variable lower : string -> string.
Variable split : string -> list string.

(** The three search loops of [find_destination_backup]. *)
Definition by_category (destination_name_lower : string) : list Destination :=
  List.concat
    (map snd
       (filter (fun entry => contains (fst entry) destination_name_lower = true)
               destinations_db)).

Definition by_name (destination_name_lower : string) : list Destination :=
  filter (fun p => contains destination_name_lower (lower (nombre p)) = true)
         all_places.

Definition by_words (destination_name_lower : string) : list Destination :=
  filter
    (fun p =>
       let name_words := split (lower (nombre p)) in
       let search_words := split destination_name_lower in
       existsb (fun search_word =>
                  contains search_word (String.concat " " name_words))
               search_words = true)
    all_places.

Definition find_destination_backup (destination_name : string)
  : list Destination :=
  let destination_name_lower := lower destination_name in
  let matches := by_category destination_name_lower in
  let matches :=
    match matches with
    | [] => by_name destination_name_lower
    | _ => matches
    end in
  match matches with
  | [] => by_words destination_name_lower
  | _ => matches
  end.
End Builtins.

End DestinationBackup.

(** ** More concrete inputs *)

(** ** The tag table of the OpenStreetMap search *)

Module OsmTags.
Import DestinationBackup.

(** The value of an OSM tag: a string, a list of strings or [True]. *)
Inductive TagValue :=
| TagStr (value : string)
| TagList (values : list string)
| TagTrue.

(** A tag dictionary of one key, as every dictionary of the table is. *)
Definition Tags : Type := string * TagValue.

(** [tag_mappings]: each entry is a dictionary of one search term. *)
Definition tag_mappings : list (string * Tags) :=
  [ ("hospital", ("amenity", TagStr "hospital"));
    ("clínica", ("amenity", TagStr "clinic"));
    ("salud", ("amenity", TagList ["hospital"; "clinic"; "doctors"]));
    ("farmacia", ("amenity", TagStr "pharmacy"));
    ("medico", ("amenity", TagStr "doctors"));
    ("universidad", ("amenity", TagStr "university"));
    ("colegio", ("amenity", TagStr "school"));
    ("escuela", ("amenity", TagStr "school"));
    ("educación", ("amenity", TagList ["university"; "college"; "school"]));
    ("centro comercial", ("shop", TagStr "mall"));
    ("supermercado", ("shop", TagStr "supermarket"));
    ("tienda", ("shop", TagTrue));
    ("compras", ("shop", TagTrue));
    ("restaurante", ("amenity", TagStr "restaurant"));
    ("café", ("amenity", TagStr "cafe"));
    ("comida", ("amenity", TagList ["restaurant"; "cafe"; "fast_food"]));
    ("parque", ("leisure", TagStr "park"));
    ("cine", ("amenity", TagStr "cinema"));
    ("teatro", ("amenity", TagStr "theatre"));
    ("aeropuerto", ("aeroway", TagStr "aerodrome"));
    ("estación", ("amenity", TagList ["bus_station"; "train_station"]));
    ("bus", ("amenity", TagStr "bus_station"));
    ("banco", ("amenity", TagStr "bank"));
    ("hotel", ("tourism", TagStr "hotel"));
    ("gasolina", ("amenity", TagStr "fuel"));
    ("policía", ("amenity", TagStr "police"));
    ("bomberos", ("amenity", TagStr "fire_station")) ].

(** The tags searched when no term of the table occurs. *)
Definition general_tags : list Tags :=
  [ ("amenity", TagTrue); ("shop", TagTrue); ("tourism", TagTrue) ].

Section Builtins.
Variable lower : string -> string.

Definition get_osm_tags_for_search (search_term : string) : list Tags :=
  let search_term := lower search_term in
  let matching_tags :=
    map snd
        (filter (fun mapping => contains (fst mapping) search_term = true)
                tag_mappings) in
  match matching_tags with
  | [] => general_tags
  | _ => matching_tags
  end.
End Builtins.

End OsmTags.

Module MoreSamples.
Import OsmRouteTools.

(** One sensor at the first node of the sample routes. *)
Definition snapshot_near : AirQualityData :=
  {| success := true;
     nodes_with_air_quality :=
       [ {| Sensor.nombre := "Univalle";
            Sensor.lat := 340 # 100;
            Sensor.lng := - (765 # 10);
            Sensor.air_quality_score := 72 |};
         {| Sensor.nombre := "Pance";
            Sensor.lat := 342 # 100;
            Sensor.lng := - (765 # 10);
            Sensor.air_quality_score := 90 |} ] |}.

Definition reading (pm25 pm10 : Z) : gmap string Py.pyval :=
  {[ "massPM2_5Avg" := Py.PInt pm25; "massPM10_0Avg" := Py.PInt pm10;
     "timestamp" := Py.PStr "2026-01-01T08:00:00" ]}.

(** A metrics API with two readings for device "A", none for device "B",
    status 503 for device "C", and a dropped connection otherwise. *)
Definition requests_get_stub (deviceId : Py.pyval) (_ : string)
  : Exc.exc AirQualityFeed.HttpResponse :=
  match deviceId with
  | Py.PStr "A" =>
      Exc.Ret {| AirQualityFeed.status_code := 200;
                 AirQualityFeed.json := Exc.Ret [reading 40 80; reading 10 20] |}
  | Py.PStr "B" =>
      Exc.Ret {| AirQualityFeed.status_code := 200;
                 AirQualityFeed.json := Exc.Ret [] |}
  | Py.PStr "C" =>
      Exc.Ret {| AirQualityFeed.status_code := 503;
                 AirQualityFeed.json := Exc.Raise "no body" |}
  | _ => Exc.Raise "connection reset"
  end.

Definition cali_node (name : string) (device : Py.pyval) (k : Z)
  : AirQualityFeed.CaliNode :=
  {| AirQualityFeed.id := Py.PInt k;
     AirQualityFeed.nombre := name;
     AirQualityFeed.lat := (340 + k) # 100;
     AirQualityFeed.lng := - (765 # 10);
     AirQualityFeed.direccion := Py.PStr "";
     AirQualityFeed.deviceId := device;
     AirQualityFeed.tipo := "Punto de interés" |}.

Definition four_nodes : AirQualityFeed.NodesResult :=
  AirQualityFeed.NodesOk
    [ cali_node "uno" (Py.PStr "A") 0; cali_node "dos" Py.PNone 1;
      cali_node "tres" (Py.PStr "B") 2; cali_node "cuatro" (Py.PStr "C") 3 ] 4.

(** A tag search that finds nothing, and one whose provider is down. *)
Definition tags_nothing (_ _ : string) (_ : Z)
  : Exc.exc (list DestinationToolsOsm.Destination) := Exc.Ret [].

Definition tags_down (_ _ : string) (_ : Z)
  : Exc.exc (list DestinationToolsOsm.Destination) := Exc.Raise "timeout".

Definition backup_farmacias (_ : string)
  : list DestinationToolsOsm.Destination :=
  [Samples.farmacia_far; Samples.farmacia_near].

(** [str.lower] on ASCII letters; other bytes are kept. *)
Definition ascii_lower (s : string) : string :=
  string_of_list_ascii
    (map (fun c => let n := Ascii.nat_of_ascii c in
                   if ((65 <=? n) && (n <=? 90))%nat
                   then Ascii.ascii_of_nat (n + 32) else c)
         (list_ascii_of_string s)).

(** A [str.split] that does not split: enough for one-word strings. *)
Definition one_word (s : string) : list string :=
  match s with EmptyString => [] | _ => [s] end.

Definition backup_nothing (_ : string)
  : list DestinationToolsOsm.Destination := [].

End MoreSamples.

(* ===================================================================== *)
(** * Part II: theorems                                                   *)
(* ===================================================================== *)

(** ** Arithmetic of the Python builtins *)

Module PyFacts.

Lemma max_cases (a b : Q) :
  (a < b /\ Py.max a b = b) \/ (b <= a /\ Py.max a b = a).
Proof.
  unfold Py.max. destruct (Qcompare a b) eqn:E.
  - right. split; [apply Qeq_alt in E; rewrite E; apply Qle_refl | reflexivity].
  - left. split; [apply Qlt_alt; exact E | reflexivity].
  - right. split; [apply Qlt_le_weak, Qgt_alt; exact E | reflexivity].
Qed.

Lemma min_cases (a b : Q) :
  (b < a /\ Py.min a b = b) \/ (a <= b /\ Py.min a b = a).
Proof.
  unfold Py.min. destruct (Qcompare b a) eqn:E.
  - right. split; [apply Qeq_alt in E; rewrite E; apply Qle_refl | reflexivity].
  - left. split; [apply Qlt_alt; exact E | reflexivity].
  - right. split; [apply Qlt_le_weak, Qgt_alt; exact E | reflexivity].
Qed.

Lemma max_Qmax (a b : Q) : Py.max a b == Qmax a b.
Proof.
  destruct (max_cases a b) as [[H ->]|[H ->]];
    destruct (Q.max_spec a b) as [[H' ->]|[H' ->]]; lra.
Qed.

Lemma min_Qmin (a b : Q) : Py.min a b == Qmin a b.
Proof.
  destruct (min_cases a b) as [[H ->]|[H ->]];
    destruct (Q.min_spec a b) as [[H' ->]|[H' ->]]; lra.
Qed.

#[export] Instance max_comp : Proper (Qeq ==> Qeq ==> Qeq) Py.max.
Proof.
  intros a a' Ha b b' Hb.
  destruct (max_cases a b) as [[H ->]|[H ->]];
    destruct (max_cases a' b') as [[H' ->]|[H' ->]]; lra.
Qed.

#[export] Instance min_comp : Proper (Qeq ==> Qeq ==> Qeq) Py.min.
Proof.
  intros a a' Ha b b' Hb.
  destruct (min_cases a b) as [[H ->]|[H ->]];
    destruct (min_cases a' b') as [[H' ->]|[H' ->]]; lra.
Qed.

#[export] Instance round_half_even_comp : Proper (Qeq ==> eq) Py.round_half_even.
Proof.
  intros q q' E. unfold Py.round_half_even.
  rewrite (Qfloor_comp _ _ E).
  assert (Qcompare (q - inject_Z (Qfloor q')) (1 # 2)
          = Qcompare (q' - inject_Z (Qfloor q')) (1 # 2)) as ->; [|reflexivity].
  apply Qcompare_comp; [rewrite E|]; reflexivity.
Qed.

#[export] Instance round_comp : Proper (Qeq ==> eq ==> Qeq) Py.round.
Proof.
  intros q q' E n ? <-. unfold Py.round.
  assert (Py.round_half_even (q * inject_Z (10 ^ Z.of_nat n))
          = Py.round_half_even (q' * inject_Z (10 ^ Z.of_nat n))) as ->;
    [|reflexivity].
  apply round_half_even_comp. rewrite E. reflexivity.
Qed.

(** Rounding never crosses an integer. *)
Lemma round_half_even_ge (k : Z) (q : Q) :
  inject_Z k <= q -> (k <= Py.round_half_even q)%Z.
Proof.
  intros H. unfold Py.round_half_even.
  assert (k <= Qfloor q)%Z.
  { rewrite <- (Qfloor_Z k). apply Qfloor_resp_le, H. }
  destruct (Qcompare _ _); [destruct (Z.even _)| |]; lia.
Qed.

Lemma round_half_even_le (k : Z) (q : Q) :
  q <= inject_Z k -> (Py.round_half_even q <= k)%Z.
Proof.
  intros H. unfold Py.round_half_even.
  pose proof (Qfloor_le q) as Hf.
  assert (Qfloor q <= k)%Z as Hk.
  { rewrite <- (Qfloor_Z k). apply Qfloor_resp_le, H. }
  destruct (Z.eq_dec (Qfloor q) k) as [E|NE].
  - assert (q - inject_Z (Qfloor q) == 0) as Hz by (rewrite E in *; lra).
    assert (Qcompare (q - inject_Z (Qfloor q)) (1 # 2) = Lt) as ->.
    { apply Qlt_alt. rewrite Hz. reflexivity. }
    lia.
  - destruct (Qcompare _ _); [destruct (Z.even _)| |]; lia.
Qed.

Lemma round_nonneg (q : Q) (n : nat) : 0 <= q -> 0 <= Py.round q n.
Proof.
  intros H. unfold Py.round.
  assert (0 < 10 ^ Z.of_nat n)%Z as Hs by (apply Z.pow_pos_nonneg; lia).
  assert (0 < inject_Z (10 ^ Z.of_nat n)) as Hq.
  { change 0 with (inject_Z 0). rewrite <- Zlt_Qlt. exact Hs. }
  apply Qle_shift_div_l; [exact Hq|]. rewrite Qmult_0_l.
  change 0 with (inject_Z 0). rewrite <- Zle_Qle.
  apply round_half_even_ge. simpl. apply Qmult_le_0_compat; lra.
Qed.

(** [round(q, 2)] of a score that is at most 100 is at most 100. *)
Lemma round2_le_100 (q : Q) : q <= 100 -> Py.round q 2 <= 100.
Proof.
  intros H. unfold Py.round.
  change (inject_Z (10 ^ Z.of_nat 2)) with (inject_Z 100).
  apply Qle_shift_div_r; [reflexivity|].
  change (100 * inject_Z 100) with (inject_Z 10000).
  rewrite <- Zle_Qle. apply round_half_even_le.
  change (inject_Z 100) with 100. change (inject_Z 10000) with 10000. lra.
Qed.

(** Rounding to the nearest integer keeps the order. *)
Lemma round_half_even_mono (a b : Q) :
  a <= b -> (Py.round_half_even a <= Py.round_half_even b)%Z.
Proof.
  intros Hab. unfold Py.round_half_even.
  pose proof (Qfloor_resp_le _ _ Hab) as Hfloor.
  destruct (Z.eq_dec (Qfloor a) (Qfloor b)) as [E|NE].
  - rewrite E.
    destruct (Qcompare (a - inject_Z (Qfloor b)) (1 # 2)) eqn:Ca;
      destruct (Qcompare (b - inject_Z (Qfloor b)) (1 # 2)) eqn:Cb;
      try (destruct (Z.even (Qfloor b)); lia); try lia;
      exfalso;
      repeat match goal with
             | H : Qcompare _ _ = Eq |- _ => apply Qeq_alt in H
             | H : Qcompare _ _ = Lt |- _ => apply Qlt_alt in H
             | H : Qcompare _ _ = Gt |- _ => apply Qgt_alt in H
             end; lra.
  - assert (Qfloor a + 1 <= Qfloor b)%Z by lia.
    destruct (Qcompare (a - _) _); destruct (Qcompare (b - _) _);
      repeat match goal with
             | |- context [Z.even ?f] => destruct (Z.even f)
             end; lia.
Qed.

Lemma round_mono (a b : Q) (n : nat) : a <= b -> Py.round a n <= Py.round b n.
Proof.
  intros Hab. unfold Py.round.
  assert (0 < inject_Z (10 ^ Z.of_nat n)) as Hs.
  { change 0 with (inject_Z 0). rewrite <- Zlt_Qlt.
    apply Z.pow_pos_nonneg; lia. }
  apply Qmult_le_compat_r; [|apply Qlt_le_weak, Qinv_lt_0_compat, Hs].
  rewrite <- Zle_Qle. apply round_half_even_mono.
  apply Qmult_le_compat_r; [exact Hab | apply Qlt_le_weak, Hs].
Qed.

Lemma round_half_even_Z (k : Z) : Py.round_half_even (inject_Z k) = k.
Proof.
  apply Z.le_antisymm;
    [apply round_half_even_le | apply round_half_even_ge]; apply Qle_refl.
Qed.

End PyFacts.

(** ** The air-quality score *)

(** ** Rounding to binary64 *)

Module FloatFacts.
Import Py PyFacts.

Lemma pow2_pos (k : Z) : (0 <= k)%Z -> 0 < inject_Z (2 ^ k).
Proof.
  intros Hk. change 0 with (inject_Z 0). rewrite <- Zlt_Qlt.
  apply Z.pow_pos_nonneg; lia.
Qed.

Lemma grid_nonneg (x : Q) : (0 <= grid x)%Z.
Proof. unfold grid. lia. Qed.

Lemma grid_mono (x y : Q) : x <= y -> (grid x <= grid y)%Z.
Proof.
  intros H. unfold grid.
  pose proof (Z.log2_le_mono _ _ (Qfloor_resp_le _ _ H)). lia.
Qed.

#[export] Instance grid_comp : Proper (Qeq ==> eq) grid.
Proof. intros x y E. unfold grid. rewrite (Qfloor_comp _ _ E). reflexivity. Qed.

#[export] Instance nearest_comp : Proper (Qeq ==> eq) nearest.
Proof.
  intros x y E. unfold nearest. rewrite (grid_comp _ _ E).
  f_equal. apply round_half_even_comp. rewrite E. reflexivity.
Qed.

(** A non-negative value lies below 2^53 spacings. *)
Lemma below_top (x : Q) : 0 <= x -> x < inject_Z (2 ^ (53 + grid x)).
Proof.
  intros Hx.
  pose proof (Qlt_floor x) as Hfl. pose proof (grid_nonneg x) as Hg.
  assert (0 <= Qfloor x)%Z as Hn.
  { change 0%Z with (Qfloor 0). apply Qfloor_resp_le, Hx. }
  assert (Qfloor x + 1 <= 2 ^ (53 + grid x))%Z as Hle.
  { destruct (Z.eq_dec (Qfloor x) 0%Z) as [E|E].
    - rewrite E. pose proof (Z.pow_pos_nonneg 2 (53 + grid x)). lia.
    - pose proof (Z.log2_spec (Qfloor x)) as [_ Hs]; [lia|].
      assert (2 ^ Z.succ (Z.log2 (Qfloor x)) <= 2 ^ (53 + grid x))%Z.
      { apply Z.pow_le_mono_r; [lia|]. unfold grid. lia. }
      lia. }
  eapply Qlt_le_trans; [exact Hfl|]. rewrite <- Zle_Qle. exact Hle.
Qed.

(** Above the subnormal range a value is at least 2^52 spacings. *)
Lemma above_bottom (x : Q) :
  (0 < grid x)%Z -> inject_Z (2 ^ (52 + grid x)) <= x.
Proof.
  intros Hg. unfold grid in *.
  assert (0 < Qfloor x)%Z as Hn.
  { destruct (Z_lt_le_dec 0 (Qfloor x)) as [H|H]; [exact H|].
    rewrite (Z.log2_nonpos _ H) in Hg. lia. }
  pose proof (Z.log2_spec _ Hn) as [Hs _].
  eapply Qle_trans; [|apply Qfloor_le].
  rewrite <- Zle_Qle.
  replace (52 + Z.max 0 (Z.log2 (Qfloor x) - 52))%Z
    with (Z.log2 (Qfloor x)) by lia.
  exact Hs.
Qed.

Lemma scaled (x : Q) (a k : Z) :
  (0 <= k)%Z ->
  (x < inject_Z (a * 2 ^ k) -> x / inject_Z (2 ^ k) < inject_Z a)
  /\ (x <= inject_Z (a * 2 ^ k) -> x / inject_Z (2 ^ k) <= inject_Z a)
  /\ (inject_Z (a * 2 ^ k) <= x -> inject_Z a <= x / inject_Z (2 ^ k)).
Proof.
  intros Hk. pose proof (pow2_pos k Hk) as Hp.
  rewrite inject_Z_mult.
  split; [|split]; intros H.
  - apply Qlt_shift_div_r; [exact Hp | exact H].
  - apply Qle_shift_div_r; [exact Hp | exact H].
  - apply Qle_shift_div_l; [exact Hp | exact H].
Qed.

Lemma mantissa_le (x : Q) :
  0 <= x -> (round_half_even (x / inject_Z (2 ^ grid x)) <= 2 ^ 53)%Z.
Proof.
  intros Hx. apply round_half_even_le.
  apply (scaled x (2 ^ 53) (grid x) (grid_nonneg x)).
  apply Qlt_le_weak. rewrite <- Z.pow_add_r by (pose proof (grid_nonneg x); lia).
  apply below_top, Hx.
Qed.

Lemma mantissa_ge (x : Q) :
  (0 < grid x)%Z ->
  (2 ^ 52 <= round_half_even (x / inject_Z (2 ^ grid x)))%Z.
Proof.
  intros Hg. apply round_half_even_ge.
  apply (scaled x (2 ^ 52) (grid x) (grid_nonneg x)).
  rewrite <- Z.pow_add_r by lia. apply above_bottom, Hg.
Qed.

Lemma nearest_nonneg (x : Q) : 0 <= x -> (0 <= nearest x)%Z.
Proof.
  intros Hx. unfold nearest.
  pose proof (pow2_pos _ (grid_nonneg x)) as Hp.
  assert (0 <= round_half_even (x / inject_Z (2 ^ grid x)))%Z.
  { apply round_half_even_ge. apply Qle_shift_div_l; [exact Hp|].
    rewrite Qmult_0_l. exact Hx. }
  pose proof (Z.pow_pos_nonneg 2 (grid x)). pose proof (grid_nonneg x). nia.
Qed.

(** Rounding to the nearest binary64 keeps the order. *)
Lemma nearest_mono (x y : Q) :
  0 <= x -> x <= y -> (nearest x <= nearest y)%Z.
Proof.
  intros Hx Hxy.
  pose proof (grid_mono _ _ Hxy) as Hg.
  pose proof (grid_nonneg x) as Hgx.
  destruct (Z.eq_dec (grid x) (grid y)) as [E|NE].
  - unfold nearest. rewrite E.
    apply Z.mul_le_mono_nonneg_r; [apply Z.pow_nonneg; lia|].
    apply round_half_even_mono.
    apply Qmult_le_compat_r; [exact Hxy|].
    apply Qlt_le_weak, Qinv_lt_0_compat, pow2_pos, grid_nonneg.
  - assert (grid x + 1 <= grid y)%Z as Hlt by lia.
    pose proof (mantissa_le x Hx) as Hm.
    pose proof (mantissa_ge y ltac:(lia)) as Hm'.
    unfold nearest.
    assert (2 ^ 53 * 2 ^ grid x <= 2 ^ 52 * 2 ^ grid y)%Z as Hmid.
    { rewrite <- !Z.pow_add_r by lia. apply Z.pow_le_mono_r; lia. }
    pose proof (Z.pow_pos_nonneg 2 (grid x)).
    pose proof (Z.pow_pos_nonneg 2 (grid y)).
    nia.
Qed.

(** A value that is already a binary64 is kept. *)
Lemma nearest_fixed (x : Q) :
  0 <= x -> nearest (inject_Z (nearest x)) = nearest x.
Proof.
  intros Hx.
  pose proof (mantissa_le x Hx) as Hle.
  pose proof (grid_nonneg x) as Hg.
  pose proof (nearest_nonneg x Hx) as Hn.
  set (m := round_half_even (x / inject_Z (2 ^ grid x))) in *.
  set (k := grid x) in *.
  assert (nearest x = m * 2 ^ k)%Z as En by reflexivity.
  pose proof (Z.pow_pos_nonneg 2 k ltac:(lia) Hg) as Hp.
  assert (0 <= m)%Z as Hm by nia.
  assert (forall g a : Z, (0 <= g)%Z ->
            round_half_even (inject_Z (a * 2 ^ g) / inject_Z (2 ^ g)) = a)
    as Hquot.
  { intros g a Hg0. rewrite <- (round_half_even_Z a) at 2.
    apply round_half_even_comp. rewrite inject_Z_mult.
    field. intros H0. pose proof (pow2_pos g Hg0) as Hq. rewrite H0 in Hq.
    discriminate Hq. }
  unfold nearest at 1. unfold grid at 1 2. rewrite Qfloor_Z, En.
  destruct (Z.eq_dec m 0%Z) as [E0|N0].
  - rewrite E0. cbn [Z.mul Z.log2 Z.sub Z.max Z.pow]. reflexivity.
  - assert (0 < m)%Z as Hmp by lia.
    rewrite Z.log2_mul_pow2 by lia.
    destruct (Z.eq_dec m (2 ^ 53)%Z) as [Etop|Ntop].
    + rewrite Etop. change (Z.log2 (2 ^ 53)%Z) with 53%Z.
      replace (Z.max 0 (k + 53 - 52)) with (k + 1)%Z by lia.
      replace (2 ^ 53 * 2 ^ k)%Z with (2 ^ 52 * 2 ^ (k + 1))%Z
        by (rewrite <- !Z.pow_add_r by lia; f_equal; lia).
      rewrite Hquot by lia. reflexivity.
    + assert (m < 2 ^ 53)%Z as Hlt by lia.
      destruct (Z_lt_le_dec 0 k) as [Hk|Hk].
      * pose proof (mantissa_ge x Hk) as Hge. fold m in Hge.
        assert (Z.log2 m = 52)%Z as ->
          by (apply Z.log2_unique; [lia | split; [exact Hge | exact Hlt]]).
        replace (Z.max 0 (k + 52 - 52)) with k by lia.
        rewrite Hquot by lia. reflexivity.
      * assert (k = 0)%Z as -> by lia.
        assert (Z.log2 m <= 52)%Z.
        { destruct (Z_le_gt_dec (Z.log2 m) 52%Z) as [H|H]; [exact H|].
          pose proof (Z.log2_spec m Hmp) as [Hs _].
          assert (2 ^ 53 <= 2 ^ Z.log2 m)%Z
            by (apply Z.pow_le_mono_r; lia). lia. }
        replace (Z.max 0 (0 + Z.log2 m - 52)) with 0%Z by lia.
        rewrite Hquot by lia. reflexivity.
Qed.


Lemma units_nonneg (q : Q) : 0 <= Qabs q * inject_Z (2 ^ 1074).
Proof.
  apply Qmult_le_0_compat; [apply Qabs_nonneg | discriminate].
Qed.

#[export] Instance fl_comp : Proper (Qeq ==> eq) fl.
Proof.
  intros q q' E. unfold fl.
  assert (nearest (Qabs q * inject_Z (2 ^ 1074))
          = nearest (Qabs q' * inject_Z (2 ^ 1074))) as ->
    by (apply nearest_comp; rewrite E; reflexivity).
  rewrite (Qleb_comp 0 0 (Qeq_refl 0) q q' E).
  reflexivity.
Qed.

(** The two outcomes of a rounding: an overflow, or the nearest binary64
    with the sign of the value. *)
Lemma fl_cases (q : Q) :
  let r := nearest (Qabs q * inject_Z (2 ^ 1074)) in
  ((2 ^ 2098 <= r)%Z /\ fl q = FInf (negb (Qle_bool 0 q)))
  \/ ((r < 2 ^ 2098)%Z
      /\ exists v : Q,
           fl q = FFin v
           /\ v == (if Qle_bool 0 q then 1 else - (1))
                   * (inject_Z r / inject_Z (2 ^ 1074))).
Proof.
  intros r. unfold fl. fold r.
  destruct (2 ^ 2098 <=? r)%Z eqn:E.
  - left. split; [apply Z.leb_le, E | reflexivity].
  - right. split; [apply Z.leb_gt, E|].
    eexists. split; [reflexivity | apply Qred_correct].
Qed.

Lemma fl_not_nan (q : Q) : fl q <> FNan.
Proof.
  destruct (fl_cases q) as [[_ ->] | [_ (v & -> & _)]]; discriminate.
Qed.

Lemma Qle_bool_false (a b : Q) : Qle_bool a b = false <-> b < a.
Proof.
  split.
  - intros H. apply Qnot_le_lt. intros Hle. apply Qle_bool_iff in Hle.
    congruence.
  - intros H. destruct (Qle_bool a b) eqn:E; [|reflexivity].
    apply Qle_bool_iff in E. lra.
Qed.

Lemma units_le (a b : Z) :
  (a <= b)%Z ->
  inject_Z a / inject_Z (2 ^ 1074) <= inject_Z b / inject_Z (2 ^ 1074).
Proof.
  intros H. apply Qmult_le_compat_r; [rewrite <- Zle_Qle; exact H|].
  discriminate.
Qed.

Lemma units_pos (a : Z) :
  (0 <= a)%Z -> 0 <= inject_Z a / inject_Z (2 ^ 1074).
Proof.
  intros H. apply Qle_shift_div_l; [reflexivity|]. rewrite Qmult_0_l.
  change 0 with (inject_Z 0). rewrite <- Zle_Qle. exact H.
Qed.

(** Rounding keeps the order: the rounding of the larger value is never
    below the rounding of the smaller. *)
Lemma fl_mono (q q' : Q) : q <= q' -> flt (fl q') (fl q) = false.
Proof.
  intros Hle.
  pose proof (units_nonneg q) as Hu. pose proof (units_nonneg q') as Hu'.
  pose proof (nearest_nonneg _ Hu) as Hn.
  pose proof (nearest_nonneg _ Hu') as Hn'.
  destruct (Qle_bool 0 q) eqn:Es; destruct (Qle_bool 0 q') eqn:Es'.
  - (* both non-negative *)
    apply Qle_bool_iff in Es, Es'.
    assert (nearest (Qabs q * inject_Z (2 ^ 1074))
            <= nearest (Qabs q' * inject_Z (2 ^ 1074)))%Z as Hm.
    { apply nearest_mono; [exact Hu|].
      rewrite (Qabs_pos _ Es), (Qabs_pos _ Es').
      apply Qmult_le_compat_r; [exact Hle | discriminate]. }
    apply Qle_bool_iff in Es, Es'.
    destruct (fl_cases q') as [[_ ->] | [Hf' (v' & -> & Ev')]];
      rewrite Es' in *; [destruct (fl q) as [|[]|]; reflexivity|].
    destruct (fl_cases q) as [[Hf _] | [_ (v & -> & Ev)]]; [lia|].
    rewrite Es in Ev. cbn [flt]. apply negb_false_iff, Qle_bool_iff.
    rewrite Ev, Ev'. rewrite !Qmult_1_l. apply units_le, Hm.
  - apply Qle_bool_iff in Es. apply Qle_bool_false in Es'. lra.
  - (* q negative, q' non-negative *)
    destruct (fl_cases q') as [[_ ->] | [_ (v' & -> & Ev')]];
      rewrite Es' in *; [destruct (fl q) as [|[]|]; reflexivity|].
    destruct (fl_cases q) as [[_ ->] | [_ (v & -> & Ev)]];
      rewrite Es in *; [reflexivity|].
    cbn [flt]. apply negb_false_iff, Qle_bool_iff.
    rewrite Ev, Ev'.
    pose proof (units_pos _ Hn) as H0. pose proof (units_pos _ Hn') as H0'.
    lra.
  - (* both negative *)
    apply Qle_bool_false in Es, Es'.
    assert (nearest (Qabs q' * inject_Z (2 ^ 1074))
            <= nearest (Qabs q * inject_Z (2 ^ 1074)))%Z as Hm.
    { apply nearest_mono; [exact Hu'|].
      rewrite (Qabs_neg q) by lra. rewrite (Qabs_neg q') by lra.
      apply Qmult_le_compat_r; [lra | discriminate]. }
    apply Qle_bool_false in Es, Es'.
    destruct (fl_cases q) as [[_ ->] | [Hf (v & -> & Ev)]];
      rewrite Es in *;
      [destruct (fl_cases q') as [[_ ->] | [_ (v' & -> & _)]];
       rewrite ?Es'; reflexivity|].
    destruct (fl_cases q') as [[Hf' _] | [_ (v' & -> & Ev')]]; [lia|].
    rewrite Es' in Ev'. cbn [flt]. apply negb_false_iff, Qle_bool_iff.
    rewrite Ev, Ev'. pose proof (units_le _ _ Hm). lra.
Qed.

(** A binary64 is its own rounding. *)
Lemma fl_fixed (q v : Q) : fl q = FFin v -> fl v = FFin v.
Proof.
  intros E.
  destruct (fl_cases q) as [[_ E'] | [Hf (v' & E' & Ev)]];
    rewrite E in E'; [discriminate|]. injection E' as <-.
  pose proof (units_nonneg q) as Hu.
  pose proof (nearest_nonneg _ Hu) as Hn.
  set (r := nearest (Qabs q * inject_Z (2 ^ 1074))) in *.
  assert (0 <= inject_Z r / inject_Z (2 ^ 1074)) as Hr.
  { exact (units_pos _ Hn). }
  assert (Qabs v * inject_Z (2 ^ 1074) == inject_Z r) as Eabs.
  { rewrite Ev. destruct (Qle_bool 0 q).
    - rewrite Qmult_1_l, Qabs_pos by exact Hr. field. discriminate.
    - rewrite Qabs_neg by lra. field. discriminate. }
  assert (nearest (Qabs v * inject_Z (2 ^ 1074)) = r) as En.
  { rewrite (nearest_comp _ _ Eabs). apply nearest_fixed, Hu. }
  assert (Qle_bool 0 v = Qle_bool 0 q \/ r = 0%Z) as Hsign.
  { destruct (Z.eq_dec r 0%Z) as [E0|N0]; [right; exact E0|left].
    assert (0 < inject_Z r / inject_Z (2 ^ 1074)) as Hpos.
    { apply Qlt_shift_div_l; [reflexivity|]. rewrite Qmult_0_l.
      change 0 with (inject_Z 0). rewrite <- Zlt_Qlt. lia. }
    destruct (Qle_bool 0 q).
    - apply Qle_bool_iff. rewrite Ev. lra.
    - apply Qle_bool_false. rewrite Ev. lra. }
  assert ((2 ^ 2098 <=? r)%Z = false) as Hb by (apply Z.leb_gt, Hf).
  assert (v = Qred ((if Qle_bool 0 q then 1 else - (1))
                    * (inject_Z r / inject_Z (2 ^ 1074)))) as Ecanon.
  { unfold fl in E. fold r in E. rewrite Hb in E. injection E as <-.
    reflexivity. }
  unfold fl. rewrite En, Hb. f_equal.
  etransitivity; [|symmetry; exact Ecanon].
  apply Qred_complete.
  destruct Hsign as [-> | E0]; [reflexivity|].
  rewrite E0. unfold Qdiv. rewrite !Qmult_0_l, !Qmult_0_r. reflexivity.
Qed.

End FloatFacts.

(** ** Numbers: order, clamp and rounding *)

Module NumberFacts.
Import Py PyFacts FloatFacts.

(** The literals of the score are binary64 values. *)
Lemma fl_0 : fl (inject_Z 0) = FFin 0.
Proof. vm_compute. reflexivity. Qed.

Lemma fl_2 : fl (inject_Z 2) = FFin 2.
Proof. vm_compute. reflexivity. Qed.

Lemma fl_100 : fl (inject_Z 100) = FFin 100.
Proof. vm_compute. reflexivity. Qed.

Lemma fl_half : fl (1 # 2) = FFin (1 # 2).
Proof. vm_compute. reflexivity. Qed.

Lemma fl_weight25 : exists c, fl (7 # 10) = FFin c /\ 0 < c /\ c < 1.
Proof. eexists. split; [vm_compute; reflexivity|]. split; reflexivity. Qed.

Lemma fl_weight10 : exists c, fl (3 # 10) = FFin c /\ 0 < c /\ c <= 31 # 100.
Proof.
  eexists. split; [vm_compute; reflexivity|].
  split; [reflexivity | vm_compute; discriminate].
Qed.

(** A rounding stays between two binary64 values that enclose the value. *)
Lemma fl_between (lo hi q lo' hi' : Q) :
  fl lo = FFin lo' -> fl hi = FFin hi' -> lo <= q -> q <= hi ->
  exists v, fl q = FFin v /\ lo' <= v /\ v <= hi'.
Proof.
  intros Elo Ehi Hlo Hhi.
  pose proof (fl_mono _ _ Hlo) as M1. pose proof (fl_mono _ _ Hhi) as M2.
  rewrite Elo in M1. rewrite Ehi in M2.
  destruct (fl q) as [|[]|v] eqn:E; try discriminate.
  - exfalso. exact (fl_not_nan q E).
  - exists v. cbn [flt] in M1, M2.
    apply negb_false_iff, Qle_bool_iff in M1, M2. auto.
Qed.

Lemma fl_above (lo q lo' : Q) :
  fl lo = FFin lo' -> lo <= q ->
  fl q = FInf false \/ exists v, fl q = FFin v /\ lo' <= v.
Proof.
  intros Elo Hlo. pose proof (fl_mono _ _ Hlo) as M. rewrite Elo in M.
  destruct (fl q) as [|[]|v] eqn:E; try discriminate.
  - exfalso. exact (fl_not_nan q E).
  - left. reflexivity.
  - right. exists v. split; [reflexivity|].
    cbn [flt] in M. apply negb_false_iff, Qle_bool_iff in M. exact M.
Qed.

Lemma fl_below (hi q hi' : Q) :
  fl hi = FFin hi' -> q <= hi ->
  fl q = FInf true \/ exists v, fl q = FFin v /\ v <= hi'.
Proof.
  intros Ehi Hhi. pose proof (fl_mono _ _ Hhi) as M. rewrite Ehi in M.
  destruct (fl q) as [|[]|v] eqn:E; try discriminate.
  - exfalso. exact (fl_not_nan q E).
  - left. reflexivity.
  - right. exists v. split; [reflexivity|].
    cbn [flt] in M. apply negb_false_iff, Qle_bool_iff in M. exact M.
Qed.

(** [max(0, min(100, o))] is 0, 100, or [o] itself when it lies strictly
    between them. *)
Lemma clamp_cases (o : number) :
  let c := nmax (NInt 0) (nmin (NInt 100) o) in
  c = NInt 0 \/ c = NInt 100
  \/ (c = o /\ lt (NInt 0) o = true /\ lt o (NInt 100) = true).
Proof.
  intros c. subst c. unfold nmin.
  destruct (lt o (NInt 100)) eqn:E100.
  - unfold nmax. destruct (lt (NInt 0) o) eqn:E0; auto.
  - right. left. reflexivity.
Qed.

(** A clamped value rounds to a finite number between 0 and 100. *)
Lemma nround_clamped (o : number) :
  exists s : number,
    nround (nmax (NInt 0) (nmin (NInt 100) o)) 2 = Some s
    /\ is_finite s = true /\ 0 <= value s /\ value s <= 100.
Proof.
  destruct (clamp_cases o) as [-> | [-> | (-> & H0 & H100)]].
  - exists (NInt 0). repeat split; discriminate.
  - exists (NInt 100). repeat split; discriminate.
  - destruct o as [z | [|[]|q]]; try discriminate.
    + exists (NInt z). split; [reflexivity|]. split; [reflexivity|].
      unfold lt in H0, H100. cbn in H0, H100.
      apply negb_true_iff, Qle_bool_false in H0, H100.
      cbn. split; apply Qlt_le_weak; assumption.
    + unfold lt in H0, H100. cbn in H0, H100.
      apply negb_true_iff, Qle_bool_false in H0, H100.
      destruct (fl_between 0 100 (round q 2) 0 100 fl_0 fl_100)
        as (v & E & Hlo & Hhi).
      { apply round_nonneg, Qlt_le_weak, H0. }
      { apply round2_le_100, Qlt_le_weak, H100. }
      exists (NFloat (FFin v)). cbn [nround]. rewrite E.
      repeat split; assumption.
Qed.

(** The operations on floats never raise. *)
Lemma to_float_small (z : Z) (v : Q) :
  fl (inject_Z z) = FFin v -> to_float (NInt z) = Some (FFin v).
Proof. intros E. unfold to_float. rewrite E. reflexivity. Qed.

Lemma sub_100_float (x : float) :
  sub (NInt 100) (NFloat x) = Some (NFloat (fsub (FFin 100) x)).
Proof. unfold sub, to_float. rewrite fl_100. reflexivity. Qed.

Lemma mul_float_2 (x : float) :
  mul (NFloat x) (NInt 2) = Some (NFloat (fmul x (FFin 2))).
Proof. unfold mul, to_float. rewrite fl_2. reflexivity. Qed.

Lemma mul_zero_float (x : Q) :
  mul (NInt 0) (NFloat (FFin x)) = Some (NFloat (FFin 0)).
Proof.
  unfold mul, to_float. rewrite fl_0. cbn.
  rewrite (fl_comp (0 * x) (inject_Z 0)) by (cbn; ring). rewrite fl_0.
  reflexivity.
Qed.

End NumberFacts.

(** ** The score *)

Module AirQualityFacts.
Import Py PyFacts FloatFacts NumberFacts AirQualityTools ScoringSpec.
#[local] Opaque fl.

(** [metrics.get(key, 0) or 0] on a numeric, null or missing reading. *)
Lemma reading_value (metrics : gmap string pyval) (key : string) (a : number) :
  reads_as (metrics !! key) a ->
  as_number (or_else (dict_get metrics key (PInt 0)) (PInt 0)) = Some a.
Proof.
  unfold reads_as, number_read, dict_get, or_else.
  destruct (metrics !! key) as [v|]; [|intros [= <-]; reflexivity].
  destruct v as [|b|z|x|s|xs|d]; cbn [as_number mbind option_bind];
    try discriminate.
  - intros [= <-]. reflexivity.
  - intros [= <-]. destruct b; reflexivity.
  - intros [= <-]. cbn. destruct (z =? 0)%Z; reflexivity.
  - intros [= <-]. destruct x as [|neg|q]; cbn; try reflexivity.
    destruct (Qeq_bool q 0); reflexivity.
Qed.

Lemma times_int_number (v : pyval) (a : number) (k : nat) :
  as_number v = Some a ->
  times_int v k = of_number <$> mul a (NInt (Z.of_nat k)).
Proof.
  destruct v; cbn [as_number]; try discriminate; intros [= <-]; reflexivity.
Qed.

Lemma rsub_number (c : Z) (a : number) :
  rsub c (of_number a) = sub (NInt c) a.
Proof. destruct a; reflexivity. Qed.

Lemma times_float_number (v : pyval) (a : number) (x : float) :
  as_number v = Some a -> times_float v x = mul a (NFloat x).
Proof. intros E. unfold times_float. rewrite E. reflexivity. Qed.

(** On numeric readings the body is the formula on the two numbers. *)
Lemma score_numeric (metrics : gmap string pyval) (pm25 pm10 : number) :
  reads_as (metrics !! k25) pm25 ->
  reads_as (metrics !! k10) pm10 ->
  score_body metrics = code_score pm25 pm10.
Proof.
  intros H25 H10.
  pose proof (reading_value _ _ _ H25) as E25.
  pose proof (reading_value _ _ _ H10) as E10.
  unfold score_body. fold k25 k10.
  rewrite (times_int_number _ _ 2 E25), (times_float_number _ _ _ E10).
  unfold code_score, component25, component10.
  change (Z.of_nat 2) with 2%Z.
  destruct (mul pm25 (NInt 2)) as [d25|]; cbn [fmap option_fmap option_map
                                               mbind option_bind];
    [|reflexivity].
  rewrite rsub_number.
  destruct (sub (NInt 100) d25) as [r25|]; cbn [mbind option_bind];
    [|reflexivity].
  destruct (mul pm10 (NFloat (fl (1 # 2)))) as [d10|]; cbn [mbind option_bind];
    [|reflexivity].
  destruct (sub (NInt 100) d10) as [r10|]; cbn [mbind option_bind];
    reflexivity.
Qed.

(** Whatever the readings, a score that is computed is the rounding of a
    clamped value: a finite number between 0 and 100. *)
Lemma score_body_shape (metrics : gmap string pyval) (s : number) :
  score_body metrics = Some s ->
  is_finite s = true /\ 0 <= value s /\ value s <= 100.
Proof.
  unfold score_body.
  destruct (times_int _ 2) as [d25|]; cbn [mbind option_bind]; [|discriminate].
  destruct (rsub 100 d25) as [r25|]; cbn [mbind option_bind]; [|discriminate].
  destruct (times_float _ _) as [d10|]; cbn [mbind option_bind];
    [|discriminate].
  destruct (sub (NInt 100) d10) as [r10|]; cbn [mbind option_bind];
    [|discriminate].
  destruct (mul (nmax (NInt 0) r25) _) as [w25|]; cbn [mbind option_bind];
    [|discriminate].
  destruct (mul (nmax (NInt 0) r10) _) as [w10|]; cbn [mbind option_bind];
    [|discriminate].
  destruct (add w25 w10) as [o|]; cbn [mbind option_bind]; [|discriminate].
  destruct (nround_clamped o) as (s' & E & Hs). rewrite E.
  intros [= <-]. exact Hs.
Qed.

Lemma picked_reading (metrics : gmap string pyval) (key : string) (v : pyval) :
  metrics !! key = Some v -> truthy v = true ->
  or_else (dict_get metrics key (PInt 0)) (PInt 0) = v.
Proof. intros Hk Ht. unfold dict_get, or_else. rewrite Hk, Ht. reflexivity. Qed.

(** A truthy reading that is not a number makes the body raise. *)
Lemma score_body_raises (metrics : gmap string pyval) (v : pyval) :
  metrics !! k25 = Some v \/ metrics !! k10 = Some v ->
  truthy v = true -> non_numeric v ->
  score_body metrics = None.
Proof.
  intros Hk Ht Hn. unfold score_body. fold k25 k10.
  destruct Hk as [Hk|Hk]; rewrite (picked_reading _ _ _ Hk Ht).
  - destruct v; try contradiction; reflexivity.
  - destruct (times_int _ 2) as [d25|]; cbn [mbind option_bind];
      [|reflexivity].
    destruct (rsub 100 d25) as [r25|]; cbn [mbind option_bind];
      [|reflexivity].
    destruct v; try contradiction; reflexivity.
Qed.

(** *** The two components *)

Lemma fl_31 : fl (inject_Z 31) = FFin 31.
Proof. vm_compute. reflexivity. Qed.

(** The order of Python on an [int] and a finite [float]. *)
Lemma le_int_int (a b : Z) : le (NInt a) (NInt b) = true <-> (a <= b)%Z.
Proof.
  unfold le. cbn. rewrite negb_involutive, Qle_bool_iff, <- Zle_Qle.
  reflexivity.
Qed.

Lemma le_int_fin (a : Z) (q : Q) :
  le (NInt a) (NFloat (FFin q)) = true <-> inject_Z a <= q.
Proof. unfold le. cbn. rewrite negb_involutive, Qle_bool_iff. reflexivity. Qed.

Lemma le_fin_int (q : Q) (b : Z) :
  le (NFloat (FFin q)) (NInt b) = true <-> q <= inject_Z b.
Proof. unfold le. cbn. rewrite negb_involutive, Qle_bool_iff. reflexivity. Qed.

Lemma lt_int_fin (a : Z) (q : Q) :
  lt (NInt a) (NFloat (FFin q)) = true <-> inject_Z a < q.
Proof. unfold lt. cbn. rewrite negb_true_iff. apply Qle_bool_false. Qed.

Lemma lt_fin_int (q : Q) (b : Z) :
  lt (NFloat (FFin q)) (NInt b) = true <-> q < inject_Z b.
Proof. unfold lt. cbn. rewrite negb_true_iff. apply Qle_bool_false. Qed.

Lemma lt_int_fin_false (a : Z) (q : Q) :
  lt (NInt a) (NFloat (FFin q)) = false <-> q <= inject_Z a.
Proof. unfold lt. cbn. rewrite negb_false_iff. apply Qle_bool_iff. Qed.

(** [100 - x] for a float [x] that is not negative: at most 100. *)
Lemma sub_from_100 (x : float) :
  (x = FInf false \/ exists v, x = FFin v /\ 0 <= v) ->
  fsub (FFin 100) x = FInf true
  \/ exists r, fsub (FFin 100) x = FFin r /\ r <= 100.
Proof.
  intros [-> | (v & -> & Hv)]; [left; reflexivity|].
  unfold fsub, fneg, fadd.
  destruct (fl_below 100 (100 + Qred (- v)) 100 fl_100) as [E | (r & E & Hr)].
  - rewrite Qred_correct. lra.
  - left. exact E.
  - right. exists r. split; assumption.
Qed.

(** [max(0, r)] for a float [r] of at most 100. *)
Lemma component_of (r : float) :
  (r = FInf true \/ exists v, r = FFin v /\ v <= 100) ->
  nmax (NInt 0) (NFloat r) = NInt 0
  \/ exists u, nmax (NInt 0) (NFloat r) = NFloat (FFin u)
               /\ 0 < u /\ u <= 100.
Proof.
  intros [-> | (v & -> & Hv)]; [left; reflexivity|].
  unfold nmax. destruct (lt (NInt 0) (NFloat (FFin v))) eqn:E.
  - right. exists v. apply lt_int_fin in E. repeat split; assumption.
  - left. reflexivity.
Qed.

(** The pm2.5 component never fails. *)
Lemma component25_total (pm25 : number) :
  exists s, component25 pm25 = Some s.
Proof.
  unfold component25. destruct pm25 as [z|x].
  - eexists. reflexivity.
  - rewrite mul_float_2. cbn [mbind option_bind]. rewrite sub_100_float.
    eexists. reflexivity.
Qed.

(** A float that Python finds at least [c]. *)
Lemma float_at_least (c : Z) (x : float) :
  le (NInt c) (NFloat x) = true ->
  x = FInf false \/ exists v, x = FFin v /\ inject_Z c <= v.
Proof.
  destruct x as [|[]|v]; try discriminate.
  - left. reflexivity.
  - intros H. right. exists v. split; [reflexivity|].
    apply le_int_fin, H.
Qed.

(** From pm2.5 = 50 on the component is the [int] 0. *)
Lemma component25_high (pm25 : number) :
  le (NInt 50) pm25 = true -> component25 pm25 = Some (NInt 0).
Proof.
  intros Hhigh. unfold component25. destruct pm25 as [z|x].
  - apply le_int_int in Hhigh. cbn [mul sub mbind option_bind].
    unfold nmax, lt. cbn.
    assert (Qle_bool (inject_Z (100 - z * 2)) (inject_Z 0) = true) as ->
      by (apply Qle_bool_iff; rewrite <- Zle_Qle; lia).
    reflexivity.
  - rewrite mul_float_2. cbn [mbind option_bind]. rewrite sub_100_float.
    cbn [mbind option_bind]. f_equal.
    assert (fsub (FFin 100) (fmul x (FFin 2)) = FInf true
            \/ exists r, fsub (FFin 100) (fmul x (FFin 2)) = FFin r /\ r <= 0)
      as [-> | (r & -> & Hr)].
    { destruct (float_at_least _ _ Hhigh) as [-> | (v & -> & Hv)];
        [left; reflexivity|].
      change (inject_Z 50) with 50 in Hv.
      cbn [fmul].
      destruct (fl_above 100 (v * 2) 100 fl_100) as [-> | (d & -> & Hd)];
        [lra | left; reflexivity|].
      unfold fsub, fneg, fadd.
      destruct (fl_below 0 (100 + Qred (- d)) 0 fl_0) as [E | (r & E & Hr)].
      - rewrite Qred_correct. change (inject_Z 0) with 0. lra.
      - left. exact E.
      - right. exists r. split; assumption. }
    + reflexivity.
    + unfold nmax.
      assert (lt (NInt 0) (NFloat (FFin r)) = false) as ->
        by (apply lt_int_fin_false; exact Hr).
      reflexivity.
Qed.

(** The pm10 component fails exactly when pm10 does not convert. *)
Lemma component10_float (pm10 : number) :
  component10 pm10
  = x ← to_float pm10;
    Some (nmax (NInt 0)
            (NFloat (fsub (FFin 100) (fmul x (FFin (1 # 2)))))).
Proof.
  unfold component10. rewrite fl_half.
  destruct pm10 as [z|x]; cbn [mul to_float];
    [destruct (fl (inject_Z z)) as [|neg|v]|];
    cbn [mbind option_bind]; try reflexivity;
    rewrite sub_100_float; reflexivity.
Qed.

(** What a non-negative number converts to. *)
Lemma to_float_nonneg (a : number) (x : float) :
  le (NInt 0) a = true -> to_float a = Some x ->
  x = FInf false \/ exists v, x = FFin v /\ 0 <= v.
Proof.
  intros Hpos E. destruct a as [z|y].
  - apply le_int_int in Hpos. unfold to_float in E.
    destruct (fl_above (inject_Z 0) (inject_Z z) 0 fl_0)
      as [E' | (v & E' & Hv)].
    + rewrite <- Zle_Qle. exact Hpos.
    + rewrite E' in E. discriminate.
    + rewrite E' in E. injection E as <-. right. exists v. auto.
  - injection E as <-. destruct (float_at_least _ _ Hpos) as [-> | H];
      [left; reflexivity | right; exact H].
Qed.

(** The pm10 component of a non-negative pm10 that converts: the [int] 0,
    or a float in (0, 100]. *)
Lemma component10_nonneg (pm10 : number) (x : float) :
  le (NInt 0) pm10 = true -> to_float pm10 = Some x ->
  component10 pm10 = Some (NInt 0)
  \/ exists u, component10 pm10 = Some (NFloat (FFin u)) /\ 0 < u /\ u <= 100.
Proof.
  intros Hpos E. rewrite component10_float, E. cbn [mbind option_bind].
  assert (fmul x (FFin (1 # 2)) = FInf false
          \/ exists d, fmul x (FFin (1 # 2)) = FFin d /\ 0 <= d) as Hd.
  { destruct (to_float_nonneg _ _ Hpos E) as [-> | (v & -> & Hv)];
      [left; reflexivity|].
    cbn [fmul].
    destruct (fl_above 0 (v * (1 # 2)) 0 fl_0) as [-> | (d & -> & Hd)];
      [change (inject_Z 0) with 0; lra | left; reflexivity|].
    right. exists d. auto. }
  destruct (component_of _ (sub_from_100 _ Hd)) as [-> | (u & -> & Hu)];
    [left; reflexivity | right; exists u; auto].
Qed.

(** A component times a weight: it fails only if the component is an
    [int] that does not convert. *)
Lemma weighted (s : number) (c : float) :
  mul s (NFloat c) = x ← to_float s; Some (NFloat (fmul x c)).
Proof. destruct s; reflexivity. Qed.

(** On a reading that is not negative the pm2.5 component is at most 100:
    an upper clamp would not change it. *)
Lemma component25_nonneg (pm25 s : number) :
  le (NInt 0) pm25 = true -> component25 pm25 = Some s ->
  le (NInt 0) s = true /\ le s (NInt 100) = true.
Proof.
  intros Hpos. unfold component25. destruct pm25 as [z|x].
  - apply le_int_int in Hpos. cbn [mul sub mbind option_bind].
    intros [= <-]. unfold nmax.
    destruct (lt (NInt 0) (NInt (100 - z * 2))) eqn:E.
    + unfold lt in E. cbn in E. apply negb_true_iff, Qle_bool_false in E.
      rewrite <- Zlt_Qlt in E. split; apply le_int_int; lia.
    + split; reflexivity.
  - rewrite mul_float_2. cbn [mbind option_bind]. rewrite sub_100_float.
    cbn [mbind option_bind].
    intros E. apply (inj Some) in E. subst s.
    assert (fmul x (FFin 2) = FInf false
            \/ exists d, fmul x (FFin 2) = FFin d /\ 0 <= d) as Hd.
    { destruct (float_at_least _ _ Hpos) as [-> | (v & -> & Hv)];
        [left; reflexivity|].
      change (inject_Z 0) with 0 in Hv. cbn [fmul].
      destruct (fl_above 0 (v * 2) 0 fl_0) as [-> | (d & -> & Hd)];
        [change (inject_Z 0) with 0; lra | left; reflexivity|].
      right. exists d. auto. }
    destruct (component_of _ (sub_from_100 _ Hd)) as [-> | (u & -> & Hu)];
      [split; reflexivity|].
    split; [apply le_int_fin | apply le_fin_int].
    + change (inject_Z 0) with 0. lra.
    + change (inject_Z 100) with 100. lra.
Qed.

Lemma component10_upper (pm10 s : number) :
  le (NInt 0) pm10 = true -> component10 pm10 = Some s ->
  le (NInt 0) s = true /\ le s (NInt 100) = true.
Proof.
  intros Hpos E.
  destruct (to_float pm10) as [x|] eqn:Ex;
    [|rewrite component10_float, Ex in E; discriminate].
  destruct (component10_nonneg _ _ Hpos Ex) as [E' | (u & E' & Hu)];
    rewrite E' in E; injection E as <-.
  - split; reflexivity.
  - split; [apply le_int_fin | apply le_fin_int].
    + change (inject_Z 0) with 0. lra.
    + change (inject_Z 100) with 100. lra.
Qed.

(** The pm10 component, when it is computed, converts to a float. *)
Lemma component10_converts (pm10 s : number) :
  component10 pm10 = Some s -> exists y, to_float s = Some y.
Proof.
  rewrite component10_float.
  destruct (to_float pm10) as [x|]; cbn [mbind option_bind]; [|discriminate].
  intros [= <-]. unfold nmax.
  destruct (lt _ _); [eexists; reflexivity|].
  exists (FFin 0). unfold to_float. rewrite fl_0. reflexivity.
Qed.

Lemma add_floats (x y : float) :
  add (NFloat x) (NFloat y) = Some (NFloat (fadd x y)).
Proof. reflexivity. Qed.

(** The formula fails exactly on an [OverflowError]: pm10 is an [int] too
    large for a float, or pm2.5 is an [int] so far below zero that its
    component is. *)
Lemma code_score_fails (pm25 pm10 : number) :
  code_score pm25 pm10 = None
  <-> to_float pm10 = None
      \/ exists s, component25 pm25 = Some s /\ to_float s = None.
Proof.
  unfold code_score.
  destruct (component25_total pm25) as (s25 & E25). rewrite E25.
  cbn [mbind option_bind].
  destruct (component10 pm10) as [s10|] eqn:E10; cbn [mbind option_bind].
  - assert (to_float pm10 <> None) as Hconv.
    { intros H. rewrite component10_float, H in E10. discriminate. }
    destruct (component10_converts _ _ E10) as (y & Ey).
    rewrite !weighted, Ey.
    destruct (to_float s25) as [x|] eqn:Ex; cbn [mbind option_bind].
    + rewrite add_floats. cbn [mbind option_bind].
      destruct (nround_clamped
                  (NFloat (fadd (fmul x (fl (7 # 10))) (fmul y (fl (3 # 10))))))
        as (s & -> & _).
      split; [discriminate|].
      intros [H | (s' & [= <-] & H)]; [contradiction | congruence].
    + split; [|reflexivity]. intros _. right. exists s25. auto.
  - split; [|reflexivity]. intros _. left.
    rewrite component10_float in E10.
    destruct (to_float pm10); [discriminate | reflexivity].
Qed.

Lemma score_of_numbers (metrics : gmap string pyval) (pm25 pm10 : number) :
  reads_as (metrics !! k25) pm25 ->
  reads_as (metrics !! k10) pm10 ->
  calculate_air_quality_score metrics = outcome (code_score pm25 pm10).
Proof.
  intros H25 H10. unfold calculate_air_quality_score.
  rewrite (score_numeric _ _ _ H25 H10). reflexivity.
Qed.

(** With the pm2.5 component at 0, the formula and
    [round(0.3 * max(0, 100 - pm10 * 0.5), 2)] return the same value. *)
Lemma high_score (pm25 pm10 : number) (x : float) :
  le (NInt 50) pm25 = true -> le (NInt 0) pm10 = true ->
  to_float pm10 = Some x ->
  exists s s' : number,
    code_score pm25 pm10 = Some s
    /\ pm10_only_score pm10 = Some s'
    /\ value s == value s'.
Proof.
  intros Hhigh Hpos Ex. unfold code_score, pm10_only_score.
  rewrite (component25_high _ Hhigh). cbn [mbind option_bind].
  destruct (component10_nonneg _ _ Hpos Ex) as [-> | (u & -> & Hu0 & Hu)];
    cbn [mbind option_bind].
  - do 2 eexists. split; [vm_compute; reflexivity|].
    split; [vm_compute; reflexivity | reflexivity].
  - destruct fl_weight25 as (c7 & E7 & _).
    destruct fl_weight10 as (c3 & E3 & Hc3 & Hc3').
    rewrite E7, E3, mul_zero_float. cbn [mbind option_bind mul to_float fmul].
    destruct (fl_between (inject_Z 0) (inject_Z 31) (u * c3) 0 31 fl_0 fl_31)
      as (w & Ew & Hw0 & Hw).
    { change (inject_Z 0) with 0. nra. }
    { change (inject_Z 31) with 31. nra. }
    rewrite (fl_comp (c3 * u) (u * c3)) by ring.
    rewrite Ew. rewrite add_floats. cbn [mbind option_bind fadd].
    rewrite (fl_comp (0 + w) w) by ring. rewrite (fl_fixed _ _ Ew).
    destruct (nround_clamped (NFloat (FFin w))) as (s & Es & _).
    rewrite Es. exists s.
    unfold nmin in Es.
    assert (lt (NFloat (FFin w)) (NInt 100) = true) as Hlt
      by (apply lt_fin_int; change (inject_Z 100) with 100; lra).
    rewrite Hlt in Es. unfold nmax in Es.
    destruct (lt (NInt 0) (NFloat (FFin w))) eqn:E0.
    + exists s. split; [reflexivity|]. split; [exact Es | reflexivity].
    + apply lt_int_fin_false in E0. change (inject_Z 0) with 0 in E0.
      assert (w == 0) as Ezero by lra.
      exists (NFloat (FFin 0)). split; [reflexivity|].
      split.
      * cbn [nround]. rewrite (fl_comp (round w 2) (inject_Z 0)).
        -- rewrite fl_0. reflexivity.
        -- rewrite (round_comp _ _ Ezero 2%nat 2%nat eq_refl). reflexivity.
      * cbn [nround] in Es. injection Es as <-. reflexivity.
Qed.

(** *** The claims about the score *)

(** C3, as stated, fails on a negative reading: with pm2.5 = -10 and
    pm10 = 200 the code leaves the pm2.5 component at 120 (no upper clamp
    on a component) and returns 84, where the stated formula gives 70. *)
Lemma score_component_clamp_counterexample :
  reads_as (negative_metrics !! k25) (NInt (-10))
  /\ reads_as (negative_metrics !! k10) (NInt 200)
  /\ component25 (NInt (-10)) = Some (NInt 120)
  /\ calculate_air_quality_score negative_metrics == 84
  /\ spec_score (-10) 200 == 70
  /\ ~ calculate_air_quality_score negative_metrics == spec_score (-10) 200.
Proof.
  split; [reflexivity|]. split; [reflexivity|]. split; [reflexivity|].
  split; [vm_compute; reflexivity|]. split; [vm_compute; reflexivity|].
  vm_compute. discriminate.
Qed.

(** Each float operation rounds: with pm2.5 = 0 and pm10 = 3.5 the function
    returns the float 99.47, where the formula computed exactly gives
    99.475 and rounds to 99.48. *)
Example score_rounds_each_operation :
  reads_as (fraction_metrics !! k25) (NInt 0)
  /\ reads_as (fraction_metrics !! k10) (NFloat (fl (35 # 10)))
  /\ fl (9947 # 100) = FFin (calculate_air_quality_score fraction_metrics)
  /\ spec_score 0 (35 # 10) == 9948 # 100.
Proof.
  split; [vm_compute; reflexivity|]. split; [vm_compute; reflexivity|].
  split; vm_compute; reflexivity.
Qed.

(** C3 (amended): for readings that are numbers, null or missing (the last
    two read as 0) the function returns the value of
    [round(max(0, min(100, max(0, 100 - pm25*2) * 0.7
                            + max(0, 100 - pm10*0.5) * 0.3)), 2)]
    evaluated in Python's arithmetic, each float operation rounded to
    binary64: a component is bounded below only, and on readings that are
    not negative it is at most 100 anyway.  The evaluation fails, and the
    function returns 50, exactly when pm10 is an [int] too large for a float
    or the pm2.5 component is; pm25 = pm10 = 0 gives 100; and a truthy
    reading that is not a number makes the function return 50. *)
Theorem air_quality_score_formula
    (metrics : gmap string pyval) (pm25 pm10 : number)
    (H25 : reads_as (metrics !! k25) pm25)
    (H10 : reads_as (metrics !! k10) pm10) :
  calculate_air_quality_score metrics = outcome (code_score pm25 pm10)
  /\ (code_score pm25 pm10 = None
      <-> to_float pm10 = None
          \/ exists s, component25 pm25 = Some s /\ to_float s = None)
  /\ (le (NInt 0) pm25 = true -> le (NInt 0) pm10 = true ->
      forall s25 s10 : number,
        component25 pm25 = Some s25 -> component10 pm10 = Some s10 ->
        le (NInt 0) s25 = true /\ le s25 (NInt 100) = true
        /\ le (NInt 0) s10 = true /\ le s10 (NInt 100) = true)
  /\ (pm25 = NInt 0 -> pm10 = NInt 0 ->
      calculate_air_quality_score metrics = 100)
  /\ (forall (broken : gmap string pyval) (v : pyval),
        broken !! k25 = Some v \/ broken !! k10 = Some v ->
        truthy v = true -> non_numeric v ->
        score_body broken = None
        /\ calculate_air_quality_score broken = 50).
Proof.
  pose proof (score_of_numbers _ _ _ H25 H10) as Hs.
  split; [exact Hs|]. split; [apply code_score_fails|].
  split; [|split].
  - intros P25 P10 s25 s10 E25 E10.
    destruct (component25_nonneg _ _ P25 E25) as [L25 U25].
    destruct (component10_upper _ _ P10 E10) as [L10 U10].
    repeat split; assumption.
  - intros -> ->. rewrite Hs. vm_compute. reflexivity.
  - intros broken v Hk Ht Hn.
    pose proof (score_body_raises _ _ Hk Ht Hn) as E.
    split; [exact E|]. unfold calculate_air_quality_score. rewrite E.
    reflexivity.
Qed.

Lemma air_quality_score_formula_witness :
  reads_as (sample_metrics !! k25) (NInt 12)
  /\ reads_as (sample_metrics !! k10) (NInt 40)
  /\ calculate_air_quality_score sample_metrics
     = outcome (code_score (NInt 12) (NInt 40)).
Proof.
  assert (reads_as (sample_metrics !! k25) (NInt 12)) as H25 by reflexivity.
  assert (reads_as (sample_metrics !! k10) (NInt 40)) as H10 by reflexivity.
  split; [exact H25|]. split; [exact H10|].
  exact (proj1 (air_quality_score_formula sample_metrics _ _ H25 H10)).
Defined.

(** C9, as stated, fails on a pm10 beyond the range of a float: with
    pm2.5 = 60 and the [int] pm10 = 10^400 the product [pm10 * 0.5] raises
    and the function returns 50, where the stated expression is 0. *)
Lemma high_pm10_overflow_counterexample :
  reads_as (huge_metrics !! k25) (NInt 60)
  /\ reads_as (huge_metrics !! k10) (NInt (10 ^ 400))
  /\ le (NInt 50) (NInt 60) = true
  /\ le (NInt 0) (NInt (10 ^ 400)) = true
  /\ to_float (NInt (10 ^ 400)) = None
  /\ calculate_air_quality_score huge_metrics = 50
  /\ Py.round ((3 # 10) * Qmax 0 (100 - inject_Z (10 ^ 400) * (1 # 2))) 2 == 0
  /\ ~ calculate_air_quality_score huge_metrics
       == Py.round ((3 # 10)
                    * Qmax 0 (100 - inject_Z (10 ^ 400) * (1 # 2))) 2.
Proof.
  split; [vm_compute; reflexivity|]. split; [vm_compute; reflexivity|].
  split; [vm_compute; reflexivity|]. split; [vm_compute; reflexivity|].
  split; [vm_compute; reflexivity|]. split; [vm_compute; reflexivity|].
  split; [vm_compute; reflexivity|]. vm_compute. discriminate.
Qed.

(** C9 (amended): once pm2.5 is at least 50 its component is the [int] 0.
    For a pm10 that is not negative and converts to a float, the function
    returns the value of [round(0.3 * max(0, 100 - pm10*0.5), 2)] evaluated
    in Python's arithmetic; for an [int] pm10 too large for a float it
    returns 50.  Either way two inputs with the same pm10 entry and pm2.5
    readings of at least 50 score the same. *)
Theorem high_pm25_score_ignores_pm25
    (metrics : gmap string pyval) (pm25 pm10 : number)
    (H25 : reads_as (metrics !! k25) pm25)
    (H10 : reads_as (metrics !! k10) pm10)
    (Hhigh : le (NInt 50) pm25 = true) (Hpos : le (NInt 0) pm10 = true) :
  component25 pm25 = Some (NInt 0)
  /\ (to_float pm10 <> None ->
      exists s : number,
        pm10_only_score pm10 = Some s
        /\ calculate_air_quality_score metrics == value s)
  /\ (to_float pm10 = None ->
      pm10_only_score pm10 = None
      /\ calculate_air_quality_score metrics = 50)
  /\ (forall (other : gmap string pyval) (pm25' : number),
        reads_as (other !! k25) pm25' -> le (NInt 50) pm25' = true ->
        other !! k10 = metrics !! k10 ->
        calculate_air_quality_score other
        == calculate_air_quality_score metrics).
Proof.
  assert (forall (m : gmap string pyval) (a : number),
            reads_as (m !! k25) a -> reads_as (m !! k10) pm10 ->
            le (NInt 50) a = true ->
            match to_float pm10 with
            | Some _ =>
                exists s, pm10_only_score pm10 = Some s
                          /\ calculate_air_quality_score m == value s
            | None =>
                pm10_only_score pm10 = None
                /\ calculate_air_quality_score m = 50
            end) as Hany.
  { intros m a Ha Hb Hh. rewrite (score_of_numbers _ _ _ Ha Hb).
    destruct (to_float pm10) as [x|] eqn:Ex.
    - destruct (high_score a pm10 x Hh Hpos Ex) as (s & s' & -> & E' & Hv).
      exists s'. split; [exact E' | exact Hv].
    - assert (code_score a pm10 = None) as ->
        by (apply code_score_fails; left; exact Ex).
      split; [|reflexivity].
      unfold pm10_only_score. rewrite component10_float, Ex. reflexivity. }
  split; [apply component25_high, Hhigh|].
  pose proof (Hany metrics pm25 H25 H10 Hhigh) as Hm.
  split; [|split].
  - intros Hconv. destruct (to_float pm10); [exact Hm | contradiction].
  - intros Hconv. rewrite Hconv in Hm. exact Hm.
  - intros other pm25' O25 Ohigh O10.
    assert (reads_as (other !! k10) pm10) as O10' by (rewrite O10; exact H10).
    pose proof (Hany other pm25' O25 O10' Ohigh) as Ho.
    destruct (to_float pm10).
    + destruct Hm as (s & Es & ->). destruct Ho as (s' & Es' & ->).
      rewrite Es in Es'. injection Es' as <-. reflexivity.
    + destruct Hm as [_ ->]. destruct Ho as [_ ->]. reflexivity.
Qed.

Lemma high_pm25_score_ignores_pm25_witness :
  le (NInt 50) (NInt 75) = true /\ le (NInt 0) (NInt 60) = true
  /\ exists s : number,
       pm10_only_score (NInt 60) = Some s
       /\ calculate_air_quality_score smog_metrics == value s.
Proof.
  assert (le (NInt 50) (NInt 75) = true) as Hhigh by reflexivity.
  assert (le (NInt 0) (NInt 60) = true) as Hpos by reflexivity.
  split; [exact Hhigh|]. split; [exact Hpos|].
  apply (high_pm25_score_ignores_pm25 smog_metrics (NInt 75) (NInt 60)
           eq_refl eq_refl Hhigh Hpos).
  vm_compute. discriminate.
Defined.

(** C10: whatever the dictionary holds (negative, non-numeric, missing or
    huge readings, NaN or infinities), the returned score lies in [0, 100]:
    a computed score is the rounding of a value clamped to [0, 100], a
    finite number, and a failed computation is replaced by 50. *)
Theorem score_in_range (metrics : gmap string pyval) :
  0 <= calculate_air_quality_score metrics
  /\ calculate_air_quality_score metrics <= 100
  /\ (score_body metrics = None -> calculate_air_quality_score metrics = 50)
  /\ (forall s : number,
        score_body metrics = Some s ->
        is_finite s = true /\ calculate_air_quality_score metrics = value s).
Proof.
  unfold calculate_air_quality_score.
  destruct (score_body metrics) as [s|] eqn:E.
  - destruct (score_body_shape _ _ E) as (Hfin & Hlo & Hhi).
    split; [exact Hlo|]. split; [exact Hhi|]. split; [discriminate|].
    intros s' [= <-]. split; [exact Hfin | reflexivity].
  - split; [discriminate|]. split; [discriminate|].
    split; [reflexivity | discriminate].
Qed.

End AirQualityFacts.

(** ** The nearest-neighbour scan *)

Module SpatialJoinFacts.
Import SpatialJoin.

(** Closes the side conditions of a decomposition [before ++ c :: after]. *)
Ltac decomposed :=
  repeat split; auto; try lra;
  try (constructor; [first [assumption | lra] | assumption]).

Lemma Qltb_lt (a b : Q) : Qltb a b = true <-> a < b.
Proof.
  unfold Qltb. rewrite negb_true_iff. split.
  - intros H. apply Qnot_le_lt. intros Hle.
    apply Qle_bool_iff in Hle. congruence.
  - intros H. destruct (Qle_bool b a) eqn:E; [|reflexivity].
    apply Qle_bool_iff in E. lra.
Qed.

Lemma Qltb_ge (a b : Q) : Qltb a b = false <-> b <= a.
Proof.
  unfold Qltb. rewrite negb_false_iff. apply Qle_bool_iff.
Qed.

Lemma Qle_bool_gt (a b : Q) : Qle_bool a b = false <-> b < a.
Proof.
  split.
  - intros H. apply Qnot_le_lt. intros Hle.
    apply Qle_bool_iff in Hle. congruence.
  - intros H. destruct (Qle_bool a b) eqn:E; [|reflexivity].
    apply Qle_bool_iff in E. lra.
Qed.

Section Scan.
Context {A : Type}.
Variable geodesic_km : Q * Q -> Q * Q -> Q.
Variable coords : A -> Q * Q.
Variable point : Q * Q.
Variable max_distance_km : Q.

Local Notation "'dist' c" := (geodesic_km point (coords c))
  (at level 10, c at level 9, only parsing).
Local Notation "'run'" := (scan geodesic_km coords point max_distance_km)
  (only parsing).

(** A candidate that does not improve on the running minimum, or lies
    beyond the radius, leaves the state alone. *)
Lemma scan_keep (rest : list A) (c0 : A) (d0 : Q) :
  Forall (fun x => d0 <= dist x) rest ->
  run rest (Some c0) (Some d0) = (Some c0, Some d0).
Proof.
  induction 1 as [|x rest Hx _ IH]; simpl; [reflexivity|].
  apply Qltb_ge in Hx. rewrite Hx. simpl. exact IH.
Qed.

(** From a running minimum, the first strictly better candidate that no
    later one beats is the answer. *)
Lemma scan_improves (before : list A) (c : A) (after : list A)
      (c0 : A) (d0 : Q) :
  dist c < d0 -> dist c <= max_distance_km ->
  Forall (fun x => dist c < dist x) before ->
  Forall (fun x => dist c <= dist x) after ->
  run (before ++ c :: after) (Some c0) (Some d0) = (Some c, Some (dist c)).
Proof.
  intros Hd Hr Hb Ha. revert c0 d0 Hd.
  induction Hb as [|x before Hx _ IH]; intros c0 d0 Hd; simpl.
  - apply Qltb_lt in Hd. apply Qle_bool_iff in Hr. rewrite Hd, Hr. simpl.
    apply scan_keep, Ha.
  - destruct (Qltb (dist x) d0 && Qle_bool (dist x) max_distance_km);
      apply IH; assumption.
Qed.

Lemma scan_first_minimum (before : list A) (c : A) (after : list A) :
  dist c <= max_distance_km ->
  Forall (fun x => dist c < dist x) before ->
  Forall (fun x => dist c <= dist x) after ->
  nearest_within geodesic_km coords point max_distance_km
    (before ++ c :: after) = (Some c, Some (dist c)).
Proof.
  intros Hr Hb Ha. unfold nearest_within.
  induction Hb as [|x before Hx Hb IH]; simpl.
  - apply Qle_bool_iff in Hr. rewrite Hr. apply scan_keep, Ha.
  - destruct (Qle_bool (dist x) max_distance_km).
    + apply scan_improves; assumption.
    + exact IH.
Qed.

Lemma scan_none (candidates : list A) :
  Forall (fun x => max_distance_km < dist x) candidates ->
  nearest_within geodesic_km coords point max_distance_km candidates
    = (None, None).
Proof.
  unfold nearest_within.
  induction 1 as [|x rest Hx _ IH]; simpl; [reflexivity|].
  apply Qle_bool_gt in Hx. rewrite Hx. exact IH.
Qed.

(** What the scan returns from a running minimum within the radius. *)
Lemma scan_from_some (candidates : list A) (c0 : A) (d0 : Q) :
  d0 <= max_distance_km ->
  (run candidates (Some c0) (Some d0) = (Some c0, Some d0)
   /\ Forall (fun x => d0 <= dist x) candidates)
  \/ (exists (c : A) (before after : list A),
        run candidates (Some c0) (Some d0) = (Some c, Some (dist c))
        /\ candidates = before ++ c :: after
        /\ dist c < d0 /\ dist c <= max_distance_km
        /\ Forall (fun x => dist c < dist x) before
        /\ Forall (fun x => dist c <= dist x) after).
Proof.
  revert c0 d0. induction candidates as [|x rest IH]; intros c0 d0 Hd0; simpl.
  - left. split; [reflexivity | constructor].
  - destruct (Qltb (dist x) d0) eqn:Elt; simpl;
      [destruct (Qle_bool (dist x) max_distance_km) eqn:Er|].
    + apply Qltb_lt in Elt. apply Qle_bool_iff in Er. right.
      destruct (IH x (dist x) Er)
        as [[E F] | (c & before & after & E & -> & Hc & Hr & Hb & Ha)].
      * exists x, [], rest. decomposed.
      * exists c, (x :: before), after.
        decomposed.
    + apply Qltb_lt in Elt. apply Qle_bool_gt in Er. lra.
    + apply Qltb_ge in Elt.
      destruct (IH c0 d0 Hd0)
        as [[E F] | (c & before & after & E & -> & Hc & Hr & Hb & Ha)].
      * left. split; [exact E | constructor; assumption].
      * right. exists c, (x :: before), after.
        decomposed.
Qed.

(** Every candidate list is in one of two situations, and the scan
    answers accordingly. *)
Lemma scan_total (candidates : list A) :
  (nearest_within geodesic_km coords point max_distance_km candidates
     = (None, None)
   /\ Forall (fun x => max_distance_km < dist x) candidates)
  \/ (exists (c : A) (before after : list A),
        nearest_within geodesic_km coords point max_distance_km candidates
          = (Some c, Some (dist c))
        /\ candidates = before ++ c :: after
        /\ dist c <= max_distance_km
        /\ Forall (fun x => dist c < dist x) before
        /\ Forall (fun x => dist c <= dist x) after).
Proof.
  unfold nearest_within.
  induction candidates as [|x rest IH]; simpl.
  - left. split; [reflexivity | constructor].
  - destruct (Qle_bool (dist x) max_distance_km) eqn:Er.
    + apply Qle_bool_iff in Er. right.
      destruct (scan_from_some rest x (dist x) Er)
        as [[E F] | (c & before & after & E & -> & Hc & Hr & Hb & Ha)].
      * exists x, [], rest. decomposed.
      * exists c, (x :: before), after.
        decomposed.
    + apply Qle_bool_gt in Er.
      destruct IH as [[E F] | (c & before & after & E & -> & Hr & Hb & Ha)].
      * left. split; [exact E | constructor; assumption].
      * right. exists c, (x :: before), after.
        decomposed.
Qed.
End Scan.

End SpatialJoinFacts.

(** ** Steps, samples and orchestrators *)

Module OsmRouteFacts.
Import Exc SpatialJoin SpatialJoinFacts OsmRouteTools StepSpec PyFacts.

Section Join.
Variable geodesic_km : Q * Q -> Q * Q -> Q.

(** C4: the nearest-neighbour join.  With no candidate within the radius
    the answer is none; otherwise it is the first candidate, in iteration
    order, among those at minimum distance, provided that distance is at
    most the radius; every candidate list is in one of these two
    situations.  Sensors at 1, 2 and 5 km give the 1 km sensor for radius
    3 and none for radius 0.5.  The loop of [find_nearest_destination]
    answers the same way over the matches of the place search. *)
Theorem nearest_join_spec (lat lng : Q) (nodes : list Sensor.t)
        (max_distance_km : Q) :
  let dist := fun node : Sensor.t =>
    geodesic_km (lat, lng) (Sensor.lat node, Sensor.lng node) in
  let found :=
    find_nearest_air_quality_node geodesic_km lat lng nodes max_distance_km in
  (Forall (fun x => max_distance_km < dist x) nodes -> found = None)
  /\ (forall (c : Sensor.t) (before after : list Sensor.t),
        nodes = before ++ c :: after ->
        dist c <= max_distance_km ->
        Forall (fun x => dist c < dist x) before ->
        Forall (fun x => dist c <= dist x) after ->
        found = Some c)
  /\ ((found = None /\ Forall (fun x => max_distance_km < dist x) nodes)
      \/ (exists (c : Sensor.t) (before after : list Sensor.t),
            found = Some c /\ nodes = before ++ c :: after
            /\ dist c <= max_distance_km
            /\ Forall (fun x => dist c < dist x) before
            /\ Forall (fun x => dist c <= dist x) after))
  /\ (forall c1 c2 c3 : Sensor.t,
        dist c1 == 1 -> dist c2 == 2 -> dist c3 == 5 ->
        find_nearest_air_quality_node geodesic_km lat lng [c1; c2; c3] 3
          = Some c1
        /\ find_nearest_air_quality_node geodesic_km lat lng [c1; c2; c3]
             (1 # 2) = None)
  /\ (forall (find_destination_osm :
                string -> exc DestinationToolsOsm.DestinationSearch)
             (str_float : Q -> string) (destination_type : string)
             (dest_result : DestinationToolsOsm.DestinationSearch),
        let ddist := fun d : DestinationToolsOsm.Destination =>
          geodesic_km (lat, lng)
            (DestinationToolsOsm.lat d, DestinationToolsOsm.lng d) in
        let nearest :=
          DestinationToolsOsm.find_nearest_destination geodesic_km
            find_destination_osm str_float lat lng destination_type
            max_distance_km in
        find_destination_osm destination_type = Ret dest_result ->
        DestinationToolsOsm.success dest_result = true ->
        DestinationToolsOsm.matches dest_result <> [] ->
        (Forall (fun x => max_distance_km < ddist x)
                (DestinationToolsOsm.matches dest_result) ->
         DestinationToolsOsm.nearest_success nearest = false)
        /\ (forall (c : DestinationToolsOsm.Destination)
                   (before after : list DestinationToolsOsm.Destination),
              DestinationToolsOsm.matches dest_result = before ++ c :: after ->
              ddist c <= max_distance_km ->
              Forall (fun x => ddist c < ddist x) before ->
              Forall (fun x => ddist c <= ddist x) after ->
              nearest = DestinationToolsOsm.NearestFound c
                          (Py.round (ddist c) 2) (lat, lng) destination_type)).
Proof.
  intros dist found. unfold found, find_nearest_air_quality_node.
  split; [|split; [|split; [|split]]].
  - intros H. rewrite (scan_none geodesic_km _ _ _ _ H). reflexivity.
  - intros c before after -> Hr Hb Ha.
    rewrite (scan_first_minimum geodesic_km _ _ _ _ _ _ Hr Hb Ha).
    reflexivity.
  - destruct (scan_total geodesic_km
                (fun node : Sensor.t => (Sensor.lat node, Sensor.lng node))
                (lat, lng) max_distance_km nodes)
      as [[E F] | (c & before & after & E & -> & Hr & Hb & Ha)].
    + left. rewrite E. split; [reflexivity | exact F].
    + right. exists c, before, after. rewrite E. decomposed.
  - intros c1 c2 c3 H1 H2 H5. split.
    + pose proof (scan_first_minimum geodesic_km
                    (fun node : Sensor.t => (Sensor.lat node, Sensor.lng node))
                    (lat, lng) 3 [] c1 [c2; c3]) as E.
      simpl in E. rewrite E; [reflexivity | | |].
      * fold (dist c1). lra.
      * constructor.
      * repeat constructor; fold (dist c1); [fold (dist c2) | fold (dist c3)]; lra.
    + rewrite (scan_none geodesic_km
                 (fun node : Sensor.t => (Sensor.lat node, Sensor.lng node))
                 (lat, lng) (1 # 2) [c1; c2; c3]); [reflexivity|].
      repeat constructor;
        [fold (dist c1) | fold (dist c2) | fold (dist c3)]; lra.
  - intros find_destination_osm str_float destination_type dest_result
           Hret Hsucc Hne.
    unfold DestinationToolsOsm.find_nearest_destination.
    rewrite Hret, Hsucc. simpl.
    destruct (DestinationToolsOsm.matches dest_result) as [|m ms] eqn:Em;
      [contradiction|]. split.
    + intros H. rewrite (scan_none geodesic_km _ _ _ _ H). reflexivity.
    + intros c before after Hsplit Hr Hb Ha. rewrite Hsplit.
      rewrite (scan_first_minimum geodesic_km _ _ _ _ _ _ Hr Hb Ha).
      reflexivity.
Qed.
End Join.

Lemma nearest_join_spec_witness :
  find_nearest_air_quality_node Samples.flat_km 0 (- (765 # 10))
    Samples.three_sensors 3 = Some Samples.sensor_1km
  /\ find_nearest_air_quality_node Samples.flat_km 0 (- (765 # 10))
       Samples.three_sensors (1 # 2) = None.
Proof.
  apply (nearest_join_spec Samples.flat_km 0 (- (765 # 10))
           Samples.three_sensors 3);
    vm_compute; reflexivity.
Defined.

(** *** Speeds and durations *)

Lemma speed_positive (mode : string) : 0 < get_osm_speed_kmh mode.
Proof.
  unfold get_osm_speed_kmh, speeds.
  destruct (_ !! mode) as [v|] eqn:E; simpl; [|reflexivity].
  apply lookup_insert_Some in E as [[_ <-] | [_ E]]; [reflexivity|].
  apply lookup_insert_Some in E as [[_ <-] | [_ E]]; [reflexivity|].
  apply lookup_singleton_Some in E as [_ <-]. reflexivity.
Qed.

Lemma minutes_nonneg (distance_km : Q) (mode : string) :
  0 <= distance_km -> 0 <= distance_km / get_osm_speed_kmh mode * 60.
Proof.
  intros H. pose proof (speed_positive mode) as Hs.
  apply Qmult_le_0_compat; [|discriminate].
  apply Qle_shift_div_l; [exact Hs | lra].
Qed.

(** *** Segment arithmetic *)

Lemma num_segments_bounds (n : nat) :
  (3 <= n)%nat ->
  (3 <= Nat.min 8 (Nat.max 3 (n / 10)) <= 8
   /\ Nat.min 8 (Nat.max 3 (n / 10)) <= n)%nat.
Proof.
  intros H. pose proof (Nat.Div0.div_le_upper_bound n 10 n) as Hd.
  assert (n / 10 <= n)%nat by (apply Hd; lia). lia.
Qed.

(** No segment boundary falls outside the route: the [break] of the loop
    never fires. *)
Lemma segment_in_range (n k : nat) :
  (3 <= n)%nat ->
  let num_segments := Nat.min 8 (Nat.max 3 (n / 10)) in
  (1 <= k < num_segments)%nat ->
  (k * (n / num_segments) < n)%nat.
Proof.
  intros Hn num_segments Hk.
  destruct (num_segments_bounds n Hn) as [Hns Hle]. fold num_segments in Hns, Hle.
  assert (0 < n / num_segments)%nat as Hpos
    by (apply Nat.div_str_pos; lia).
  pose proof (Nat.Div0.mul_div_le n num_segments) as Hm.
  nia.
Qed.

Section Steps.
Variable geodesic_km : Q * Q -> Q * Q -> Q.
Variable route_coords : list Coord.
Variable air_quality_data : AirQualityData.
Variable mode : string.

Local Notation "'nav_run'" :=
  (StepSpec.navigation_run geodesic_km route_coords air_quality_data mode)
  (only parsing).

(** The loop appends one navigation step per in-range segment index. *)
Lemma navigation_steps_run (first : Coord) (segment_size : nat)
      (segment_idxs : list nat) (steps : list RouteStep) :
  Forall (fun k => (k * segment_size < length route_coords)%nat)
         segment_idxs ->
  exists navs : list RouteStep,
    navigation_steps geodesic_km route_coords air_quality_data mode first
      segment_size segment_idxs steps = Some (steps ++ navs)
    /\ nav_run first segment_size (length steps) segment_idxs navs.
Proof.
  intros Hin. revert steps.
  induction Hin as [|k rest Hk _ IH]; intros steps; simpl.
  - exists []. rewrite app_nil_r. split; [reflexivity | constructor].
  - assert ((length route_coords <=? k * segment_size)%nat = false) as ->
      by (apply Nat.leb_gt, Hk).
    destruct (lookup_lt_is_Some_2 route_coords _ Hk) as [pt Ept].
    rewrite Ept. simpl.
    match goal with
    | |- context [navigation_steps _ _ _ _ _ _ rest (steps ++ [?s])] =>
        destruct (IH (steps ++ [s])) as (navs & E & Hrun);
        exists (s :: navs)
    end.
    rewrite E, <- app_assoc. split; [reflexivity|].
    rewrite length_app, Nat.add_comm in Hrun. simpl in Hrun.
    rewrite <- (Nat.add_1_r (length steps)) in Hrun.
    econstructor; [|exact Hrun].
    exists pt. repeat split; try reflexivity. exact Ept.
Qed.

Section Run.
Variable first : Coord.
Variable segment_size : nat.

Lemma run_length (base : nat) (idxs : list nat) (navs : list RouteStep) :
  nav_run first segment_size base idxs navs -> length navs = length idxs.
Proof. induction 1; simpl; congruence. Qed.

Lemma run_numbers (base : nat) (idxs : list nat) (navs : list RouteStep) :
  nav_run first segment_size base idxs navs ->
  map step_number navs = seq (base + 1) (length idxs).
Proof.
  induction 1 as [|base k rest s navs (pt & _ & Hn & _) _ IH]; simpl;
    [reflexivity|].
  rewrite Hn, IH. f_equal. f_equal. lia.
Qed.

Lemma run_types (base : nat) (idxs : list nat) (navs : list RouteStep) :
  nav_run first segment_size base idxs navs ->
  map type navs = repeat navigation (length idxs).
Proof.
  induction 1 as [|base k rest s navs (pt & _ & _ & _ & Ht & _) _ IH];
    simpl; [reflexivity|].
  rewrite Ht, IH. reflexivity.
Qed.

Lemma run_coordinates (base : nat) (idxs : list nat)
      (navs : list RouteStep) :
  nav_run first segment_size base idxs navs ->
  map (fun s => Some (coordinates s)) navs
    = map (fun k => route_coords !! (k * segment_size)%nat) idxs.
Proof.
  induction 1 as [|base k rest s navs (pt & Ept & _ & Hc & _) _ IH];
    simpl; [reflexivity|].
  rewrite Hc, Ept, IH. reflexivity.
Qed.

Lemma run_non_negative (base : nat) (idxs : list nat)
      (navs : list RouteStep) :
  (forall p q, 0 <= geodesic_km p q) ->
  nav_run first segment_size base idxs navs ->
  StepSpec.non_negative navs.
Proof.
  intros Hgeo.
  induction 1 as [|base k rest s navs
                    (pt & _ & _ & _ & _ & Hd & Ht & _) _ IH];
    constructor; [|exact IH].
  rewrite Hd, Ht. split; apply round_nonneg.
  - apply Hgeo.
  - apply minutes_nonneg, Hgeo.
Qed.
End Run.
End Steps.

(** *** Sampling *)









Section Synthesizer.
Variable geodesic_km : Q * Q -> Q * Q -> Q.

(** The detailed branch: a start step, the navigation run, an arrival. *)
Lemma detailed_steps_shape (route_coords : list Coord)
      (air_quality_data : AirQualityData) (mode : string)
      (total_distance_km : Q) :
  (3 <= length route_coords)%nat ->
  let n := length route_coords in
  let num_segments := Nat.min 8 (Nat.max 3 (n / 10)) in
  exists (s0 : RouteStep) (navs : list RouteStep) (arr : RouteStep)
         (first final : Coord),
    generate_detailed_route_steps geodesic_km route_coords air_quality_data
      mode total_distance_km = Some (s0 :: navs ++ [arr])
    /\ route_coords !! 0%nat = Some first /\ last route_coords = Some final
    /\ StepSpec.navigation_run geodesic_km route_coords air_quality_data
         mode first (n / num_segments) 1 (seq 1 (num_segments - 1)) navs
    /\ step_number s0 = 1%nat /\ type s0 = start /\ coordinates s0 = first
    /\ distance_from_start_km s0 = 0 /\ estimated_time_min s0 = 0
    /\ step_number arr = (length navs + 2)%nat /\ type arr = arrival
    /\ coordinates arr = final
    /\ distance_from_start_km arr = Py.round total_distance_km 2
    /\ estimated_time_min arr
       = Py.round (total_distance_km / get_osm_speed_kmh mode * 60) 1
    /\ air_quality s0
       = evaluate_point_air_quality geodesic_km first air_quality_data
    /\ air_quality arr
       = evaluate_point_air_quality geodesic_km final air_quality_data.
Proof.
  intros Hlen n num_segments. unfold generate_detailed_route_steps.
  assert ((length route_coords <? 3)%nat = false) as ->
    by (apply Nat.ltb_ge, Hlen).
  destruct (lookup_lt_is_Some_2 route_coords 0) as [first Efirst]; [lia|].
  destruct (last route_coords) as [final|] eqn:Elast;
    [|apply last_None in Elast; subst; simpl in Hlen; lia].
  rewrite Efirst. cbn -[Nat.min Nat.max Nat.div Nat.sub seq navigation_steps].
  fold n. fold num_segments.
  match goal with
  | |- context [navigation_steps _ _ _ _ _ ?ss ?idxs [?s0]] =>
      destruct (navigation_steps_run geodesic_km route_coords
                  air_quality_data mode first ss idxs [s0])
        as (navs & E & Hrun);
      [|rewrite E; simpl; exists s0, navs]
  end.
  - apply Forall_forall. intros k Hk. apply elem_of_seq in Hk.
    apply segment_in_range; [exact Hlen|].
    destruct (num_segments_bounds _ Hlen) as [Hns _]. subst n num_segments. lia.
  - eexists. exists first, final.
    split; [reflexivity|]. repeat split; try reflexivity; try assumption.
    simpl. lia.
Qed.

(** C1: a route of at least 3 nodes yields [num_segments + 1] steps, with
    [num_segments = min(8, max(3, n // 10))]: the start step at node 0, a
    navigation step at node [k * (n // num_segments)] for each
    [k = 1 .. num_segments - 1], and the arrival step at the last node,
    numbered from 1 without gaps; 50 nodes give steps 1 to 6. *)
Theorem detailed_steps_count (route_coords : list Coord)
        (air_quality_data : AirQualityData) (mode : string)
        (total_distance_km : Q)
        (Hlen : (3 <= length route_coords)%nat) :
  let n := length route_coords in
  let num_segments := Nat.min 8 (Nat.max 3 (n / 10)) in
  exists steps : list RouteStep,
    generate_detailed_route_steps geodesic_km route_coords air_quality_data
      mode total_distance_km = Some steps
    /\ length steps = (num_segments + 1)%nat
    /\ map step_number steps = seq 1 (num_segments + 1)
    /\ map type steps
       = start :: repeat navigation (num_segments - 1) ++ [arrival]
    /\ map (fun s => Some (coordinates s)) steps
       = route_coords !! 0%nat
         :: map (fun k => route_coords !! (k * (n / num_segments))%nat)
                (seq 1 (num_segments - 1))
         ++ [last route_coords]
    /\ (n = 50%nat ->
        length steps = 6%nat /\ map step_number steps = [1; 2; 3; 4; 5; 6]%nat).
Proof.
  intros n num_segments.
  destruct (detailed_steps_shape route_coords air_quality_data mode
              total_distance_km Hlen)
    as (s0 & navs & arr & first & final & E & Efirst & Elast & Hrun
        & N0 & T0 & C0 & _ & _ & Na & Ta & Ca & _).
  fold n in Hrun. fold num_segments in Hrun.
  destruct (num_segments_bounds _ Hlen) as [Hns _].
  fold n in Hns. fold num_segments in Hns.
  pose proof (run_length _ _ _ _ _ _ _ _ _ Hrun) as Hl.
  rewrite length_seq in Hl.
  assert (length (s0 :: navs ++ [arr]) = (num_segments + 1)%nat) as Hlength
    by (simpl; rewrite length_app; simpl; lia).
  assert (map step_number (s0 :: navs ++ [arr]) = seq 1 (num_segments + 1))
    as Hnumbers.
  { simpl. rewrite map_app, (run_numbers _ _ _ _ _ _ _ _ _ Hrun), N0.
    rewrite length_seq. cbn [map]. rewrite Na, Hl.
    replace (num_segments + 1)%nat with (S (S (num_segments - 1))) by lia.
    rewrite (seq_S (S (num_segments - 1)) 1), <- cons_seq.
    cbn [app]. do 3 f_equal. lia. }
  exists (s0 :: navs ++ [arr]).
  split; [exact E|]. split; [exact Hlength|]. split; [exact Hnumbers|].
  split; [|split].
  - simpl. rewrite map_app, (run_types _ _ _ _ _ _ _ _ _ Hrun), T0.
    simpl. rewrite Ta, length_seq. reflexivity.
  - simpl. rewrite map_app, (run_coordinates _ _ _ _ _ _ _ _ _ Hrun), C0.
    simpl. rewrite Ca, Efirst, Elast. reflexivity.
  - intros H50. rewrite Hlength, Hnumbers. unfold num_segments.
    rewrite H50. split; reflexivity.
Qed.

(** The short branch, for any non-empty list: a start step, one midpoint
    step when there are more than 2 coordinates, an arrival step. *)
Lemma basic_steps_shape (route_coords : list Coord)
      (air_quality_data : AirQualityData) (mode : string)
      (total_distance_km : Q) :
  route_coords <> [] ->
  exists (s0 : RouteStep) (mids : list RouteStep) (arr : RouteStep)
         (first final : Coord),
    generate_basic_steps geodesic_km route_coords air_quality_data mode
      total_distance_km = Some (s0 :: mids ++ [arr])
    /\ route_coords !! 0%nat = Some first /\ last route_coords = Some final
    /\ StepSpec.navigation_run geodesic_km route_coords air_quality_data
         mode first (length route_coords / 2) 1
         (if (2 <? length route_coords)%nat then [1%nat] else []) mids
    /\ step_number s0 = 1%nat /\ type s0 = start /\ coordinates s0 = first
    /\ distance_from_start_km s0 = 0 /\ estimated_time_min s0 = 0
    /\ step_number arr = (length mids + 2)%nat /\ type arr = arrival
    /\ coordinates arr = final
    /\ distance_from_start_km arr = Py.round total_distance_km 2
    /\ estimated_time_min arr
       = Py.round (total_distance_km / get_osm_speed_kmh mode * 60) 1
    /\ air_quality s0
       = evaluate_point_air_quality geodesic_km first air_quality_data
    /\ air_quality arr
       = evaluate_point_air_quality geodesic_km final air_quality_data.
Proof.
  intros Hne. unfold generate_basic_steps.
  assert (0 < length route_coords)%nat as Hpos
    by (destruct route_coords; [contradiction | simpl; lia]).
  destruct (lookup_lt_is_Some_2 route_coords 0 Hpos) as [first Efirst].
  destruct (last route_coords) as [final|] eqn:Elast;
    [|apply last_None in Elast; contradiction].
  rewrite Efirst. cbn -[Nat.div Nat.ltb].
  destruct (2 <? length route_coords)%nat eqn:E2.
  - destruct (lookup_lt_is_Some_2 route_coords (length route_coords / 2))
      as [mid Emid]; [apply Nat.div_lt; lia|].
    rewrite Emid. cbn -[Nat.div Nat.ltb].
    eexists. eexists [_]. eexists. exists first, final.
    split; [reflexivity|]. repeat split; try reflexivity.
    econstructor; [|constructor].
    exists mid. rewrite Nat.mul_1_l. repeat split; try reflexivity.
    exact Emid.
  - simpl. eexists. exists []. eexists. exists first, final.
    split; [reflexivity|]. repeat split; try reflexivity. constructor.
Qed.

(** C8: a path of fewer than 3 nodes takes the short branch, whose
    midpoint step is guarded by [len(route_coords) > 2] and so never
    appears there: the output is the start step at the first node followed
    by the arrival step at the last node, numbered 1 and 2.  Called on its
    own, [generate_basic_steps] emits the midpoint step exactly when the
    list has at least 3 coordinates. *)
Theorem short_path_steps (route_coords : list Coord)
        (air_quality_data : AirQualityData) (mode : string)
        (total_distance_km : Q)
        (Hne : route_coords <> []) :
  ((length route_coords < 3)%nat ->
   exists s0 arr : RouteStep,
     generate_detailed_route_steps geodesic_km route_coords
       air_quality_data mode total_distance_km = Some [s0; arr]
     /\ type s0 = start /\ type arr = arrival
     /\ step_number s0 = 1%nat /\ step_number arr = 2%nat
     /\ Some (coordinates s0) = route_coords !! 0%nat
     /\ Some (coordinates arr) = last route_coords)
  /\ (exists steps : list RouteStep,
        generate_basic_steps geodesic_km route_coords air_quality_data
          mode total_distance_km = Some steps
        /\ map type steps
           = start :: (if (3 <=? length route_coords)%nat
                       then [navigation] else []) ++ [arrival])
  /\ (length route_coords = 2%nat ->
      exists steps : list RouteStep,
        generate_detailed_route_steps geodesic_km route_coords
          air_quality_data mode total_distance_km = Some steps
        /\ map type steps = [start; arrival]).
Proof.
  destruct (basic_steps_shape route_coords air_quality_data mode
              total_distance_km Hne)
    as (s0 & mids & arr & first & final & E & Efirst & Elast & Hrun
        & N0 & T0 & C0 & _ & _ & Na & Ta & Ca & _).
  assert ((length route_coords < 3)%nat ->
          generate_detailed_route_steps geodesic_km route_coords
            air_quality_data mode total_distance_km = Some [s0; arr]
          /\ mids = []) as Hshort.
  { intros Hlt. unfold generate_detailed_route_steps.
    assert ((length route_coords <? 3)%nat = true) as ->
      by (apply Nat.ltb_lt, Hlt).
    assert ((2 <? length route_coords)%nat = false) as E2
      by (apply Nat.ltb_ge; lia).
    rewrite E2 in Hrun. inversion Hrun; subst. split; [exact E | reflexivity]. }
  split; [|split].
  - intros Hlt. destruct (Hshort Hlt) as [Ed ->]. exists s0, arr.
    simpl in Na. rewrite Efirst, Elast, C0, Ca. repeat split; assumption.
  - exists (s0 :: mids ++ [arr]). split; [exact E|].
    simpl. rewrite map_app, (run_types _ _ _ _ _ _ _ _ _ Hrun), T0.
    simpl. rewrite Ta.
    destruct (length route_coords) as [|[|[|n]]]; reflexivity.
  - intros H2. destruct Hshort as [Ed ->]; [lia|].
    exists [s0; arr]. split; [exact Ed|]. simpl. rewrite T0, Ta. reflexivity.
Qed.
(** Numbering and signs of an assembled sequence. *)
Lemma assembled_steps (route_coords : list Coord)
      (air_quality_data : AirQualityData) (mode : string)
      (total_distance_km : Q) (first : Coord) (segment_size : nat)
      (idxs : list nat) (s0 arr : RouteStep) (navs : list RouteStep) :
  (forall p q, 0 <= geodesic_km p q) -> 0 <= total_distance_km ->
  StepSpec.navigation_run geodesic_km route_coords air_quality_data mode
    first segment_size 1 idxs navs ->
  step_number s0 = 1%nat -> type s0 = start ->
  distance_from_start_km s0 = 0 -> estimated_time_min s0 = 0 ->
  step_number arr = (length navs + 2)%nat ->
  distance_from_start_km arr = Py.round total_distance_km 2 ->
  estimated_time_min arr
    = Py.round (total_distance_km / get_osm_speed_kmh mode * 60) 1 ->
  StepSpec.numbered_from_one (s0 :: navs ++ [arr])
  /\ StepSpec.non_negative (s0 :: navs ++ [arr])
  /\ StepSpec.starts_at_zero (s0 :: navs ++ [arr]).
Proof.
  intros Hgeo Htotal Hrun N0 T0 D0 M0 Na Da Ma.
  pose proof (run_length _ _ _ _ _ _ _ _ _ Hrun) as Hl.
  split; [|split].
  - unfold StepSpec.numbered_from_one. cbn [map length].
    rewrite map_app, (run_numbers _ _ _ _ _ _ _ _ _ Hrun), N0, length_app.
    cbn [map length]. rewrite Na, <- Hl.
    replace (length navs + 1)%nat with (S (length navs)) by lia.
    rewrite <- cons_seq, (seq_S (length navs) 2).
    do 3 f_equal. lia.
  - constructor; [rewrite D0, M0; split; apply Qle_refl|].
    apply Forall_app. split.
    + eapply run_non_negative; eassumption.
    + constructor; [|constructor]. rewrite Da, Ma.
      split; apply round_nonneg; [exact Htotal | apply minutes_nonneg, Htotal].
  - exists s0, (navs ++ [arr]). repeat split; assumption.
Qed.

(** C2, as stated, fails: on a route that goes out and comes back the
    second navigation step is nearer to the start than the first, so the
    distance drops from 11.1 to 1.11 km between two navigation steps. *)
Lemma navigation_distance_drops_counterexample :
  exists steps : list RouteStep,
    generate_detailed_route_steps Samples.flat_km Samples.route_out_and_back
      Samples.snapshot_failed "walk" 25 = Some steps
    /\ map type steps = [start; navigation; navigation; arrival]
    /\ Forall2 Qeq (map distance_from_start_km steps)
         [0; 111 # 10; 111 # 100; 25]
    /\ ~ StepSpec.step_invariant steps.
Proof.
  eexists. split; [vm_compute; reflexivity|].
  split; [reflexivity|].
  split; [repeat constructor|].
  intros (_ & _ & Hmono).
  destruct (Hmono 1%nat _ _ eq_refl eq_refl) as [[_ Harr] | [Hd _]].
  - discriminate Harr.
  - vm_compute in Hd. apply Hd. reflexivity.
Qed.

(** C2 (amended): in every step sequence the synthesizer produces,
    [step_number] is contiguous from 1, [distance_from_start_km] and
    [estimated_time_min] are non-negative, and the start step carries 0
    for both, so no later step is below it.  Nothing more is ordered: a
    navigation step carries the straight-line distance from the origin,
    which can drop from one navigation step to the next. *)
Theorem steps_numbered_and_non_negative (route_coords : list Coord)
        (air_quality_data : AirQualityData) (mode : string)
        (total_distance_km : Q)
        (Hgeo : forall p q, 0 <= geodesic_km p q)
        (Hne : route_coords <> [])
        (Htotal : 0 <= total_distance_km) :
  (exists steps : list RouteStep,
     generate_detailed_route_steps geodesic_km route_coords
       air_quality_data mode total_distance_km = Some steps
     /\ StepSpec.numbered_from_one steps
     /\ StepSpec.non_negative steps
     /\ StepSpec.starts_at_zero steps)
  /\ (exists steps : list RouteStep,
        generate_basic_steps geodesic_km route_coords air_quality_data
          mode total_distance_km = Some steps
        /\ StepSpec.numbered_from_one steps
        /\ StepSpec.non_negative steps
        /\ StepSpec.starts_at_zero steps).
Proof.
  assert (exists steps : list RouteStep,
            generate_basic_steps geodesic_km route_coords air_quality_data
              mode total_distance_km = Some steps
            /\ StepSpec.numbered_from_one steps
            /\ StepSpec.non_negative steps
            /\ StepSpec.starts_at_zero steps) as Hbasic.
  { destruct (basic_steps_shape route_coords air_quality_data mode
                total_distance_km Hne)
      as (s0 & navs & arr & first & final & E & _ & _ & Hrun
          & N0 & T0 & _ & D0 & M0 & Na & _ & _ & Da & Ma & _).
    exists (s0 :: navs ++ [arr]). split; [exact E|].
    eapply assembled_steps; eassumption. }
  split; [|exact Hbasic].
  destruct (Nat.lt_ge_cases (length route_coords) 3) as [Hlt|Hge].
  - unfold generate_detailed_route_steps.
    assert ((length route_coords <? 3)%nat = true) as ->
      by (apply Nat.ltb_lt, Hlt).
    exact Hbasic.
  - destruct (detailed_steps_shape route_coords air_quality_data mode
                total_distance_km Hge)
      as (s0 & navs & arr & first & final & E & _ & _ & Hrun
          & N0 & T0 & _ & D0 & M0 & Na & _ & _ & Da & Ma & _).
    exists (s0 :: navs ++ [arr]). split; [exact E|].
    eapply assembled_steps; eassumption.
Qed.
End Synthesizer.

(** *** The route analyzer *)

Section Analyzer.
Variable geodesic_km : Q * Q -> Q * Q -> Q.

Local Notation "'far' point" :=
  (fun node : Sensor.t =>
     sensor_radius_km
     < geodesic_km (lat point, lng point) (Sensor.lat node, Sensor.lng node))
  (at level 10, point at level 9, only parsing).







End Analyzer.

(** *** The orchestrators *)

Section Orchestration.
Variable geodesic_km : Q * Q -> Q * Q -> Q.
Variable osm_path : Q -> Q -> Q -> Q -> string -> exc OsmPath.
Variable air_quality_snapshot : AirQualityData.
Variable now_isoformat : string.
Variable find_destination_osm :
  string -> exc DestinationToolsOsm.DestinationSearch.
Variable str_float : Q -> string.





Lemma bounds_of_route (route_coords : list Coord) :
  route_coords <> [] -> is_Some (calculate_osm_bounds route_coords).
Proof.
  destruct route_coords as [|c rest]; [contradiction|]. intros _.
  unfold calculate_osm_bounds. simpl. eauto.
Qed.

Lemma center_of_route (route_coords : list Coord) :
  route_coords <> [] -> is_Some (find_route_center route_coords).
Proof.
  intros Hne. unfold find_route_center.
  destruct (lookup_lt_is_Some_2 route_coords (length route_coords / 2))
    as [mid ->]; [|simpl; eauto].
  apply Nat.div_lt; [|lia].
  destruct route_coords; [contradiction | simpl; lia].
Qed.



End Orchestration.

Lemma flat_km_nonneg (p q : Q * Q) : 0 <= Samples.flat_km p q.
Proof.
  unfold Samples.flat_km.
  pose proof (Qabs_nonneg (fst p - fst q)).
  pose proof (Qabs_nonneg (snd p - snd q)).
  apply Qmult_le_0_compat; [discriminate | lra].
Qed.

Lemma detailed_steps_count_witness :
  (3 <= length (Samples.route_north 50))%nat
  /\ exists steps : list RouteStep,
       generate_detailed_route_steps Samples.flat_km (Samples.route_north 50)
         Samples.snapshot_failed "walk" 6 = Some steps
       /\ length steps = 6%nat
       /\ map step_number steps = [1; 2; 3; 4; 5; 6]%nat.
Proof.
  assert (3 <= length (Samples.route_north 50))%nat as Hlen
    by (apply Nat.leb_le; reflexivity).
  split; [exact Hlen|].
  destruct (detailed_steps_count Samples.flat_km (Samples.route_north 50)
              Samples.snapshot_failed "walk" 6 Hlen)
    as (steps & E & _ & _ & _ & _ & H50).
  exists steps. split; [exact E|]. apply H50. reflexivity.
Defined.

Lemma short_path_steps_witness :
  Samples.route_north 2 <> []
  /\ exists steps : list RouteStep,
       generate_detailed_route_steps Samples.flat_km (Samples.route_north 2)
         Samples.snapshot_failed "walk" 1 = Some steps
       /\ map type steps = [start; arrival].
Proof.
  assert (Samples.route_north 2 <> []) as Hne by (vm_compute; discriminate).
  split; [exact Hne|].
  apply (short_path_steps Samples.flat_km (Samples.route_north 2)
           Samples.snapshot_failed "walk" 1 Hne).
  reflexivity.
Defined.

Lemma steps_numbered_and_non_negative_witness :
  Samples.route_out_and_back <> [] /\ 0 <= 25
  /\ exists steps : list RouteStep,
       generate_detailed_route_steps Samples.flat_km Samples.route_out_and_back
         Samples.snapshot_failed "walk" 25 = Some steps
       /\ StepSpec.numbered_from_one steps
       /\ StepSpec.non_negative steps
       /\ StepSpec.starts_at_zero steps.
Proof.
  assert (Samples.route_out_and_back <> []) as Hne by discriminate.
  assert (0 <= 25) as Htotal by discriminate.
  split; [exact Hne|]. split; [exact Htotal|].
  exact (proj1 (steps_numbered_and_non_negative Samples.flat_km
                  Samples.route_out_and_back Samples.snapshot_failed "walk" 25
                  flat_km_nonneg Hne Htotal)).
Defined.




(** *** Runs on the sample inputs *)

Example nearest_farmacia :
  match DestinationToolsOsm.find_nearest_destination Samples.flat_km
          Samples.search_farmacias Samples.str_float_stub 0 (- (765 # 10))
          "farmacia" destination_radius_km with
  | DestinationToolsOsm.NearestFound d distance_km _ _ =>
      d = Samples.farmacia_near /\ distance_km == 1
  | DestinationToolsOsm.NearestFailure _ => False
  end.
Proof. vm_compute. split; reflexivity. Qed.

Example route_error_is_reported :
  get_osm_route_with_air_quality Samples.flat_km Samples.path_down
    Samples.snapshot_empty "2026-01-01T00:00:00" 0 0 1 1 "drive"
  = RouteError "Error en cálculo de ruta: no path".
Proof. reflexivity. Qed.

Example search_error_is_reported :
  get_complete_route_with_osm_search Samples.flat_km Samples.path_north
    Samples.snapshot_empty "2026-01-01T00:00:00" Samples.search_down
    0 0 "hospital" "drive"
  = RouteError "connection refused".
Proof. reflexivity. Qed.

Example empty_route_raises :
  generate_detailed_route_steps Samples.flat_km [] Samples.snapshot_empty
    "walk" 0 = None.
Proof. reflexivity. Qed.

Example fifty_nodes_sampled_every_fifth :
  sample_indices (Samples.route_north 50)
  = [0; 5; 10; 15; 20; 25; 30; 35; 40; 45]%nat.
Proof. reflexivity. Qed.

End OsmRouteFacts.


(* ===================================================================== *)
(** * Part III: further properties of the package                         *)
(* ===================================================================== *)

(** ** Rounding, minima, maxima and means *)

Module NumericFacts.
Import PyFacts.

(** [min(xs)] and [max(xs)] by the running fold. *)
Lemma fold_min_lower (rest : list Q) (x : Q) :
  fold_left Py.min rest x <= x
  /\ Forall (fun y => fold_left Py.min rest x <= y) rest.
Proof.
  revert x. induction rest as [|y rest IH]; intros x; simpl.
  - split; [apply Qle_refl | constructor].
  - destruct (IH (Py.min x y)) as [Hx Hrest].
    destruct (min_cases x y) as [[Hlt E]|[Hle E]]; rewrite E in *.
    + split; [lra|]. constructor; [exact Hx | exact Hrest].
    + split; [exact Hx|]. constructor; [lra | exact Hrest].
Qed.

Lemma fold_max_upper (rest : list Q) (x : Q) :
  x <= fold_left Py.max rest x
  /\ Forall (fun y => y <= fold_left Py.max rest x) rest.
Proof.
  revert x. induction rest as [|y rest IH]; intros x; simpl.
  - split; [apply Qle_refl | constructor].
  - destruct (IH (Py.max x y)) as [Hx Hrest].
    destruct (max_cases x y) as [[Hlt E]|[Hle E]]; rewrite E in *.
    + split; [lra|]. constructor; [exact Hx | exact Hrest].
    + split; [exact Hx|]. constructor; [lra | exact Hrest].
Qed.

(** [min(xs)] and [max(xs)] are entries of [xs]. *)
Lemma fold_min_member (rest : list Q) (x : Q) :
  In (fold_left Py.min rest x) (x :: rest).
Proof.
  revert x. induction rest as [|y rest IH]; intros x; simpl; [auto|].
  destruct (IH (Py.min x y)) as [E|Hin]; [|auto].
  rewrite <- E. destruct (min_cases x y) as [[_ ->]|[_ ->]]; auto.
Qed.

Lemma fold_max_member (rest : list Q) (x : Q) :
  In (fold_left Py.max rest x) (x :: rest).
Proof.
  revert x. induction rest as [|y rest IH]; intros x; simpl; [auto|].
  destruct (IH (Py.max x y)) as [E|Hin]; [|auto].
  rewrite <- E. destruct (max_cases x y) as [[_ ->]|[_ ->]]; auto.
Qed.

Lemma list_min_lower (xs : list Q) (m : Q) :
  OsmRouteTools.list_min xs = Some m -> In m xs /\ Forall (fun y => m <= y) xs.
Proof.
  destruct xs as [|x rest]; simpl; [discriminate|]. intros [= <-].
  destruct (fold_min_lower rest x) as [Hx Hrest].
  split; [apply fold_min_member | constructor; assumption].
Qed.

Lemma list_max_upper (xs : list Q) (m : Q) :
  OsmRouteTools.list_max xs = Some m -> In m xs /\ Forall (fun y => y <= m) xs.
Proof.
  destruct xs as [|x rest]; simpl; [discriminate|]. intros [= <-].
  destruct (fold_max_upper rest x) as [Hx Hrest].
  split; [apply fold_max_member | constructor; assumption].
Qed.

Lemma sum_from_bounds (xs : list Q) (lo hi acc : Q) :
  Forall (fun y => lo <= y <= hi) xs ->
  acc + inject_Z (Z.of_nat (length xs)) * lo <= fold_left Qplus xs acc
  /\ fold_left Qplus xs acc <= acc + inject_Z (Z.of_nat (length xs)) * hi.
Proof.
  intros H. revert acc.
  induction H as [|y xs [Hlo Hhi] _ IH]; intros acc.
  - cbn [fold_left length]. change (inject_Z (Z.of_nat 0)) with 0. split; lra.
  - cbn [fold_left length]. destruct (IH (acc + y)) as [IHlo IHhi].
    rewrite Nat2Z.inj_succ, <- Z.add_1_r, inject_Z_plus.
    change (inject_Z 1) with 1. split; lra.
Qed.

(** The mean of a non-empty list lies between any two bounds of its items. *)
Lemma mean_between (xs : list Q) (lo hi : Q) :
  xs <> [] -> Forall (fun y => lo <= y <= hi) xs ->
  lo <= OsmRouteTools.sum xs / inject_Z (Z.of_nat (length xs))
  /\ OsmRouteTools.sum xs / inject_Z (Z.of_nat (length xs)) <= hi.
Proof.
  intros Hne H. unfold OsmRouteTools.sum.
  destruct (sum_from_bounds xs lo hi 0 H) as [Hlo Hhi].
  assert (0 < inject_Z (Z.of_nat (length xs))) as Hn.
  { change 0 with (inject_Z 0). rewrite <- Zlt_Qlt.
    destruct xs; [contradiction | simpl; lia]. }
  split.
  - apply Qle_shift_div_l; [exact Hn | lra].
  - apply Qle_shift_div_r; [exact Hn | lra].
Qed.

End NumericFacts.

(** ** Quality tiers *)

Module TierFacts.
Import AirQualityTools OsmRouteTools SpatialJoinFacts.

(** Closes a tier case: the thresholds of the hypotheses against the goal. *)
Ltac tier :=
  repeat match goal with
         | H : Qle_bool _ _ = true |- _ => apply Qle_bool_iff in H
         | H : Qle_bool _ _ = false |- _ => apply Qle_bool_gt in H
         end;
  repeat split; intros; try discriminate; try reflexivity; try lra.

(** Closes one tier of the agreement, from the threshold fact [T] of the
    level at hand. *)
Ltac agree T :=
  split;
  [ intros [E _]; apply T, E
  | let H := fresh "H" in
    intros H; apply T in H;
    first [discriminate H | split; reflexivity] ].

(** [get_quality_level] is a step function with thresholds 80, 60 and 40,
    each inclusive on the lower side. *)
Lemma level_thresholds (score : Q) :
  (get_quality_level score = "🟢 Excelente" <-> 80 <= score)
  /\ (get_quality_level score = "🟡 Buena" <-> 60 <= score /\ score < 80)
  /\ (get_quality_level score = "🟠 Moderada" <-> 40 <= score /\ score < 60)
  /\ (get_quality_level score = "🔴 Mala" <-> score < 40).
Proof.
  unfold get_quality_level.
  destruct (Qle_bool 80 score) eqn:E80; [tier|].
  destruct (Qle_bool 60 score) eqn:E60; [tier|].
  destruct (Qle_bool 40 score) eqn:E40; tier.
Qed.

(** The recommendation text is chosen by the same thresholds as the quality
    level, so the two always name the same tier. *)
Lemma recommendation_matches_level (score : Q) :
  (get_quality_level score = "🟢 Excelente"
   /\ generate_air_quality_recommendation score
      = "✅ Calidad del aire excelente. Ideal para actividades al aire libre.")
  \/ (get_quality_level score = "🟡 Buena"
      /\ generate_air_quality_recommendation score
         = "⚠️ Calidad del aire buena. Puede realizar su viaje normalmente.")
  \/ (get_quality_level score = "🟠 Moderada"
      /\ generate_air_quality_recommendation score
         = "🔶 Calidad moderada. Personas sensibles deben considerar precauciones.")
  \/ (get_quality_level score = "🔴 Mala"
      /\ generate_air_quality_recommendation score
         = "🔴 Calidad del aire mala. Use mascarilla y evite actividades intensas.").
Proof.
  unfold get_quality_level, generate_air_quality_recommendation.
  destruct (Qle_bool 80 score); [left; split; reflexivity|].
  destruct (Qle_bool 60 score); [right; left; split; reflexivity|].
  destruct (Qle_bool 40 score);
    [right; right; left | right; right; right]; split; reflexivity.
Qed.

(** X1: the quality level of the sensor module and the recommendation of the
    route module cut the scores at the same thresholds 80, 60 and 40, each
    inclusive on the lower side.  A score gets exactly one of the four
    levels, whatever its value (also outside [0, 100]), and the
    recommendation is always the text of that level. *)
Theorem quality_level_tiers (score : Q) :
  (get_quality_level score = "🟢 Excelente"
   /\ generate_air_quality_recommendation score
      = "✅ Calidad del aire excelente. Ideal para actividades al aire libre."
   <-> 80 <= score)
  /\ (get_quality_level score = "🟡 Buena"
      /\ generate_air_quality_recommendation score
         = "⚠️ Calidad del aire buena. Puede realizar su viaje normalmente."
      <-> 60 <= score /\ score < 80)
  /\ (get_quality_level score = "🟠 Moderada"
      /\ generate_air_quality_recommendation score
         = "🔶 Calidad moderada. Personas sensibles deben considerar precauciones."
      <-> 40 <= score /\ score < 60)
  /\ (get_quality_level score = "🔴 Mala"
      /\ generate_air_quality_recommendation score
         = "🔴 Calidad del aire mala. Use mascarilla y evite actividades intensas."
      <-> score < 40).
Proof.
  destruct (level_thresholds score) as (H80 & H60 & H40 & H0).
  destruct (recommendation_matches_level score)
    as [[L R] | [[L R] | [[L R] | [L R]]]];
    rewrite L, R; rewrite L in H80, H60, H40, H0;
    (split; [agree H80 | split; [agree H60 | split; [agree H40 | agree H0]]]).
Qed.

End TierFacts.

(** ** The analyzer's summary and the per-point evaluation *)

Module AnalysisFacts.
Import Exc SpatialJoin SpatialJoinFacts AirQualityTools OsmRouteTools StepSpec.
Import PyFacts NumericFacts.

Lemma related_member {A B : Type} (R : A -> B -> Prop) (xs : list A)
      (ys : list B) (x : A) :
  Forall2 R xs ys -> In x xs -> exists y : B, In y ys /\ R x y.
Proof.
  induction 1 as [|x' y' xs ys Hxy _ IH]; intros Hin; [destruct Hin|].
  destruct Hin as [<- | Hin].
  - exists y'. split; [left; reflexivity | exact Hxy].
  - destruct (IH Hin) as (y & Hy & HR). exists y. split; [right|]; assumption.
Qed.

Section Analysis.
Variable geodesic_km : Q * Q -> Q * Q -> Q.

Local Notation "'dist' point node" :=
  (geodesic_km (lat point, lng point) (Sensor.lat node, Sensor.lng node))
  (at level 10, point at level 9, node at level 9, only parsing).

(** What the scan returns is a candidate, within the radius, and no other
    candidate is nearer. *)
Lemma nearest_is_member (point : Coord) (nodes : list Sensor.t)
      (max_distance_km : Q) (nearest : Sensor.t) :
  find_nearest_air_quality_node geodesic_km (lat point) (lng point) nodes
    max_distance_km = Some nearest ->
  In nearest nodes
  /\ dist point nearest <= max_distance_km
  /\ Forall (fun other => dist point nearest <= dist point other) nodes.
Proof.
  unfold find_nearest_air_quality_node.
  destruct (scan_total geodesic_km
              (fun node : Sensor.t => (Sensor.lat node, Sensor.lng node))
              (lat point, lng point) max_distance_km nodes)
    as [[E _] | (c & before & after & E & -> & Hr & Hb & Ha)];
    rewrite E; simpl; [discriminate|].
  intros [= <-]. split; [apply in_elt|]. split; [exact Hr|].
  apply Forall_app. split.
  - eapply Forall_impl; [exact Hb|]. intros x Hx. simpl in Hx. lra.
  - constructor; [apply Qle_refl | exact Ha].
Qed.

(** Each score the loop appends is the score of the nearest sensor of a
    sampled point, recorded with that point, sensor name and level. *)
Lemma collect_scores_joined (nodes : list Sensor.t) (points : list Coord)
      (scores : list Q) (quality_points : list QualityPoint) :
  exists (new_scores : list Q) (new_points : list QualityPoint),
    collect_scores geodesic_km nodes points scores quality_points
    = (scores ++ new_scores, quality_points ++ new_points)
    /\ Forall2
         (fun sc qp =>
            qp_score qp = sc
            /\ In (qp_coordinates qp) points
            /\ exists sensor : Sensor.t,
                 find_nearest_air_quality_node geodesic_km
                   (lat (qp_coordinates qp)) (lng (qp_coordinates qp)) nodes
                   sensor_radius_km = Some sensor
                 /\ sc = Sensor.air_quality_score sensor
                 /\ qp_nearest_sensor qp = Sensor.nombre sensor
                 /\ qp_quality_level qp = get_quality_level sc)
         new_scores new_points.
Proof.
  revert scores quality_points.
  induction points as [|p points IH]; intros scores quality_points; simpl.
  - exists [], []. rewrite !app_nil_r. split; [reflexivity | constructor].
  - destruct (find_nearest_air_quality_node geodesic_km (lat p) (lng p) nodes
                sensor_radius_km) as [sensor|] eqn:Enear.
    + match goal with
      | |- context [collect_scores _ _ _ (scores ++ [?sc]) (quality_points ++ [?qp])] =>
          destruct (IH (scores ++ [sc]) (quality_points ++ [qp]))
            as (ns & nq & E & Hall);
          exists (sc :: ns), (qp :: nq)
      end.
      rewrite E, <- !app_assoc. split; [reflexivity|].
      constructor.
      * split; [reflexivity|]. split; [left; reflexivity|].
        exists sensor. repeat split; try reflexivity. exact Enear.
      * eapply Forall2_impl; [exact Hall|].
        intros sc qp (H1 & H2 & H3). split; [exact H1|].
        split; [right; exact H2 | exact H3].
    + destruct (IH scores quality_points) as (ns & nq & E & Hall).
      exists ns, nq. split; [exact E|].
      eapply Forall2_impl; [exact Hall|].
      intros sc qp (H1 & H2 & H3). split; [exact H1|].
      split; [right; exact H2 | exact H3].
Qed.

(** What [analyze_route_air_quality] computes once a sample is joined. *)
Lemma full_summary (route_coords : list Coord)
      (air_quality_data : AirQualityData) (k : nat) :
  samples_analyzed
    (analyze_route_air_quality geodesic_km route_coords air_quality_data)
  = Some k ->
  exists (scores : list Q) (joined : list QualityPoint),
    collect_scores geodesic_km (nodes_with_air_quality air_quality_data)
      (sample_points route_coords) [] [] = (scores, joined)
    /\ scores <> [] /\ k = length scores
    /\ success air_quality_data = true
    /\ analyze_route_air_quality geodesic_km route_coords air_quality_data
       = {| average_air_quality_score :=
              Py.round (sum scores / inject_Z (Z.of_nat (length scores))) 2;
            quality_level :=
              get_quality_level
                (sum scores / inject_Z (Z.of_nat (length scores)));
            message := None;
            samples_analyzed := Some (length scores);
            min_score := (fun m => Py.round m 2) <$> list_min scores;
            max_score := (fun m => Py.round m 2) <$> list_max scores;
            quality_points := Some (take 3 joined);
            recommendation :=
              Some (generate_air_quality_recommendation
                      (sum scores / inject_Z (Z.of_nat (length scores)))) |}.
Proof.
  unfold analyze_route_air_quality.
  destruct (success air_quality_data); simpl; [|discriminate].
  destruct (nodes_with_air_quality air_quality_data) as [|nd nds];
    [discriminate|].
  destruct (collect_scores _ _ _ _ _) as [scores joined].
  destruct scores as [|x scores]; [discriminate|].
  cbn [samples_analyzed]. intros [= <-].
  exists (x :: scores), joined. repeat split; try reflexivity. discriminate.
Qed.

(** X3: with a successful snapshot, a point is evaluated either to the
    neutral answer, exactly when every sensor is farther than 3 km, or to
    its nearest sensor: a sensor of the snapshot within 3 km that no other
    sensor beats, reported with its score, the level of that score, its
    name and the distance rounded to 2 decimals, which is at most 3. *)
Theorem point_evaluation (point : Coord) (air_quality_data : AirQualityData)
        (Hsuccess : success air_quality_data = true) :
  let nodes := nodes_with_air_quality air_quality_data in
  let r := evaluate_point_air_quality geodesic_km point air_quality_data in
  (Forall (fun node => sensor_radius_km < dist point node) nodes
   /\ r = {| score := 50; level := "🔵 Sin datos cercanos";
             nearest_sensor := None; sensor_distance_km := None |})
  \/ (exists sensor : Sensor.t,
        In sensor nodes
        /\ dist point sensor <= sensor_radius_km
        /\ Forall (fun other => dist point sensor <= dist point other) nodes
        /\ r = {| score := Sensor.air_quality_score sensor;
                  level := get_quality_level (Sensor.air_quality_score sensor);
                  nearest_sensor := Some (Sensor.nombre sensor);
                  sensor_distance_km :=
                    Some (Py.round (dist point sensor) 2) |}
        /\ Py.round (dist point sensor) 2 <= sensor_radius_km).
Proof.
  intros nodes r. unfold r, evaluate_point_air_quality.
  rewrite Hsuccess. cbn [negb]. fold nodes.
  destruct (find_nearest_air_quality_node geodesic_km (lat point) (lng point)
              nodes sensor_radius_km) as [sensor|] eqn:Enear.
  - right. exists sensor.
    destruct (nearest_is_member _ _ _ _ Enear) as (Hin & Hr & Hmin).
    split; [exact Hin|]. split; [exact Hr|]. split; [exact Hmin|].
    split; [reflexivity|].
    assert (Py.round sensor_radius_km 2 == sensor_radius_km) as <-
      by (vm_compute; reflexivity).
    apply round_mono, Hr.
  - left. split; [|reflexivity].
    unfold find_nearest_air_quality_node in Enear.
    destruct (scan_total geodesic_km
                (fun node : Sensor.t => (Sensor.lat node, Sensor.lng node))
                (lat point, lng point) sensor_radius_km nodes)
      as [[_ F] | (c & before & after & E & _)]; [exact F|].
    rewrite E in Enear. discriminate.
Qed.

Lemma point_score_in_range (point : Coord) (air_quality_data : AirQualityData) :
  Forall (fun node => 0 <= Sensor.air_quality_score node
                      /\ Sensor.air_quality_score node <= 100)
         (nodes_with_air_quality air_quality_data) ->
  0 <= score (evaluate_point_air_quality geodesic_km point air_quality_data)
  /\ score (evaluate_point_air_quality geodesic_km point air_quality_data)
     <= 100.
Proof.
  intros Hscores. unfold evaluate_point_air_quality.
  destruct (success air_quality_data); cbn [negb score];
    [|split; discriminate].
  destruct (find_nearest_air_quality_node _ _ _ _ _) as [sensor|] eqn:Enear;
    cbn [score]; [|split; discriminate].
  destruct (nearest_is_member _ _ _ _ Enear) as (Hin & _).
  exact (proj1 (List.Forall_forall _ _) Hscores sensor Hin).
Qed.

(** Every step's [air_quality] is the evaluation of some point. *)
Lemma steps_evaluated (route_coords : list Coord)
      (air_quality_data : AirQualityData) (mode : string)
      (total_distance_km : Q) (steps : list RouteStep) :
  generate_detailed_route_steps geodesic_km route_coords air_quality_data mode
    total_distance_km = Some steps ->
  Forall (fun s => exists point : Coord,
                     air_quality s
                     = evaluate_point_air_quality geodesic_km point
                         air_quality_data) steps.
Proof.
  intros Esteps.
  assert (route_coords <> []) as Hne.
  { intros ->. discriminate Esteps. }
  assert (forall (s0 arr : RouteStep) (navs : list RouteStep)
                 (first final : Coord) (ss base : nat) (idxs : list nat),
            StepSpec.navigation_run geodesic_km route_coords air_quality_data
              mode first ss base idxs navs ->
            air_quality s0
            = evaluate_point_air_quality geodesic_km first air_quality_data ->
            air_quality arr
            = evaluate_point_air_quality geodesic_km final air_quality_data ->
            Forall (fun s => exists point : Coord,
                               air_quality s
                               = evaluate_point_air_quality geodesic_km point
                                   air_quality_data) (s0 :: navs ++ [arr]))
    as Hall.
  { intros s0 arr navs first final ss base idxs Hrun Q0 Qa.
    constructor; [eauto|]. apply Forall_app. split; [|repeat constructor; eauto].
    clear Q0 Qa.
    induction Hrun as [|b k rest s navs (pt & _ & _ & _ & _ & _ & _ & Hq) _ IH];
      constructor; eauto. }
  destruct (Nat.lt_ge_cases (length route_coords) 3) as [Hlt|Hge].
  - destruct (OsmRouteFacts.basic_steps_shape geodesic_km route_coords
                air_quality_data mode total_distance_km Hne)
      as (s0 & navs & arr & first & final & E & _ & _ & Hrun
          & _ & _ & _ & _ & _ & _ & _ & _ & _ & _ & Q0 & Qa).
    unfold generate_detailed_route_steps in Esteps.
    assert ((length route_coords <? 3)%nat = true) as Hb
      by (apply Nat.ltb_lt, Hlt).
    rewrite Hb, E in Esteps. injection Esteps as <-.
    eapply Hall; eassumption.
  - destruct (OsmRouteFacts.detailed_steps_shape geodesic_km route_coords
                air_quality_data mode total_distance_km Hge)
      as (s0 & navs & arr & first & final & E & _ & _ & Hrun
          & _ & _ & _ & _ & _ & _ & _ & _ & _ & _ & Q0 & Qa).
    rewrite E in Esteps. injection Esteps as <-.
    eapply Hall; eassumption.
Qed.

Lemma average_in_range (route_coords : list Coord)
      (air_quality_data : AirQualityData) :
  Forall (fun node => 0 <= Sensor.air_quality_score node
                      /\ Sensor.air_quality_score node <= 100)
         (nodes_with_air_quality air_quality_data) ->
  0 <= average_air_quality_score
         (analyze_route_air_quality geodesic_km route_coords air_quality_data)
  /\ average_air_quality_score
       (analyze_route_air_quality geodesic_km route_coords air_quality_data)
     <= 100.
Proof.
  intros Hscores.
  destruct (samples_analyzed
              (analyze_route_air_quality geodesic_km route_coords
                 air_quality_data)) as [k|] eqn:Ek.
  - destruct (full_summary _ _ _ Ek)
      as (scores & joined & Ecollect & Hne & _ & _ & ->).
    cbn [average_air_quality_score].
    destruct (collect_scores_joined
                (nodes_with_air_quality air_quality_data)
                (sample_points route_coords) [] [])
      as (ns & nq & E & Hall).
    rewrite Ecollect in E. simpl in E. injection E as -> ->.
    destruct (mean_between ns 0 100 Hne) as [Hlo Hhi].
    { apply List.Forall_forall. intros sc Hin.
      destruct (related_member _ _ _ _ Hall Hin)
        as (qp & _ & _ & _ & sensor & Hnear & -> & _).
      apply (proj1 (List.Forall_forall _ _) Hscores).
      apply (nearest_is_member _ _ _ _ Hnear). }
    split; [apply round_nonneg, Hlo | apply round2_le_100, Hhi].
  - revert Ek. unfold analyze_route_air_quality.
    destruct (success air_quality_data); cbn [negb];
      [|intros _; split; discriminate].
    destruct (nodes_with_air_quality air_quality_data) as [|nd nds];
      [intros _; split; discriminate|].
    destruct (collect_scores _ _ _ _ _) as [scores joined].
    destruct scores as [|x scores]; [intros _; split; discriminate|].
    discriminate.
Qed.

(** X4: when the sensors' scores lie in [0, 100], so does every score the
    route tools hand out: the evaluation of any point, the score of every
    synthesized step, and the route's average, whatever the route and the
    state of the snapshot. *)
Theorem scores_stay_in_range (route_coords : list Coord)
        (air_quality_data : AirQualityData) (mode : string)
        (total_distance_km : Q)
        (Hscores :
           Forall (fun node => 0 <= Sensor.air_quality_score node
                               /\ Sensor.air_quality_score node <= 100)
                  (nodes_with_air_quality air_quality_data)) :
  (forall point : Coord,
      0 <= score (evaluate_point_air_quality geodesic_km point
                    air_quality_data)
      /\ score (evaluate_point_air_quality geodesic_km point air_quality_data)
         <= 100)
  /\ (forall steps : list RouteStep,
        generate_detailed_route_steps geodesic_km route_coords
          air_quality_data mode total_distance_km = Some steps ->
        Forall (fun s => 0 <= score (air_quality s)
                         /\ score (air_quality s) <= 100) steps)
  /\ 0 <= average_air_quality_score
            (analyze_route_air_quality geodesic_km route_coords
               air_quality_data)
  /\ average_air_quality_score
       (analyze_route_air_quality geodesic_km route_coords air_quality_data)
     <= 100.
Proof.
  split; [intros point; apply point_score_in_range, Hscores|].
  split.
  - intros steps Esteps.
    eapply Forall_impl; [exact (steps_evaluated _ _ _ _ _ Esteps)|].
    intros s [point ->]. apply point_score_in_range, Hscores.
  - apply average_in_range, Hscores.
Qed.
End Analysis.


Lemma point_evaluation_witness :
  success MoreSamples.snapshot_near = true
  /\ exists sensor : Sensor.t,
       In sensor (nodes_with_air_quality MoreSamples.snapshot_near)
       /\ nearest_sensor
            (evaluate_point_air_quality Samples.flat_km (Samples.node_north 1)
               MoreSamples.snapshot_near)
          = Some (Sensor.nombre sensor).
Proof.
  assert (success MoreSamples.snapshot_near = true) as Hsuccess
      by reflexivity.
  split; [exact Hsuccess|].
  destruct (point_evaluation Samples.flat_km (Samples.node_north 1)
              MoreSamples.snapshot_near Hsuccess)
    as [[_ E] | (sensor & Hin & _ & _ & E & _)].
  - apply (f_equal nearest_sensor) in E. vm_compute in E. discriminate E.
  - exists sensor. split; [exact Hin|]. rewrite E. reflexivity.
Defined.

Lemma scores_stay_in_range_witness :
  Forall (fun node => 0 <= Sensor.air_quality_score node
                      /\ Sensor.air_quality_score node <= 100)
         (nodes_with_air_quality MoreSamples.snapshot_near)
  /\ average_air_quality_score
       (analyze_route_air_quality Samples.flat_km (Samples.route_north 4)
          MoreSamples.snapshot_near) <= 100.
Proof.
  assert (Forall (fun node => 0 <= Sensor.air_quality_score node
                              /\ Sensor.air_quality_score node <= 100)
                 (nodes_with_air_quality MoreSamples.snapshot_near))
    as Hscores by (repeat constructor; discriminate).
  split; [exact Hscores|].
  apply (scores_stay_in_range Samples.flat_km (Samples.route_north 4)
           MoreSamples.snapshot_near "walk" 1 Hscores).
Defined.

End AnalysisFacts.

(** ** Instructions, durations and map hints *)

Module SynthesisFacts.
Import Exc SpatialJoin SpatialJoinFacts OsmRouteTools StepSpec.
Import PyFacts NumericFacts.

Lemma related_all {A B : Type} (R : A -> B -> Prop) (P : A -> Prop)
      (G : B -> Prop) (xs : list A) (ys : list B) :
  (forall x y, P x -> R x y -> G y) ->
  Forall2 R xs ys -> Forall P xs -> Forall G ys.
Proof.
  intros Himp. induction 1 as [|x y xs ys Hxy _ IH]; intros HP; constructor.
  - apply (Himp x y); [apply (Forall_inv HP) | exact Hxy].
  - apply IH, (Forall_inv_tail HP).
Qed.

(** The last segment boundary lies at most 7/8 of the way along the nodes. *)
Lemma boundary_progress (n k : nat) :
  (3 <= n)%nat ->
  let num_segments := Nat.min 8 (Nat.max 3 (n / 10)) in
  (1 <= k < num_segments)%nat ->
  inject_Z (Z.of_nat (k * (n / num_segments))) / inject_Z (Z.of_nat n)
  <= 7 # 8.
Proof.
  intros Hn num_segments Hk.
  destruct (OsmRouteFacts.num_segments_bounds n Hn) as [Hns _].
  fold num_segments in Hns.
  pose proof (Nat.Div0.mul_div_le n num_segments) as Hm.
  assert (8 * (k * (n / num_segments)) <= 7 * n)%nat as Hnat.
  { assert (k * (n / num_segments) <= (num_segments - 1) * (n / num_segments))%nat
      by (apply Nat.mul_le_mono_r; lia).
    assert (8 * ((num_segments - 1) * (n / num_segments))
            <= 7 * (num_segments * (n / num_segments)))%nat by nia.
    lia. }
  apply Qle_shift_div_r.
  - change 0 with (inject_Z 0). rewrite <- Zlt_Qlt. lia.
  - unfold Qle. cbn [Qnum Qden Qmult inject_Z]. lia.
Qed.

(** Below 90 % progress the instruction is one of the first three texts. *)
Lemma early_instruction (segment_idx : nat) (progress : Q) (mode : string) :
  progress < 9 # 10 ->
  let text := generate_segment_instruction segment_idx progress mode in
  (text = "⬆️ Continúe por la ruta principal en " +:+ get_mode_display_name mode
   \/ text = "➡️ Manténgase en esta vía en " +:+ get_mode_display_name mode
   \/ text = "↗️ Se acerca a su destino en " +:+ get_mode_display_name mode)
  /\ text <> "🎯 Prepare su llegada al destino final".
Proof.
  intros Hp text. unfold text, generate_segment_instruction.
  apply Qltb_lt in Hp.
  destruct (Qltb progress (3 # 10)); [split; [auto | cbn; discriminate]|].
  destruct (Qltb progress (6 # 10)); [split; [auto | cbn; discriminate]|].
  rewrite Hp. split; [auto | cbn; discriminate].
Qed.

Lemma icon_in_table (segment_idx : nat) :
  (segment_idx < 8)%nat ->
  get_segment_icon segment_idx = List.nth segment_idx icons "".
Proof.
  intros H. unfold get_segment_icon.
  change (length icons) with 8%nat. rewrite Nat.mod_small by exact H.
  reflexivity.
Qed.

Section Synthesis.
Variable geodesic_km : Q * Q -> Q * Q -> Q.

(** What the loop appends for the segment indices [a, a+1, ...] when the
    list already holds [a] steps: one navigation step per index, numbered
    after it, at the node of its boundary, with the text and the icon of
    that index. *)
Lemma navigation_steps_indexed (route_coords : list Coord)
      (air_quality_data : AirQualityData) (mode : string) (first : Coord)
      (segment_size count : nat) :
  forall (a : nat) (steps : list RouteStep),
    length steps = a ->
    Forall (fun k => (k * segment_size < length route_coords)%nat)
           (seq a count) ->
    exists navs : list RouteStep,
      navigation_steps geodesic_km route_coords air_quality_data mode first
        segment_size (seq a count) steps = Some (steps ++ navs)
      /\ Forall2
           (fun k s =>
              type s = navigation
              /\ step_number s = S k
              /\ route_coords !! (k * segment_size)%nat = Some (coordinates s)
              /\ icon s = get_segment_icon k
              /\ instruction s
                 = generate_segment_instruction k
                     (inject_Z (Z.of_nat (k * segment_size))
                      / inject_Z (Z.of_nat (length route_coords))) mode)
           (seq a count) navs.
Proof.
  induction count as [|count IH]; intros a steps Hlen Hin; simpl.
  - exists []. rewrite app_nil_r. split; [reflexivity | constructor].
  - cbn [seq] in Hin. pose proof (Forall_inv Hin) as Hk.
    assert ((length route_coords <=? a * segment_size)%nat = false) as ->
      by (apply Nat.leb_gt, Hk).
    destruct (lookup_lt_is_Some_2 route_coords _ Hk) as [pt Ept].
    rewrite Ept. simpl.
    match goal with
    | |- context [navigation_steps _ _ _ _ _ _ _ (steps ++ [?s])] =>
        set (step := s)
    end.
    destruct (IH (S a) (steps ++ [step])) as (navs & E & Hall).
    { rewrite length_app. simpl. lia. }
    { exact (Forall_inv_tail Hin). }
    exists (step :: navs).
    rewrite E, <- app_assoc. split; [reflexivity|].
    constructor; [|exact Hall].
    subst step. cbn. rewrite Hlen.
    split; [reflexivity|]. split; [f_equal; lia|].
    split; [exact Ept|]. split; reflexivity.
Qed.

(** X5: on a route of at least 3 nodes the synthesizer returns a start
    step, one navigation step for each segment index k = 1, 2, ... below the
    number of segments, and an arrival step.  The step of index k is
    numbered k + 1, stands at node [k * segment_size], and carries the icon
    of the icon table at k, which is at most 7.  None of them is told to
    prepare for arrival: the last segment boundary lies at most 7/8 of the
    way along the node list, below the 0.9 threshold, so each carries one of
    the first three instruction texts. *)
Theorem navigation_steps_never_announce_arrival (route_coords : list Coord)
        (air_quality_data : AirQualityData) (mode : string)
        (total_distance_km : Q)
        (Hlen : (3 <= length route_coords)%nat) :
  let num_segments := Nat.min 8 (Nat.max 3 (length route_coords / 10)) in
  let segment_size := (length route_coords / num_segments)%nat in
  exists (s0 arr : RouteStep) (navs : list RouteStep),
    generate_detailed_route_steps geodesic_km route_coords air_quality_data
      mode total_distance_km = Some (s0 :: navs ++ [arr])
    /\ type s0 = start /\ type arr = arrival
    /\ length navs = (num_segments - 1)%nat
    /\ Forall2
         (fun k s =>
            type s = navigation
            /\ step_number s = S k
            /\ (1 <= k <= 7)%nat
            /\ route_coords !! (k * segment_size)%nat = Some (coordinates s)
            /\ icon s = List.nth k icons ""
            /\ (instruction s
                = "⬆️ Continúe por la ruta principal en "
                  +:+ get_mode_display_name mode
                \/ instruction s
                   = "➡️ Manténgase en esta vía en "
                     +:+ get_mode_display_name mode
                \/ instruction s
                   = "↗️ Se acerca a su destino en "
                     +:+ get_mode_display_name mode)
            /\ instruction s <> "🎯 Prepare su llegada al destino final")
         (seq 1 (num_segments - 1)) navs.
Proof.
  intros num_segments segment_size.
  unfold generate_detailed_route_steps.
  assert ((length route_coords <? 3)%nat = false) as ->
    by (apply Nat.ltb_ge, Hlen).
  destruct (lookup_lt_is_Some_2 route_coords 0) as [first Efirst]; [lia|].
  destruct (last route_coords) as [final|] eqn:Elast;
    [|apply last_None in Elast; subst; simpl in Hlen; lia].
  rewrite Efirst. cbn -[Nat.min Nat.max Nat.div Nat.sub seq navigation_steps].
  fold num_segments. fold segment_size.
  destruct (OsmRouteFacts.num_segments_bounds _ Hlen) as [Hns _].
  fold num_segments in Hns.
  assert (Forall (fun k => (1 <= k < num_segments)%nat)
                 (seq 1 (num_segments - 1))) as Hidx.
  { apply Forall_forall. intros k Hk. apply elem_of_seq in Hk. lia. }
  match goal with
  | |- context [navigation_steps _ _ _ _ _ _ _ [?s0]] =>
      destruct (navigation_steps_indexed route_coords air_quality_data mode
                  first segment_size (num_segments - 1) 1 [s0] eq_refl)
        as (navs & E & Hall);
      [|rewrite E; cbn [mbind option_bind]]
  end.
  - eapply Forall_impl; [exact Hidx|]. intros k Hk.
    apply OsmRouteFacts.segment_in_range; [exact Hlen | exact Hk].
  - do 2 eexists. exists navs. cbn [app].
    split; [reflexivity|]. split; [reflexivity|]. split; [reflexivity|].
    split.
    { rewrite <- (Forall2_length _ _ _ Hall), length_seq. reflexivity. }
    assert (Forall2 (fun k s => (1 <= k < num_segments)%nat /\
              (type s = navigation
               /\ step_number s = S k
               /\ route_coords !! (k * segment_size)%nat = Some (coordinates s)
               /\ icon s = get_segment_icon k
               /\ instruction s
                  = generate_segment_instruction k
                      (inject_Z (Z.of_nat (k * segment_size))
                       / inject_Z (Z.of_nat (length route_coords))) mode))
              (seq 1 (num_segments - 1)) navs) as Hboth.
    { clear -Hall Hidx. induction Hall as [|k s ks ss Hks _ IH];
        [constructor|].
      constructor; [split; [exact (Forall_inv Hidx) | exact Hks]|].
      apply IH, (Forall_inv_tail Hidx). }
    eapply Forall2_impl; [exact Hboth|].
    intros k s (Hk & Htype & Hnum & Hnode & Hicon & Htext).
    destruct (early_instruction k
                (inject_Z (Z.of_nat (k * segment_size))
                 / inject_Z (Z.of_nat (length route_coords))) mode)
      as [Hforms Hnot].
    { eapply Qle_lt_trans;
        [apply boundary_progress; [exact Hlen | exact Hk] | reflexivity]. }
    split; [exact Htype|]. split; [exact Hnum|]. split; [lia|].
    split; [exact Hnode|].
    split; [rewrite Hicon; apply icon_in_table; lia|].
    rewrite Htext. split; [exact Hforms | exact Hnot].
Qed.
End Synthesis.

(** X6: the speed is 40, 5 and 15 km/h for "drive", "walk" and "bike" and
    20 km/h for any other mode string, so it is never zero and the duration
    is defined for every mode.  The duration is not negative for a
    non-negative distance and grows with the distance; over the same
    distance driving takes at most the time of an unknown mode, that at most
    the time of cycling, and cycling at most the time of walking. *)
Theorem duration_of_any_mode (mode : string) (d1 d2 : Q)
        (Hpos : 0 <= d1) (Hle : d1 <= d2) :
  get_osm_speed_kmh "drive" = 40
  /\ get_osm_speed_kmh "walk" = 5
  /\ get_osm_speed_kmh "bike" = 15
  /\ (mode <> "drive" -> mode <> "walk" -> mode <> "bike" ->
      get_osm_speed_kmh mode = 20)
  /\ (get_osm_speed_kmh mode = 40 \/ get_osm_speed_kmh mode = 5
      \/ get_osm_speed_kmh mode = 15 \/ get_osm_speed_kmh mode = 20)
  /\ 0 < get_osm_speed_kmh mode
  /\ 0 <= calculate_osm_duration d1 mode
  /\ calculate_osm_duration d1 mode <= calculate_osm_duration d2 mode
  /\ calculate_osm_duration d1 "drive" <= calculate_osm_duration d1 ""
  /\ calculate_osm_duration d1 "" <= calculate_osm_duration d1 "bike"
  /\ calculate_osm_duration d1 "bike" <= calculate_osm_duration d1 "walk".
Proof.
  pose proof (OsmRouteFacts.speed_positive mode) as Hs.
  split; [reflexivity|]. split; [reflexivity|]. split; [reflexivity|].
  split; [|split; [|split; [exact Hs|]]].
  - intros Hd Hw Hb. unfold get_osm_speed_kmh, speeds.
    rewrite lookup_insert_ne by congruence.
    rewrite lookup_insert_ne by congruence.
    rewrite lookup_singleton_ne by congruence. reflexivity.
  - unfold get_osm_speed_kmh, speeds.
    destruct (_ !! mode) as [v|] eqn:E; simpl; [|auto].
    apply lookup_insert_Some in E as [[_ <-] | [_ E]]; [auto|].
    apply lookup_insert_Some in E as [[_ <-] | [_ E]]; [auto|].
    apply lookup_singleton_Some in E as [_ <-]. auto.
  - split; [apply OsmRouteFacts.minutes_nonneg, Hpos|].
    split.
    { unfold calculate_osm_duration.
      apply Qmult_le_compat_r; [|discriminate].
      apply Qmult_le_compat_r;
        [exact Hle | apply Qlt_le_weak, Qinv_lt_0_compat, Hs]. }
    unfold calculate_osm_duration.
    change (get_osm_speed_kmh "drive") with 40.
    change (get_osm_speed_kmh "") with 20.
    change (get_osm_speed_kmh "bike") with 15.
    change (get_osm_speed_kmh "walk") with 5.
    unfold Qdiv.
    change (/ 40) with (1 # 40). change (/ 20) with (1 # 20).
    change (/ 15) with (1 # 15). change (/ 5) with (1 # 5).
    repeat split; lra.
Qed.

Lemma duration_of_any_mode_witness :
  0 <= 3 /\ 3 <= 12
  /\ calculate_osm_duration 3 "walk" <= calculate_osm_duration 12 "walk"
  /\ calculate_osm_duration 3 "bike" <= calculate_osm_duration 3 "walk".
Proof.
  assert (0 <= 3) as Hpos by discriminate.
  assert (3 <= 12) as Hle by discriminate.
  split; [exact Hpos|]. split; [exact Hle|].
  destruct (duration_of_any_mode "walk" 3 12 Hpos Hle)
    as (_ & _ & _ & _ & _ & _ & _ & Hmono & _ & _ & Hbike).
  split; [exact Hmono | exact Hbike].
Defined.

(** X7: [calculate_osm_bounds] fails exactly on the empty route; otherwise
    each bound is a coordinate of some route node, south is at most north,
    west at most east, and every node of the route lies inside the box. *)
Theorem bounds_enclose_route (route_coords : list Coord) :
  (calculate_osm_bounds route_coords = None <-> route_coords = [])
  /\ (forall b : Bounds,
        calculate_osm_bounds route_coords = Some b ->
        south b <= north b /\ west b <= east b
        /\ In (north b) (map lat route_coords)
        /\ In (south b) (map lat route_coords)
        /\ In (east b) (map lng route_coords)
        /\ In (west b) (map lng route_coords)
        /\ Forall (fun c => south b <= lat c /\ lat c <= north b
                            /\ west b <= lng c /\ lng c <= east b)
                  route_coords).
Proof.
  split.
  - destruct route_coords; split; intros H; try reflexivity; discriminate H.
  - intros b. unfold calculate_osm_bounds.
    destruct (list_max (map lat route_coords)) as [n|] eqn:En;
      cbn [mbind option_bind]; [|discriminate].
    destruct (list_min (map lat route_coords)) as [s|] eqn:Es;
      cbn [mbind option_bind]; [|discriminate].
    destruct (list_max (map lng route_coords)) as [e|] eqn:Ee;
      cbn [mbind option_bind]; [|discriminate].
    destruct (list_min (map lng route_coords)) as [w|] eqn:Ew;
      cbn [mbind option_bind]; [|discriminate].
    intros [= <-]. cbn [north south east west].
    destruct (list_max_upper _ _ En) as [Hn_in Hn].
    destruct (list_min_lower _ _ Es) as [Hs_in Hs].
    destruct (list_max_upper _ _ Ee) as [He_in He].
    destruct (list_min_lower _ _ Ew) as [Hw_in Hw].
    rewrite List.Forall_forall in Hn, Hs, He, Hw.
    split; [apply Hs, Hn_in|]. split; [apply Hw, He_in|].
    repeat (split; [assumption|]).
    apply List.Forall_forall. intros c Hc.
    pose proof (in_map lat _ _ Hc) as Hlat.
    pose proof (in_map lng _ _ Hc) as Hlng.
    repeat split; auto.
Qed.

Lemma bounds_enclose_route_witness :
  exists b : Bounds,
    calculate_osm_bounds Samples.route_out_and_back = Some b
    /\ south b <= north b /\ west b <= east b.
Proof.
  eexists. split; [reflexivity|].
  split; apply (proj2 (bounds_enclose_route Samples.route_out_and_back) _ eq_refl).
Defined.

(** X8: [find_route_center] fails exactly on the empty route; otherwise it
    returns the coordinates of the node at index [len // 2], which lie inside
    the box of [calculate_osm_bounds]. *)
Theorem center_inside_bounds (route_coords : list Coord) :
  (find_route_center route_coords = None <-> route_coords = [])
  /\ (forall center : Q * Q,
        find_route_center route_coords = Some center ->
        (exists mid : Coord,
            route_coords !! (length route_coords / 2)%nat = Some mid
            /\ center = (lat mid, lng mid))
        /\ exists b : Bounds,
             calculate_osm_bounds route_coords = Some b
             /\ south b <= fst center /\ fst center <= north b
             /\ west b <= snd center /\ snd center <= east b).
Proof.
  split.
  - split; [|intros ->; reflexivity].
    destruct route_coords as [|c rest]; [reflexivity|]. intros H. exfalso.
    destruct (OsmRouteFacts.center_of_route (c :: rest)) as [x Ex];
      [discriminate | congruence].
  - intros center. unfold find_route_center.
    destruct (route_coords !! (length route_coords / 2)%nat) as [mid|] eqn:Emid;
      cbn [mbind option_bind]; [|discriminate].
    intros [= <-]. split; [exists mid; split; reflexivity|].
    assert (In mid route_coords) as Hin
      by (apply list_elem_of_In, list_elem_of_lookup; eauto).
    assert (route_coords <> []) as Hne by (intros ->; destruct Hin).
    destruct (OsmRouteFacts.bounds_of_route _ Hne) as [b Eb].
    exists b. split; [exact Eb|].
    destruct (list_max (map lat route_coords)) as [n|] eqn:En;
      unfold calculate_osm_bounds in Eb; rewrite En in Eb;
      cbn [mbind option_bind] in Eb; [|discriminate].
    destruct (list_min (map lat route_coords)) as [s|] eqn:Es;
      cbn [mbind option_bind] in Eb; [|discriminate].
    destruct (list_max (map lng route_coords)) as [e|] eqn:Ee;
      cbn [mbind option_bind] in Eb; [|discriminate].
    destruct (list_min (map lng route_coords)) as [w|] eqn:Ew;
      cbn [mbind option_bind] in Eb; [|discriminate].
    injection Eb as <-. cbn [north south east west fst snd].
    destruct (list_max_upper _ _ En) as [_ Hn].
    destruct (list_min_lower _ _ Es) as [_ Hs].
    destruct (list_max_upper _ _ Ee) as [_ He].
    destruct (list_min_lower _ _ Ew) as [_ Hw].
    rewrite List.Forall_forall in Hn, Hs, He, Hw.
    pose proof (in_map lat _ _ Hin) as Hlat.
    pose proof (in_map lng _ _ Hin) as Hlng.
    repeat split; auto.
Qed.

Lemma center_inside_bounds_witness :
  find_route_center (Samples.route_north 4)
  = Some (lat (Samples.node_north 2), lng (Samples.node_north 2)).
Proof.
  destruct (proj2 (center_inside_bounds (Samples.route_north 4)) _ eq_refl)
    as [(mid & Emid & ->) _].
  injection Emid as <-. reflexivity.
Defined.

Lemma navigation_steps_never_announce_arrival_witness :
  (3 <= length (Samples.route_north 50))%nat
  /\ exists (s0 arr : RouteStep) (navs : list RouteStep),
       generate_detailed_route_steps Samples.flat_km (Samples.route_north 50)
         Samples.snapshot_failed "bike" 6 = Some (s0 :: navs ++ [arr])
       /\ length navs = 4%nat
       /\ Forall2 (fun k s =>
                     step_number s = S k
                     /\ icon s = List.nth k icons ""
                     /\ instruction s
                        <> "🎯 Prepare su llegada al destino final")
                  [1; 2; 3; 4]%nat navs.
Proof.
  assert (3 <= length (Samples.route_north 50))%nat as Hlen
    by (apply Nat.leb_le; reflexivity).
  split; [exact Hlen|].
  destruct (navigation_steps_never_announce_arrival Samples.flat_km
              (Samples.route_north 50) Samples.snapshot_failed "bike" 6 Hlen)
    as (s0 & arr & navs & E & _ & _ & Hcount & Hall).
  exists s0, arr, navs. split; [exact E|]. split; [exact Hcount|].
  eapply Forall2_impl; [exact Hall|].
  intros k s (_ & Hnum & _ & _ & Hicon & _ & Hnot).
  split; [exact Hnum|]. split; [exact Hicon | exact Hnot].
Defined.

End SynthesisFacts.

(** ** The nearest destination of a type *)

Module DestinationFacts.
Import Exc SpatialJoin SpatialJoinFacts DestinationToolsOsm.
Import PyFacts NumericFacts.

Section Nearest.
Variable geodesic_km : Q * Q -> Q * Q -> Q.
Variable find_destination_osm : string -> exc DestinationSearch.
Variable str_float : Q -> string.

Local Notation "'away' origin d" :=
  (geodesic_km origin (lat d, lng d))
  (at level 10, origin at level 9, d at level 9, only parsing).

(** What a found destination tells about the search and the distances. *)
Lemma nearest_found_inv (origin_lat origin_lng : Q) (destination_type : string)
      (max_distance_km : Q) (nearest : Destination) (distance_km : Q)
      (origin : Q * Q) (search_type : string) :
  find_nearest_destination geodesic_km find_destination_osm str_float
    origin_lat origin_lng destination_type max_distance_km
  = NearestFound nearest distance_km origin search_type ->
  exists dest_result : DestinationSearch,
    find_destination_osm destination_type = Ret dest_result
    /\ success dest_result = true
    /\ In nearest (matches dest_result)
    /\ away (origin_lat, origin_lng) nearest <= max_distance_km
    /\ Forall (fun other => away (origin_lat, origin_lng) nearest
                            <= away (origin_lat, origin_lng) other)
              (matches dest_result)
    /\ distance_km = Py.round (away (origin_lat, origin_lng) nearest) 2
    /\ origin = (origin_lat, origin_lng)
    /\ search_type = destination_type.
Proof.
  unfold find_nearest_destination.
  destruct (find_destination_osm destination_type) as [e|dest_result];
    [discriminate|].
  destruct (success dest_result) eqn:Hsucc; cbn [negb orb]; [|discriminate].
  destruct (matches dest_result) as [|m0 ms] eqn:Em; [discriminate|].
  destruct (scan_total geodesic_km (fun d : Destination => (lat d, lng d))
              (origin_lat, origin_lng) max_distance_km (m0 :: ms))
    as [[E _] | (c & before & after & E & Hsplit & Hr & Hb & Ha)];
    rewrite E; [discriminate|].
  intros [= <- <- <- <-]. exists dest_result.
  split; [reflexivity|]. split; [exact Hsucc|].
  rewrite Em, Hsplit. split; [apply in_elt|]. split; [exact Hr|].
  split; [|repeat split].
  apply Forall_app. split.
  - eapply Forall_impl; [exact Hb|]. intros x Hx. simpl in Hx. lra.
  - constructor; [apply Qle_refl | exact Ha].
Qed.

(** X9: [find_nearest_destination] fails with the search's message when
    the place search raises, with "No se encontraron <type>" when the search
    fails or is empty, and with "No hay <type> dentro de <radius>km" when
    every match is beyond the radius.  When it succeeds, the destination is a
    match of the search within the radius that no other match beats, and the
    reported distance is its geodesic distance rounded to 2 decimals. *)
Theorem nearest_destination_outcome (origin_lat origin_lng : Q)
        (destination_type : string) (max_distance_km : Q) :
  let r :=
    find_nearest_destination geodesic_km find_destination_osm str_float
      origin_lat origin_lng destination_type max_distance_km in
  (forall e : string,
      find_destination_osm destination_type = Raise e -> r = NearestFailure e)
  /\ (forall dest_result : DestinationSearch,
        find_destination_osm destination_type = Ret dest_result ->
        success dest_result = false \/ matches dest_result = [] ->
        r = NearestFailure ("No se encontraron " +:+ destination_type))
  /\ (forall dest_result : DestinationSearch,
        find_destination_osm destination_type = Ret dest_result ->
        success dest_result = true -> matches dest_result <> [] ->
        Forall (fun d => max_distance_km < away (origin_lat, origin_lng) d)
               (matches dest_result) ->
        r = NearestFailure ("No hay " +:+ destination_type +:+ " dentro de "
                            +:+ str_float max_distance_km +:+ "km"))
  /\ (forall (nearest : Destination) (distance_km : Q) (origin : Q * Q)
             (search_type : string),
        r = NearestFound nearest distance_km origin search_type ->
        exists dest_result : DestinationSearch,
          find_destination_osm destination_type = Ret dest_result
          /\ In nearest (matches dest_result)
          /\ away (origin_lat, origin_lng) nearest <= max_distance_km
          /\ Forall (fun other => away (origin_lat, origin_lng) nearest
                                  <= away (origin_lat, origin_lng) other)
                    (matches dest_result)
          /\ distance_km = Py.round (away (origin_lat, origin_lng) nearest) 2
          /\ distance_km <= Py.round max_distance_km 2
          /\ origin = (origin_lat, origin_lng)
          /\ search_type = destination_type).
Proof.
  intros r. split; [|split; [|split]].
  - intros e He. unfold r, find_nearest_destination. rewrite He. reflexivity.
  - intros dest_result He Hfail. unfold r, find_nearest_destination.
    rewrite He. destruct Hfail as [-> | ->]; [reflexivity|].
    rewrite orb_true_r. reflexivity.
  - intros dest_result He Hsucc Hne Hfar. unfold r, find_nearest_destination.
    rewrite He, Hsucc. cbn [negb orb].
    destruct (matches dest_result) as [|m0 ms] eqn:Em; [contradiction|].
    rewrite (scan_none geodesic_km _ _ _ _ Hfar). reflexivity.
  - intros nearest distance_km origin search_type Hfound.
    destruct (nearest_found_inv _ _ _ _ _ _ _ _ Hfound)
      as (dest_result & He & _ & Hin & Hr & Hmin & Hd & Ho & Hs).
    exists dest_result. repeat split; try assumption.
    rewrite Hd. apply round_mono, Hr.
Qed.
End Nearest.

Lemma nearest_destination_outcome_witness :
  find_nearest_destination Samples.flat_km Samples.search_down
    Samples.str_float_stub 0 (- (765 # 10)) "farmacia" 10
  = NearestFailure "connection refused".
Proof.
  apply (nearest_destination_outcome Samples.flat_km Samples.search_down
           Samples.str_float_stub 0 (- (765 # 10)) "farmacia" 10).
  reflexivity.
Defined.

End DestinationFacts.

(** ** The orchestrators, whatever the snapshot *)

Module OrchestratorFacts.
Import Exc SpatialJoin SpatialJoinFacts OsmRouteTools StepSpec.
Import PyFacts NumericFacts.

Section Orchestration.
Variable geodesic_km : Q * Q -> Q * Q -> Q.
Variable osm_path : Q -> Q -> Q -> Q -> string -> exc OsmPath.
Variable air_quality_snapshot : AirQualityData.
Variable now_isoformat : string.
Variable find_destination_osm :
  string -> exc DestinationToolsOsm.DestinationSearch.
Variable str_float : Q -> string.

Local Notation "'direct'" :=
  (get_osm_route_with_air_quality geodesic_km osm_path air_quality_snapshot
     now_isoformat) (only parsing).

(** The synthesizer returns on every non-empty route: a start step, the
    steps in between, an arrival step carrying the total distance. *)
Lemma steps_of_route (route_coords : list Coord) (mode : string)
      (total_distance_km : Q) :
  route_coords <> [] ->
  exists (s0 arr : RouteStep) (between : list RouteStep),
    generate_detailed_route_steps geodesic_km route_coords
      air_quality_snapshot mode total_distance_km
    = Some (s0 :: between ++ [arr])
    /\ type s0 = start /\ type arr = arrival
    /\ distance_from_start_km arr = Py.round total_distance_km 2
    /\ estimated_time_min arr
       = Py.round (total_distance_km / get_osm_speed_kmh mode * 60) 1.
Proof.
  intros Hne.
  destruct (Nat.lt_ge_cases (length route_coords) 3) as [Hlt|Hge].
  - destruct (OsmRouteFacts.basic_steps_shape geodesic_km route_coords
                air_quality_snapshot mode total_distance_km Hne)
      as (s0 & navs & arr & first & final & E & _ & _ & _
          & _ & T0 & _ & _ & _ & _ & Ta & _ & Da & Ma & _).
    exists s0, arr, navs. unfold generate_detailed_route_steps.
    assert ((length route_coords <? 3)%nat = true) as ->
      by (apply Nat.ltb_lt, Hlt).
    repeat split; assumption.
  - destruct (OsmRouteFacts.detailed_steps_shape geodesic_km route_coords
                air_quality_snapshot mode total_distance_km Hge)
      as (s0 & navs & arr & first & final & E & _ & _ & _
          & _ & T0 & _ & _ & _ & _ & Ta & _ & Da & Ma & _).
    exists s0, arr, navs. repeat split; assumption.
Qed.

(** The direct orchestrator on a computed, non-empty path. *)
Lemma direct_route_result (a b c d : Q) (m : string) (path : OsmPath) :
  osm_path a b c d m = Ret path ->
  path_coords path <> [] ->
  exists (result : RouteResult) (s0 arr : RouteStep)
         (between : list RouteStep),
    direct a b c d m = RouteOk result
    /\ step_by_step_instructions result = s0 :: between ++ [arr]
    /\ type s0 = start /\ type arr = arrival
    /\ distance_from_start_km arr = total_distance_km (route_summary result)
    /\ estimated_time_min arr = estimated_duration_min (route_summary result)
    /\ total_distance_km (route_summary result)
       = Py.round (path_length_m path / 1000) 2
    /\ nodes_in_route (route_summary result) = length (path_coords path)
    /\ coordinates_count (route_summary result)
       = length (route_coordinates result)
    /\ route_coordinates result
       = map (fun coord => (lat coord, lng coord)) (path_coords path)
    /\ air_quality_analysis result
       = analyze_route_air_quality geodesic_km (path_coords path)
           air_quality_snapshot
    /\ Some (bounds (map_data result)) = calculate_osm_bounds (path_coords path)
    /\ Some (center (map_data result)) = find_route_center (path_coords path)
    /\ destination_info result = None.
Proof.
  intros Hpath Hne.
  destruct (steps_of_route (path_coords path) m (path_length_m path / 1000) Hne)
    as (s0 & arr & between & Esteps & T0 & Ta & Da & Ma).
  destruct (OsmRouteFacts.bounds_of_route _ Hne) as [bounds Ebounds].
  destruct (OsmRouteFacts.center_of_route _ Hne) as [center Ecenter].
  unfold get_osm_route_with_air_quality, route_body.
  rewrite Hpath. cbn [mbind exc_bind].
  rewrite Esteps. cbn [of_option mbind exc_bind].
  rewrite Ebounds, Ecenter. cbn [of_option mbind exc_bind].
  eexists. exists s0, arr, between.
  split; [reflexivity|]. cbn.
  rewrite length_map.
  repeat split; try reflexivity; assumption.
Qed.

(** X10: the direct orchestrator succeeds exactly when the graph provider
    returns a non-empty path, whatever the air-quality snapshot holds; a
    provider exception is reported with the prefix "Error en cálculo de
    ruta: ".  On success the steps run from a start step to an arrival step
    whose distance and time equal the summary's total distance and duration,
    the two node counts equal the length of the polyline, and the map box
    and center are those of the path. *)
Theorem direct_route_outcome (a b c d : Q) (m : string) :
  (response_success (direct a b c d m) = true
   <-> exists path : OsmPath,
         osm_path a b c d m = Ret path /\ path_coords path <> [])
  /\ (forall e : string,
        osm_path a b c d m = Raise e ->
        direct a b c d m = RouteError ("Error en cálculo de ruta: " +:+ e))
  /\ (forall result : RouteResult,
        direct a b c d m = RouteOk result ->
        exists (path : OsmPath) (s0 arr : RouteStep)
               (between : list RouteStep),
          osm_path a b c d m = Ret path
          /\ step_by_step_instructions result = s0 :: between ++ [arr]
          /\ type s0 = start /\ type arr = arrival
          /\ distance_from_start_km arr
             = total_distance_km (route_summary result)
          /\ estimated_time_min arr
             = estimated_duration_min (route_summary result)
          /\ nodes_in_route (route_summary result)
             = length (route_coordinates result)
          /\ coordinates_count (route_summary result)
             = length (route_coordinates result)
          /\ route_coordinates result
             = map (fun coord => (lat coord, lng coord)) (path_coords path)
          /\ Some (bounds (map_data result))
             = calculate_osm_bounds (path_coords path)
          /\ Some (center (map_data result))
             = find_route_center (path_coords path)).
Proof.
  destruct (osm_path a b c d m) as [e|path] eqn:Epath.
  - assert (direct a b c d m = RouteError ("Error en cálculo de ruta: " +:+ e))
      as Eerr.
    { unfold get_osm_route_with_air_quality, route_body.
      rewrite Epath. reflexivity. }
    rewrite Eerr. split; [|split].
    + split; [discriminate | intros (path & Hp & _); discriminate Hp].
    + intros e' [= <-]. reflexivity.
    + intros result H. discriminate H.
  - destruct (path_coords path) as [|c0 rest] eqn:Ecoords.
    + assert (response_success (direct a b c d m) = false) as Efail.
      { unfold get_osm_route_with_air_quality, route_body.
        rewrite Epath. cbn [mbind exc_bind]. rewrite Ecoords. reflexivity. }
      split; [|split].
      * rewrite Efail. split; [discriminate|].
        intros (path' & [= <-] & Hne). congruence.
      * intros e H. discriminate H.
      * intros result H. rewrite H in Efail. discriminate Efail.
    + assert (path_coords path <> []) as Hne by (rewrite Ecoords; discriminate).
      destruct (direct_route_result a b c d m path Epath Hne)
        as (result & s0 & arr & between & E & Hsteps & T0 & Ta & Da & Ma
            & _ & Hn & Hc & Hpoly & _ & Hb & Hcen & _).
      rewrite E. split; [|split].
      * split; [|reflexivity]. intros _. exists path.
        split; [reflexivity | rewrite Ecoords; discriminate].
      * intros e H. discriminate H.
      * intros result' [= <-]. exists path, s0, arr, between.
        split; [reflexivity|]. split; [exact Hsteps|].
        split; [exact T0|]. split; [exact Ta|]. split; [exact Da|].
        split; [exact Ma|]. split; [rewrite Hn, Hpoly, length_map; reflexivity|].
        split; [exact Hc|]. split; [exact Hpoly|].
        split; [exact Hb | exact Hcen].
Qed.

Local Notation "'searched'" :=
  (get_complete_route_with_osm_search geodesic_km osm_path
     air_quality_snapshot now_isoformat find_destination_osm) (only parsing).

(** X11: the search orchestrator reports "No se encontró '...' en
    OpenStreetMap" when the place search fails or has no match, and the
    search's own message when the search raises.  Otherwise it routes to the
    first match: an error of the direct orchestrator is passed on unchanged,
    and a success is passed on with the same route, the first match as
    [destination_info], the query, and the next matches, at most 2, as
    alternatives. *)
Theorem search_route_outcome (a b : Q) (query m : string) :
  (forall e : string,
      find_destination_osm query = Raise e ->
      searched a b query m = RouteError e)
  /\ (forall dest_result : DestinationToolsOsm.DestinationSearch,
        find_destination_osm query = Ret dest_result ->
        DestinationToolsOsm.success dest_result = false
        \/ DestinationToolsOsm.matches dest_result = [] ->
        searched a b query m
        = RouteError ("No se encontró '" +:+ query +:+ "' en OpenStreetMap"))
  /\ (forall (dest_result : DestinationToolsOsm.DestinationSearch)
             (first_match : DestinationToolsOsm.Destination)
             (others : list DestinationToolsOsm.Destination),
        find_destination_osm query = Ret dest_result ->
        DestinationToolsOsm.success dest_result = true ->
        DestinationToolsOsm.matches dest_result = first_match :: others ->
        (forall e : string,
            direct a b (DestinationToolsOsm.lat first_match)
              (DestinationToolsOsm.lng first_match) m = RouteError e ->
            searched a b query m = RouteError e)
        /\ (forall route : RouteResult,
              direct a b (DestinationToolsOsm.lat first_match)
                (DestinationToolsOsm.lng first_match) m = RouteOk route ->
              exists alternatives : list DestinationToolsOsm.Destination,
                searched a b query m
                = RouteOk (with_destination_info route first_match
                             (Some query) (Some alternatives) None)
                /\ alternatives = take 2 others
                /\ length alternatives = Nat.min 2 (length others))).
Proof.
  unfold get_complete_route_with_osm_search, search_body.
  split; [|split].
  - intros e ->. reflexivity.
  - intros dest_result -> Hfail. cbn [mbind exc_bind].
    destruct Hfail as [-> | ->]; [reflexivity|].
    rewrite orb_true_r. reflexivity.
  - intros dest_result first_match others -> Hsucc Hmatches.
    cbn [mbind exc_bind]. rewrite Hsucc, Hmatches.
    cbn [negb orb lookup list_lookup of_option mbind exc_bind].
    split.
    + intros e ->. reflexivity.
    + intros route ->. exists (take 2 others).
      split; [reflexivity|]. split; [reflexivity|].
      apply length_take.
Qed.

Local Notation "'nearest_route'" :=
  (get_nearest_route_with_air_quality geodesic_km osm_path
     air_quality_snapshot now_isoformat find_destination_osm str_float)
  (only parsing).

(** X12: the nearest-of-type orchestrator passes a failure of
    [find_nearest_destination] and a failure of the direct orchestrator on
    unchanged.  On success it adds the chosen destination and a comparison
    of the straight-line distance reported by the search with the summary's
    route distance; it sets no query and no alternatives. *)
Theorem nearest_route_outcome (a b : Q) (destination_type m : string) :
  let nearest :=
    DestinationToolsOsm.find_nearest_destination geodesic_km
      find_destination_osm str_float a b destination_type
      destination_radius_km in
  (forall e : string,
      nearest = DestinationToolsOsm.NearestFailure e ->
      nearest_route a b destination_type m = RouteError e)
  /\ (forall (destination : DestinationToolsOsm.Destination)
             (distance_km : Q) (origin : Q * Q) (search_type : string),
        nearest = DestinationToolsOsm.NearestFound destination distance_km
                    origin search_type ->
        (forall e : string,
            direct a b (DestinationToolsOsm.lat destination)
              (DestinationToolsOsm.lng destination) m = RouteError e ->
            nearest_route a b destination_type m = RouteError e)
        /\ (forall route : RouteResult,
              direct a b (DestinationToolsOsm.lat destination)
                (DestinationToolsOsm.lng destination) m = RouteOk route ->
              nearest_route a b destination_type m
              = RouteOk
                  (with_destination_info route destination None None
                     (Some {| ns_type := destination_type;
                              straight_line_distance_km := distance_km;
                              actual_route_distance_km :=
                                total_distance_km (route_summary route) |}))))
  /\ (forall found : RouteResult,
        nearest_route a b destination_type m = RouteOk found ->
        exists (destination : DestinationToolsOsm.Destination)
               (comparison : NearestSearch),
          destination_info found = Some destination
          /\ nearest_search found = Some comparison
          /\ geodesic_km (a, b)
               (DestinationToolsOsm.lat destination,
                DestinationToolsOsm.lng destination)
             <= destination_radius_km
          /\ straight_line_distance_km comparison
             = Py.round (geodesic_km (a, b)
                           (DestinationToolsOsm.lat destination,
                            DestinationToolsOsm.lng destination)) 2
          /\ actual_route_distance_km comparison
             = total_distance_km (route_summary found)).
Proof.
  intros nearest.
  unfold get_nearest_route_with_air_quality, nearest_body. fold nearest.
  split; [|split].
  - intros e ->. reflexivity.
  - intros destination distance_km origin search_type ->. split.
    + intros e ->. reflexivity.
    + intros route ->. reflexivity.
  - intros found.
    destruct nearest as [destination distance_km origin search_type|e] eqn:En;
      [|discriminate].
    destruct (DestinationFacts.nearest_found_inv _ _ _ _ _ _ _ _ _ _ _ En)
      as (_ & _ & _ & _ & Hr & _ & Hd & _).
    destruct (direct a b (DestinationToolsOsm.lat destination)
                (DestinationToolsOsm.lng destination) m) as [route|e];
      [|discriminate].
    intros [= <-]. eexists. eexists.
    split; [reflexivity|]. split; [reflexivity|].
    split; [exact Hr|]. split; [exact Hd | reflexivity].
Qed.
End Orchestration.

Lemma direct_route_outcome_witness :
  response_success
    (get_osm_route_with_air_quality Samples.flat_km Samples.path_north
       MoreSamples.snapshot_near "2026-01-01T08:00:00" 0 0 0 0 "walk") = true.
Proof.
  apply (proj1 (direct_route_outcome Samples.flat_km Samples.path_north
                  MoreSamples.snapshot_near "2026-01-01T08:00:00"
                  0 0 0 0 "walk")).
  exists {| path_coords := Samples.route_north 4; path_length_m := 3400 |}.
  split; [reflexivity | discriminate].
Defined.

Lemma search_route_outcome_witness :
  exists route : RouteResult,
    get_complete_route_with_osm_search Samples.flat_km Samples.path_north
      MoreSamples.snapshot_near "2026-01-01T08:00:00" Samples.search_farmacias
      0 (- (765 # 10)) "farmacia" "walk"
    = RouteOk route
    /\ destination_info route = Some Samples.farmacia_far
    /\ alternative_destinations route = Some [Samples.farmacia_near].
Proof.
  destruct (get_osm_route_with_air_quality Samples.flat_km Samples.path_north
              MoreSamples.snapshot_near "2026-01-01T08:00:00"
              0 (- (765 # 10))
              (DestinationToolsOsm.lat Samples.farmacia_far)
              (DestinationToolsOsm.lng Samples.farmacia_far) "walk")
    as [route|e] eqn:Edirect; [|vm_compute in Edirect; discriminate Edirect].
  destruct (proj2 (proj2 (search_route_outcome Samples.flat_km
                            Samples.path_north MoreSamples.snapshot_near
                            "2026-01-01T08:00:00" Samples.search_farmacias
                            0 (- (765 # 10)) "farmacia" "walk"))
              _ Samples.farmacia_far [Samples.farmacia_near]
              eq_refl eq_refl eq_refl) as [_ Hroute].
  destruct (Hroute route Edirect) as (alternatives & Esearch & -> & _).
  eexists. split; [exact Esearch|]. split; reflexivity.
Defined.

Lemma nearest_route_outcome_witness :
  exists route : RouteResult,
    get_nearest_route_with_air_quality Samples.flat_km Samples.path_north
      MoreSamples.snapshot_near "2026-01-01T08:00:00" Samples.search_farmacias
      Samples.str_float_stub 0 (- (765 # 10)) "farmacia" "walk"
    = RouteOk route
    /\ destination_info route = Some Samples.farmacia_near
    /\ search_query route = None.
Proof.
  destruct (get_osm_route_with_air_quality Samples.flat_km Samples.path_north
              MoreSamples.snapshot_near "2026-01-01T08:00:00"
              0 (- (765 # 10))
              (DestinationToolsOsm.lat Samples.farmacia_near)
              (DestinationToolsOsm.lng Samples.farmacia_near) "walk")
    as [route|e] eqn:Edirect; [|vm_compute in Edirect; discriminate Edirect].
  assert (DestinationToolsOsm.find_nearest_destination Samples.flat_km
            Samples.search_farmacias Samples.str_float_stub
            0 (- (765 # 10)) "farmacia" destination_radius_km
          = DestinationToolsOsm.NearestFound Samples.farmacia_near
              (Py.round (Samples.flat_km (0, - (765 # 10))
                           (DestinationToolsOsm.lat Samples.farmacia_near,
                            DestinationToolsOsm.lng Samples.farmacia_near)) 2)
              (0, - (765 # 10)) "farmacia") as Enearest
      by (vm_compute; reflexivity).
  destruct (proj1 (proj2 (nearest_route_outcome Samples.flat_km
                            Samples.path_north MoreSamples.snapshot_near
                            "2026-01-01T08:00:00" Samples.search_farmacias
                            Samples.str_float_stub
                            0 (- (765 # 10)) "farmacia" "walk"))
              _ _ _ _ Enearest) as [_ Hroute].
  eexists. split; [exact (Hroute route Edirect)|]. split; reflexivity.
Defined.

End OrchestratorFacts.

(** ** The sensor feed *)

Module FeedFacts.
Import Exc Py AirQualityTools AirQualityFeed PyFacts.

Lemma score_bounds (metrics : gmap string pyval) :
  0 <= calculate_air_quality_score metrics
  /\ calculate_air_quality_score metrics <= 100.
Proof.
  unfold calculate_air_quality_score.
  destruct (score_body metrics) as [s|] eqn:E; [|split; discriminate].
  destruct (AirQualityFacts.score_body_shape _ _ E) as (_ & Hlo & Hhi).
  split; assumption.
Qed.

Section Feed.
Variable requests_get : pyval -> string -> exc HttpResponse.
Variable today : string.
Variable get_cali_nodes : NodesResult.

Local Notation "'metrics_of'" :=
  (get_air_quality_metrics requests_get today) (only parsing).

(** The outcome of [get_air_quality_metrics] once the date is fixed. *)
Lemma metrics_for_date (deviceId : pyval) (start_date : option string)
      (date : string) :
  match start_date with
  | Some d => if String.eqb d "" then today else d
  | None => today
  end = date ->
  (forall e : string,
      requests_get deviceId date = Raise e ->
      metrics_of deviceId start_date = MetricsError e deviceId)
  /\ (forall response : HttpResponse,
        requests_get deviceId date = Ret response ->
        status_code response <> 200%Z ->
        metrics_of deviceId start_date
        = MetricsError ("API Error: " +:+ str_int (status_code response))
                       deviceId)
  /\ (forall (response : HttpResponse) (e : string),
        requests_get deviceId date = Ret response ->
        status_code response = 200%Z ->
        json response = Raise e ->
        metrics_of deviceId start_date = MetricsError e deviceId)
  /\ (forall (response : HttpResponse)
             (readings : list (gmap string pyval)),
        requests_get deviceId date = Ret response ->
        status_code response = 200%Z ->
        json response = Ret readings ->
        exists latest_data : option LatestData,
          metrics_of deviceId start_date
          = MetricsOk latest_data deviceId date (length readings)
          /\ (latest_data = None <-> readings = [])
          /\ forall data : LatestData,
               latest_data = Some data ->
               exists latest : gmap string pyval,
                 last readings = Some latest
                 /\ air_quality_score data = calculate_air_quality_score latest
                 /\ 0 <= air_quality_score data
                 /\ air_quality_score data <= 100
                 /\ massPM2_5Avg data = dict_get latest "massPM2_5Avg" PNone
                 /\ massPM10_0Avg data = dict_get latest "massPM10_0Avg" PNone
                 /\ latest_deviceId data = deviceId).
Proof.
  intros Hdate. unfold get_air_quality_metrics. rewrite Hdate.
  split; [intros e ->; reflexivity|].
  split.
  { intros response -> Hstatus.
    apply Z.eqb_neq in Hstatus. rewrite Hstatus. reflexivity. }
  split.
  { intros response e -> Hstatus ->.
    apply Z.eqb_eq in Hstatus. rewrite Hstatus. reflexivity. }
  intros response readings -> Hstatus ->.
  apply Z.eqb_eq in Hstatus. rewrite Hstatus.
  eexists. split; [reflexivity|]. split.
  - destruct readings as [|r rs]; [split; reflexivity|].
    destruct (last (r :: rs)) as [l|] eqn:El;
      [split; discriminate | apply last_None in El; discriminate El].
  - intros data. destruct (last readings) as [latest|]; [|discriminate].
    intros [= <-]. exists latest. cbn.
    destruct (score_bounds latest) as [Hlo Hhi].
    repeat split; assumption.
Qed.

(** X13: [get_air_quality_metrics] never raises.  A raised request or a
    body that is not JSON gives a failure with that message; a status other
    than 200 gives "API Error: <status>"; each failure names the device.  A
    200 response with [n] readings gives success with [total_readings = n]
    for the requested date, today when none or an empty one is given; the
    metrics are empty exactly when there is no reading, and otherwise carry
    the pollutant averages of the last reading and its score, in [0, 100]. *)
Theorem metrics_outcome (deviceId : pyval) (start_date : option string) :
  exists date : string,
    (start_date = None \/ start_date = Some "" -> date = today)
    /\ (forall d, start_date = Some d -> d <> "" -> date = d)
    /\ (forall e : string,
          requests_get deviceId date = Raise e ->
          metrics_of deviceId start_date = MetricsError e deviceId)
    /\ (forall response : HttpResponse,
          requests_get deviceId date = Ret response ->
          status_code response <> 200%Z ->
          metrics_of deviceId start_date
          = MetricsError ("API Error: " +:+ str_int (status_code response))
                         deviceId)
    /\ (forall (response : HttpResponse) (e : string),
          requests_get deviceId date = Ret response ->
          status_code response = 200%Z ->
          json response = Raise e ->
          metrics_of deviceId start_date = MetricsError e deviceId)
    /\ (forall (response : HttpResponse)
               (readings : list (gmap string pyval)),
          requests_get deviceId date = Ret response ->
          status_code response = 200%Z ->
          json response = Ret readings ->
          exists latest_data : option LatestData,
            metrics_of deviceId start_date
            = MetricsOk latest_data deviceId date (length readings)
            /\ (latest_data = None <-> readings = [])
            /\ forall data : LatestData,
                 latest_data = Some data ->
                 exists latest : gmap string pyval,
                   last readings = Some latest
                   /\ air_quality_score data
                      = calculate_air_quality_score latest
                   /\ 0 <= air_quality_score data
                   /\ air_quality_score data <= 100
                   /\ massPM2_5Avg data = dict_get latest "massPM2_5Avg" PNone
                   /\ massPM10_0Avg data
                      = dict_get latest "massPM10_0Avg" PNone
                   /\ latest_deviceId data = deviceId).
Proof.
  eexists. split; [|split; [|apply metrics_for_date; reflexivity]].
  - intros [-> | ->]; reflexivity.
  - intros d -> Hd. apply String.eqb_neq in Hd. rewrite Hd. reflexivity.
Qed.

(** A device that is listed came back with metrics that are not empty. *)
Lemma metrics_present (deviceId : pyval) (data : LatestData) (d : pyval)
      (date : string) (total : nat) :
  metrics_of deviceId None = MetricsOk (Some data) d date total ->
  0 <= air_quality_score data /\ air_quality_score data <= 100
  /\ (1 <= total)%nat /\ latest_deviceId data = deviceId.
Proof.
  unfold get_air_quality_metrics.
  destruct (requests_get deviceId today) as [e|response]; [discriminate|].
  destruct (status_code response =? 200)%Z; [|discriminate].
  destruct (json response) as [e|readings]; [discriminate|].
  destruct readings as [|r rs]; [discriminate|].
  destruct (last (r :: rs)) as [latest|]; [|discriminate].
  intros [= <- _ _ <-]. cbn.
  destruct (score_bounds latest) as [Hlo Hhi].
  repeat split; try assumption. lia.
Qed.

(** A result of [get_air_quality_metrics] names the device it was asked for. *)
Lemma metrics_names_device (deviceId : pyval) (data : option LatestData)
      (d : pyval) (date : string) (total : nat) :
  metrics_of deviceId None = MetricsOk data d date total -> d = deviceId.
Proof.
  unfold get_air_quality_metrics.
  destruct (requests_get deviceId today) as [e|response]; [discriminate|].
  destruct (status_code response =? 200)%Z; [|discriminate].
  destruct (json response) as [e|readings]; [discriminate|].
  intros [= _ <- _ _]. reflexivity.
Qed.

(** What the loop appends: entries for nodes of the list, in the list's
    order, each with a device and the metrics fetched for it. *)
Lemma collect_air_quality_appends (nodes : list CaliNode)
      (collected : list NodeWithAirQuality) :
  exists entries : list NodeWithAirQuality,
    collect_air_quality requests_get today nodes collected
    = collected ++ entries
    /\ sublist (map node entries) nodes
    /\ Forall (fun entry =>
                 truthy (deviceId (node entry)) = true
                 /\ exists (d : pyval) (date : string) (total : nat),
                      metrics_of (deviceId (node entry)) None
                      = MetricsOk (Some (air_quality entry)) d date total)
              entries
    /\ (forall n, In n nodes -> ~ In n (map node entries) ->
        truthy (deviceId n) = false
        \/ forall data d date total,
             metrics_of (deviceId n) None
             <> MetricsOk (Some data) d date total).
Proof.
  revert collected.
  induction nodes as [|n nodes IH]; intros collected; simpl.
  - exists []. rewrite app_nil_r. split; [reflexivity|].
    split; [constructor|]. split; [constructor|]. intros n [].
  - destruct (truthy (deviceId n)) eqn:Et.
    + destruct (metrics_of (deviceId n) None)
        as [[data|] d date total|e d] eqn:Em.
      * destruct (IH (collected ++ [ {| node := n; air_quality := data |} ]))
          as (entries & E & Hsub & Hall & Hskipped).
        exists ({| node := n; air_quality := data |} :: entries).
        rewrite E, <- app_assoc. split; [reflexivity|].
        split; [simpl; apply sublist_skip, Hsub|].
        split; [constructor; [split; [exact Et | eauto] | exact Hall]|].
        intros n' [<- | Hin] Hnot; [exfalso; apply Hnot; left; reflexivity|].
        apply Hskipped; [exact Hin|]. intros H. apply Hnot. right. exact H.
      * destruct (IH collected) as (entries & E & Hsub & Hall & Hskipped).
        exists entries. split; [exact E|].
        split; [apply sublist_cons, Hsub|]. split; [exact Hall|].
        intros n' [<- | Hin] Hnot; [|apply Hskipped; assumption].
        right. intros data d' date' total'. rewrite Em. discriminate.
      * destruct (IH collected) as (entries & E & Hsub & Hall & Hskipped).
        exists entries. split; [exact E|].
        split; [apply sublist_cons, Hsub|]. split; [exact Hall|].
        intros n' [<- | Hin] Hnot; [|apply Hskipped; assumption].
        right. intros data d' date' total'. rewrite Em. discriminate.
    + destruct (IH collected) as (entries & E & Hsub & Hall & Hskipped).
      exists entries. split; [exact E|].
      split; [apply sublist_cons, Hsub|]. split; [exact Hall|].
      intros n' [<- | Hin] Hnot; [left; exact Et | apply Hskipped; assumption].
Qed.

(** X14: [get_air_quality_for_all_nodes] passes a failure of the node list
    on.  Otherwise it succeeds with [total_nodes] the number of nodes and
    [nodes_with_data] the number of entries; the entries are nodes of the
    list in the list's order, each with a device id and, as [air_quality],
    exactly the non-empty metrics that [get_air_quality_metrics] returns for
    that device today, whose score lies in [0, 100]; a node is left out only
    if it has no device id or its metrics failed or were empty. *)
Theorem all_nodes_outcome :
  let r := get_air_quality_for_all_nodes requests_get today get_cali_nodes in
  (forall e : string, get_cali_nodes = NodesError e -> r = AllNodesError e)
  /\ (forall (nodes : list CaliNode) (total : nat),
        get_cali_nodes = NodesOk nodes total ->
        exists entries : list NodeWithAirQuality,
          r = AllNodesOk entries (length nodes) (length entries)
          /\ (length entries <= length nodes)%nat
          /\ sublist (map node entries) nodes
          /\ Forall (fun entry =>
                       truthy (deviceId (node entry)) = true
                       /\ 0 <= air_quality_score (air_quality entry)
                       /\ air_quality_score (air_quality entry) <= 100
                       /\ latest_deviceId (air_quality entry)
                          = deviceId (node entry)
                       /\ exists (date : string) (total_readings : nat),
                            (1 <= total_readings)%nat
                            /\ metrics_of (deviceId (node entry)) None
                               = MetricsOk (Some (air_quality entry))
                                   (deviceId (node entry)) date
                                   total_readings)
                    entries
          /\ (forall n, In n nodes -> ~ In n (map node entries) ->
              truthy (deviceId n) = false
              \/ forall data d date total,
                   metrics_of (deviceId n) None
                   <> MetricsOk (Some data) d date total)).
Proof.
  intros r. unfold r, get_air_quality_for_all_nodes. split.
  - intros e ->. reflexivity.
  - intros nodes total ->.
    destruct (collect_air_quality_appends nodes [])
      as (entries & E & Hsub & Hall & Hskipped).
    rewrite E. cbn [app]. exists entries.
    split; [reflexivity|]. split.
    { rewrite <- (length_map node entries). apply sublist_length, Hsub. }
    split; [exact Hsub|]. split; [|exact Hskipped].
    eapply Forall_impl; [exact Hall|].
    intros entry (Ht & d & date & count & Hm).
    destruct (metrics_present _ _ _ _ _ Hm) as (Hlo & Hhi & Hcount & Hd).
    split; [exact Ht|]. split; [exact Hlo|]. split; [exact Hhi|].
    split; [exact Hd|]. exists date, count. split; [exact Hcount|].
    rewrite Hm. f_equal. exact (metrics_names_device _ _ _ _ _ Hm).
Qed.

(** The snapshot the route tools read off the feed has scores in range. *)
Lemma snapshot_scores :
  Forall (fun sensor =>
            0 <= OsmRouteTools.Sensor.air_quality_score sensor
            /\ OsmRouteTools.Sensor.air_quality_score sensor <= 100)
         (OsmRouteTools.nodes_with_air_quality
            (as_snapshot
               (get_air_quality_for_all_nodes requests_get today
                  get_cali_nodes))).
Proof.
  unfold get_air_quality_for_all_nodes.
  destruct get_cali_nodes as [nodes total|e]; [|constructor].
  destruct (collect_air_quality_appends nodes [])
    as (entries & E & _ & Hall & _).
  rewrite E. cbn. apply Forall_map.
  eapply Forall_impl; [exact Hall|].
  intros entry (_ & d & date & count & Hm). cbn.
  destruct (metrics_present _ _ _ _ _ Hm) as (Hlo & Hhi & _).
  split; assumption.
Qed.

(** X15: whatever the sensor API answers, the snapshot built from it keeps
    every score the route tools report within [0, 100]: the evaluation of
    any point, every step of the synthesizer and the route's average.  The
    snapshot succeeds exactly when the node list was obtained. *)
Theorem feed_scores_in_range (geodesic_km : Q * Q -> Q * Q -> Q)
        (route_coords : list OsmRouteTools.Coord) (mode : string)
        (total_distance_km : Q) :
  let snapshot :=
    as_snapshot
      (get_air_quality_for_all_nodes requests_get today get_cali_nodes) in
  (OsmRouteTools.success snapshot = true
   <-> exists nodes total, get_cali_nodes = NodesOk nodes total)
  /\ (forall point : OsmRouteTools.Coord,
        0 <= OsmRouteTools.score
               (OsmRouteTools.evaluate_point_air_quality geodesic_km point
                  snapshot)
        /\ OsmRouteTools.score
             (OsmRouteTools.evaluate_point_air_quality geodesic_km point
                snapshot) <= 100)
  /\ (forall steps : list OsmRouteTools.RouteStep,
        OsmRouteTools.generate_detailed_route_steps geodesic_km route_coords
          snapshot mode total_distance_km = Some steps ->
        Forall (fun s =>
                  0 <= OsmRouteTools.score (OsmRouteTools.air_quality s)
                  /\ OsmRouteTools.score (OsmRouteTools.air_quality s) <= 100)
               steps)
  /\ 0 <= OsmRouteTools.average_air_quality_score
            (OsmRouteTools.analyze_route_air_quality geodesic_km route_coords
               snapshot)
  /\ OsmRouteTools.average_air_quality_score
       (OsmRouteTools.analyze_route_air_quality geodesic_km route_coords
          snapshot) <= 100.
Proof.
  intros snapshot. pose proof snapshot_scores as Hscores. fold snapshot in Hscores.
  split.
  - unfold snapshot, get_air_quality_for_all_nodes.
    destruct get_cali_nodes as [nodes total|e]; cbn.
    + split; [eauto | reflexivity].
    + split; [discriminate | intros (nodes & total & H); discriminate H].
  - split; [intros point; apply AnalysisFacts.point_score_in_range, Hscores|].
    split; [|apply AnalysisFacts.average_in_range, Hscores].
    intros steps Esteps.
    eapply Forall_impl;
      [exact (AnalysisFacts.steps_evaluated _ _ _ _ _ _ Esteps)|].
    intros s [point ->]. apply AnalysisFacts.point_score_in_range, Hscores.
Qed.
End Feed.

Lemma metrics_outcome_witness :
  exists data : LatestData,
    get_air_quality_metrics MoreSamples.requests_get_stub "2026-01-01"
      (PStr "A") None
    = MetricsOk (Some data) (PStr "A") "2026-01-01" 2
    /\ 0 <= air_quality_score data <= 100.
Proof.
  destruct (metrics_outcome MoreSamples.requests_get_stub "2026-01-01"
              (PStr "A") None)
    as (date & Htoday & _ & _ & _ & _ & Hok).
  rewrite (Htoday (or_introl eq_refl)) in Hok.
  destruct (Hok _ _ eq_refl eq_refl eq_refl)
    as (latest_data & Emetrics & Hempty & Hdata).
  destruct latest_data as [data|];
    [|discriminate (proj1 Hempty eq_refl)].
  destruct (Hdata data eq_refl) as (latest & _ & _ & Hlo & Hhi & _).
  exists data. split; [exact Emetrics|]. split; [exact Hlo | exact Hhi].
Defined.

Lemma all_nodes_outcome_witness :
  exists entries : list NodeWithAirQuality,
    get_air_quality_for_all_nodes MoreSamples.requests_get_stub "2026-01-01"
      MoreSamples.four_nodes
    = AllNodesOk entries 4 (length entries)
    /\ (length entries <= 4)%nat
    /\ Forall (fun entry =>
                 exists (date : string) (total_readings : nat),
                   get_air_quality_metrics MoreSamples.requests_get_stub
                     "2026-01-01" (deviceId (node entry)) None
                   = MetricsOk (Some (air_quality entry))
                       (deviceId (node entry)) date total_readings)
              entries.
Proof.
  destruct (proj2 (all_nodes_outcome MoreSamples.requests_get_stub
                     "2026-01-01" MoreSamples.four_nodes) _ _ eq_refl)
    as (entries & Eall & Hlen & _ & Hentries & _).
  exists entries. split; [exact Eall|]. split; [exact Hlen|].
  eapply Forall_impl; [exact Hentries|].
  intros entry (_ & _ & _ & _ & date & count & _ & Hm).
  exists date, count. exact Hm.
Defined.

Lemma feed_scores_in_range_witness :
  OsmRouteTools.success
    (as_snapshot
       (get_air_quality_for_all_nodes MoreSamples.requests_get_stub
          "2026-01-01" MoreSamples.four_nodes)) = true.
Proof.
  apply (proj1 (feed_scores_in_range MoreSamples.requests_get_stub
                  "2026-01-01" MoreSamples.four_nodes Samples.flat_km
                  (Samples.route_north 4) "walk" 1)).
  eexists. eexists. reflexivity.
Defined.

End FeedFacts.

(** ** The place search *)

Module SearchFacts.
Import Exc DestinationToolsOsm DestinationSearchOsm DestinationBackup.

Lemma slice_to_length {A : Type} (l : list A) (limit : Z) :
  (length (slice_to l limit) <= length l)%nat
  /\ ((0 <= limit)%Z -> (length (slice_to l limit) <= Z.to_nat limit)%nat)
  /\ ((1 <= limit)%Z -> l <> [] -> slice_to l limit <> [])
  /\ (limit = 0%Z -> slice_to l limit = []).
Proof.
  unfold slice_to. destruct (0 <=? limit)%Z eqn:E.
  - apply Z.leb_le in E. rewrite length_take.
    split; [lia|]. split; [lia|]. split.
    + intros H1 Hne. destruct l as [|x l]; [contradiction|].
      destruct (Z.to_nat limit) as [|n] eqn:En; [lia | discriminate].
    + intros ->. reflexivity.
  - apply Z.leb_gt in E. rewrite length_take.
    split; [lia|]. split; [lia|]. split; lia.
Qed.

Lemma slice_to_sublist {A : Type} (l : list A) (limit : Z) :
  sublist (slice_to l limit) l.
Proof. unfold slice_to. destruct (0 <=? limit)%Z; apply sublist_take. Qed.

Section Providers.
Variable find_destination_by_tags : string -> string -> Z -> exc (list Destination).
Variable find_destination_backup : string -> list Destination.

Local Notation "'osm_search'" :=
  (find_destination_osm find_destination_by_tags find_destination_backup)
  (only parsing).

(** The four ways [find_destination_osm] ends. *)
Lemma search_cases (destination_name location : string) (limit : Z) :
  let tags := find_destination_by_tags destination_name location limit in
  let backup := find_destination_backup destination_name in
  (exists ms, tags = Ret ms /\ ms <> []
              /\ osm_search destination_name location limit
                 = found ms limit destination_name "osm_tags")
  \/ (tags = Ret [] /\ backup <> []
      /\ osm_search destination_name location limit
         = found backup limit destination_name "backup_database")
  \/ (exists e, tags = Raise e /\ backup <> []
                /\ osm_search destination_name location limit
                   = found backup limit destination_name "backup_fallback")
  \/ (backup = []
      /\ ((tags = Ret []
           /\ osm_search destination_name location limit
              = {| result :=
                     {| success := false; matches := [];
                        error := Some ("No se encontraron resultados para '"
                                       +:+ destination_name +:+ "'") |};
                   search_term := Some destination_name;
                   total_matches := None; source := None |})
          \/ exists e,
               tags = Raise e
               /\ osm_search destination_name location limit
                  = {| result := {| success := false; matches := [];
                                    error := Some e |};
                       search_term := None;
                       total_matches := None; source := None |})).
Proof.
  intros tags backup. subst tags backup. unfold find_destination_osm.
  destruct (find_destination_by_tags destination_name location limit)
    as [e|[|m ms]].
  - destruct (find_destination_backup destination_name) as [|b bs].
    + right. right. right. split; [reflexivity|]. right. eauto.
    + right. right. left. exists e.
      split; [reflexivity|]. split; [discriminate | reflexivity].
  - destruct (find_destination_backup destination_name) as [|b bs].
    + right. right. right. split; [reflexivity|]. left. eauto.
    + right. left. split; [reflexivity|]. split; [discriminate | reflexivity].
  - left. exists (m :: ms).
    split; [reflexivity|]. split; [discriminate | reflexivity].
Qed.

(** X16: [find_destination_osm] succeeds exactly when the tag search or,
    failing that, the gazetteer has a match.  Matches of the tag search are
    preferred; the gazetteer is used when the tag search is empty or raises,
    and [source] tells which.  A success returns a prefix of the provider's
    matches, at most [limit] of them and, for a limit of at least 1, at
    least one, with [total_matches] counting them all; a limit of 0 gives a
    success with no match.  A failure carries an error message and no match. *)
Theorem destination_search_outcome (destination_name location : string)
        (limit : Z) :
  let tags := find_destination_by_tags destination_name location limit in
  let backup := find_destination_backup destination_name in
  let r := osm_search destination_name location limit in
  (success (result r) = true
   <-> (exists ms, tags = Ret ms /\ ms <> []) \/ backup <> [])
  /\ (forall ms, tags = Ret ms -> ms <> [] ->
      matches (result r) = slice_to ms limit
      /\ source r = Some "osm_tags" /\ total_matches r = Some (length ms))
  /\ (tags = Ret [] -> backup <> [] ->
      matches (result r) = slice_to backup limit
      /\ source r = Some "backup_database"
      /\ total_matches r = Some (length backup))
  /\ (forall e, tags = Raise e -> backup <> [] ->
      matches (result r) = slice_to backup limit
      /\ source r = Some "backup_fallback"
      /\ total_matches r = Some (length backup))
  /\ (success (result r) = false ->
      matches (result r) = []
      /\ ((tags = Ret []
           /\ error (result r)
              = Some ("No se encontraron resultados para '"
                      +:+ destination_name +:+ "'"))
          \/ exists e, tags = Raise e /\ error (result r) = Some e))
  /\ ((0 <= limit)%Z ->
      (length (matches (result r)) <= Z.to_nat limit)%nat)
  /\ ((1 <= limit)%Z -> success (result r) = true -> matches (result r) <> [])
  /\ (limit = 0%Z -> matches (result r) = [])
  /\ (forall total, total_matches r = Some total ->
      (length (matches (result r)) <= total)%nat).
Proof.
  intros tags backup r. subst tags backup r.
  destruct (search_cases destination_name location limit)
    as [(ms & Et & Hne & E) | [(Et & Hne & E) | [(e & Et & Hne & E)
        | (Eb & [(Et & E) | (e & Et & E)])]]];
    cbv zeta in Et, E; rewrite E, Et; unfold found;
    cbn [result success matches error source total_matches search_term].
  - split; [split; [intros _; left; eauto | reflexivity]|].
    split; [intros ms' [= <-] _; repeat split|].
    split; [intros [= ->]; contradiction|].
    split; [intros e H; discriminate H|].
    split; [discriminate|].
    split; [apply slice_to_length|].
    split; [intros H1 _; apply slice_to_length; assumption|].
    split; [apply slice_to_length|].
    intros total [= <-]. apply slice_to_length.
  - split; [split; [intros _; right; exact Hne | reflexivity]|].
    split; [intros ms' [= <-] H; contradiction|].
    split; [intros _ _; repeat split|].
    split; [intros e H; discriminate H|].
    split; [discriminate|].
    split; [apply slice_to_length|].
    split; [intros H1 _; apply slice_to_length; assumption|].
    split; [apply slice_to_length|].
    intros total [= <-]. apply slice_to_length.
  - split; [split; [intros _; right; exact Hne | reflexivity]|].
    split; [intros ms' H; discriminate H|].
    split; [intros H; discriminate H|].
    split; [intros e' _ _; repeat split|].
    split; [discriminate|].
    split; [apply slice_to_length|].
    split; [intros H1 _; apply slice_to_length; assumption|].
    split; [apply slice_to_length|].
    intros total [= <-]. apply slice_to_length.
  - split.
    { split; [discriminate|].
      intros [(ms' & [= <-] & Hms) | Hb]; contradiction. }
    split; [intros ms' [= <-] H; contradiction|].
    split; [intros _ H; contradiction|].
    split; [intros e H; discriminate H|].
    split; [intros _; split; [reflexivity | left; split; reflexivity]|].
    split; [intros _; cbn; lia|].
    split; [intros _ H; discriminate H|].
    split; [reflexivity|].
    intros total H. discriminate H.
  - split.
    { split; [discriminate|].
      intros [(ms' & H & _) | Hb]; [discriminate H | contradiction]. }
    split; [intros ms' H; discriminate H|].
    split; [intros H; discriminate H|].
    split; [intros e' _ H; contradiction|].
    split; [intros _; split; [reflexivity | right; exists e; split; reflexivity]|].
    split; [intros _; cbn; lia|].
    split; [intros _ H; discriminate H|].
    split; [reflexivity|].
    intros total H. discriminate H.
Qed.
(** X17: with [find_destination_osm] as the search, the search
    orchestrator routes to the first match of the tag search when there is
    one, else to the first place of the gazetteer, offering the next two of
    the same provider as alternatives.  When neither has a match it answers
    "No se encontró '<query>' en OpenStreetMap", also when the tag search
    raised: the provider's own message is not passed on. *)
Theorem search_route_with_providers
        (geodesic_km : Q * Q -> Q * Q -> Q)
        (osm_path : Q -> Q -> Q -> Q -> string -> exc OsmRouteTools.OsmPath)
        (air_quality_snapshot : OsmRouteTools.AirQualityData)
        (now_isoformat : string) (a b : Q) (query m : string) :
  let tags := find_destination_by_tags query "Cali, Colombia" 5 in
  let backup := find_destination_backup query in
  let routed_to := fun (first_match : Destination) (others : list Destination) =>
    match OsmRouteTools.get_osm_route_with_air_quality geodesic_km osm_path
            air_quality_snapshot now_isoformat a b (lat first_match)
            (lng first_match) m with
    | OsmRouteTools.RouteError e => OsmRouteTools.RouteError e
    | OsmRouteTools.RouteOk route =>
        OsmRouteTools.RouteOk
          (OsmRouteTools.with_destination_info route first_match (Some query)
             (Some (take 2 others)) None)
    end in
  let r :=
    OsmRouteTools.get_complete_route_with_osm_search geodesic_km osm_path
      air_quality_snapshot now_isoformat
      (search find_destination_by_tags find_destination_backup) a b query m in
  (forall first_match others,
      tags = Ret (first_match :: others) -> r = routed_to first_match others)
  /\ (forall first_match others,
        tags = Ret [] \/ (exists e, tags = Raise e) ->
        backup = first_match :: others -> r = routed_to first_match others)
  /\ (tags = Ret [] \/ (exists e, tags = Raise e) ->
      backup = [] ->
      r = OsmRouteTools.RouteError
            ("No se encontró '" +:+ query +:+ "' en OpenStreetMap")).
Proof.
  intros tags backup routed_to r. subst tags backup routed_to r.
  assert (forall (x : Destination) (others : list Destination),
            slice_to (x :: others) 5 = x :: take 4 others) as Hslice
      by reflexivity.
  assert (forall others : list Destination,
            take 2 (take 4 others) = take 2 others) as Halternatives
      by (intros others; rewrite take_take; reflexivity).
  unfold OsmRouteTools.get_complete_route_with_osm_search,
    OsmRouteTools.search_body, search, find_destination_osm.
  split; [|split].
  - intros first_match others ->.
    cbn [mbind exc_bind result found success matches negb orb].
    rewrite Hslice.
    cbn [lookup list_lookup of_option mbind exc_bind lat lng negb orb drop].
    destruct (OsmRouteTools.get_osm_route_with_air_quality _ _ _ _ _ _ _ _ _)
      as [route|e]; [|reflexivity].
    rewrite drop_0, Halternatives. reflexivity.
  - intros first_match others Htags ->.
    assert (match find_destination_by_tags query "Cali, Colombia" 5 with
            | Ret [] | Raise _ => True
            | Ret (_ :: _) => False
            end) as Hshape.
    { destruct Htags as [-> | [e ->]]; exact I. }
    destruct (find_destination_by_tags query "Cali, Colombia" 5)
      as [e|[|t ts]]; [| |contradiction];
      cbn [mbind exc_bind result found success matches negb orb];
      rewrite Hslice;
      cbn [lookup list_lookup of_option mbind exc_bind lat lng negb orb drop];
      (destruct (OsmRouteTools.get_osm_route_with_air_quality
                   _ _ _ _ _ _ _ _ _) as [route|e'];
       [rewrite drop_0, Halternatives; reflexivity | reflexivity]).
  - intros Htags ->.
    destruct Htags as [-> | [e ->]]; reflexivity.
Qed.
End Providers.

Lemma destination_search_outcome_witness :
  matches (result (find_destination_osm MoreSamples.tags_down
                     MoreSamples.backup_farmacias "farmacia"
                     "Cali, Colombia" 1))
  = [Samples.farmacia_far]
  /\ source (find_destination_osm MoreSamples.tags_down
               MoreSamples.backup_farmacias "farmacia" "Cali, Colombia" 1)
     = Some "backup_fallback"
  /\ total_matches (find_destination_osm MoreSamples.tags_down
                      MoreSamples.backup_farmacias "farmacia"
                      "Cali, Colombia" 1)
     = Some 2%nat.
Proof.
  assert (MoreSamples.backup_farmacias "farmacia" <> []) as Hbackup
      by discriminate.
  exact (proj1 (proj2 (proj2 (proj2
           (destination_search_outcome MoreSamples.tags_down
              MoreSamples.backup_farmacias "farmacia" "Cali, Colombia" 1))))
           "timeout" eq_refl Hbackup).
Defined.

Lemma search_route_with_providers_witness :
  OsmRouteTools.get_complete_route_with_osm_search Samples.flat_km
    Samples.path_north MoreSamples.snapshot_near "2026-01-01T08:00:00"
    (search MoreSamples.tags_down MoreSamples.backup_nothing)
    0 (- (765 # 10)) "farmacia" "walk"
  = OsmRouteTools.RouteError "No se encontró 'farmacia' en OpenStreetMap".
Proof.
  apply (search_route_with_providers MoreSamples.tags_down
           MoreSamples.backup_nothing Samples.flat_km Samples.path_north
           MoreSamples.snapshot_near "2026-01-01T08:00:00"
           0 (- (765 # 10)) "farmacia" "walk").
  - right. exists "timeout". reflexivity.
  - reflexivity.
Defined.

(** *** The gazetteer *)

Lemma contains_empty (s : string) : contains "" s = true.
Proof. destruct s; reflexivity. Qed.

Lemma filter_all {A : Type} (P : A -> Prop) `{!forall x, Decision (P x)}
      (l : list A) :
  Forall P l -> filter P l = l.
Proof.
  induction 1 as [|x l Hx _ IH]; [reflexivity|].
  rewrite filter_cons_True by exact Hx. f_equal. exact IH.
Qed.

Lemma categories_have_places :
  Forall (fun entry : string * list Destination => snd entry <> [])
         destinations_db.
Proof. repeat constructor; discriminate. Qed.

Section Builtins.
Variable lower : string -> string.
Variable split : string -> list string.

Lemma by_category_members (q : string) (d : Destination) :
  In d (by_category q) -> In d all_places.
Proof.
  unfold by_category, all_places. rewrite !in_concat.
  intros (places & Hplaces & Hd). exists places. split; [|exact Hd].
  apply in_map_iff in Hplaces as (entry & <- & Hentry).
  apply in_map. apply list_elem_of_In in Hentry.
  apply list_elem_of_filter in Hentry as [_ Hentry].
  apply list_elem_of_In, Hentry.
Qed.

Lemma by_category_hit (q category : string) (places : list Destination) :
  In (category, places) destinations_db ->
  contains category q = true ->
  incl places (by_category q) /\ by_category q <> [].
Proof.
  intros Hin Hhit.
  assert (In (category, places)
             (filter (fun entry => contains (fst entry) q = true)
                     destinations_db)) as Hkept.
  { apply list_elem_of_In, list_elem_of_filter.
    split; [exact Hhit | apply list_elem_of_In, Hin]. }
  assert (incl places (by_category q)) as Hincl.
  { intros d Hd. unfold by_category. apply in_concat.
    exists places. split; [|exact Hd].
    apply (in_map snd _ _ Hkept). }
  split; [exact Hincl|].
  pose proof (proj1 (List.Forall_forall _ _) categories_have_places
                _ Hin) as Hne.
  cbn in Hne. destruct places as [|p ps]; [contradiction|].
  intros E. specialize (Hincl p (or_introl eq_refl)). rewrite E in Hincl.
  destruct Hincl.
Qed.

(** X18: [find_destination_backup] only returns places of the gazetteer.
    When a category name occurs in the lowered query, the result is exactly
    the places of the categories that occur, all of them, and the search by
    name is not run.  A query that lowers to the empty string returns the
    whole gazetteer, 19 places: the empty string occurs in every name. *)
Theorem backup_search (destination_name : string) :
  let r := find_destination_backup lower split destination_name in
  Forall (fun d => In d all_places) r
  /\ (forall (category : string) (places : list Destination),
        In (category, places) destinations_db ->
        contains category (lower destination_name) = true ->
        r = by_category (lower destination_name)
        /\ incl places r /\ r <> [])
  /\ (lower destination_name = "" ->
      r = all_places /\ length r = 19%nat).
Proof.
  intros r. subst r. unfold find_destination_backup.
  split; [|split].
  - destruct (by_category (lower destination_name)) as [|c cs] eqn:Ec.
    + destruct (by_name lower (lower destination_name)) as [|n ns] eqn:En.
      * unfold by_words. apply List.Forall_forall. intros d Hd.
        apply list_elem_of_In in Hd.
        apply list_elem_of_filter in Hd as [_ Hd].
        apply list_elem_of_In, Hd.
      * rewrite <- En. unfold by_name. apply List.Forall_forall. intros d Hd.
        apply list_elem_of_In in Hd.
        apply list_elem_of_filter in Hd as [_ Hd].
        apply list_elem_of_In, Hd.
    + rewrite <- Ec. apply List.Forall_forall. intros d Hd.
      eapply by_category_members, Hd.
  - intros category places Hin Hhit.
    destruct (by_category_hit _ _ _ Hin Hhit) as [Hincl Hne].
    destruct (by_category (lower destination_name)) as [|c cs];
      [contradiction|].
    split; [reflexivity|]. split; [exact Hincl | discriminate].
  - intros ->.
    assert (by_category "" = []) as -> by (vm_compute; reflexivity).
    assert (by_name lower "" = all_places) as ->.
    { unfold by_name. apply filter_all.
      apply List.Forall_forall. intros d _. apply contains_empty. }
    split; reflexivity.
Qed.
End Builtins.

Lemma backup_search_witness :
  map nombre
      (find_destination_backup MoreSamples.ascii_lower MoreSamples.one_word
         "Farmacia cerca")
  = ["Farmacia Cruz Verde"; "Farmacia Dr. Simi"]
  /\ find_destination_backup MoreSamples.ascii_lower MoreSamples.one_word ""
     = all_places.
Proof.
  pose (entry := nth 5 destinations_db ("", [])).
  assert (In (fst entry, snd entry) destinations_db) as Hin
      by (do 5 right; left; reflexivity).
  assert (contains (fst entry) (MoreSamples.ascii_lower "Farmacia cerca")
          = true) as Hhit by reflexivity.
  split.
  - destruct (proj1 (proj2 (backup_search MoreSamples.ascii_lower
                              MoreSamples.one_word "Farmacia cerca"))
                _ _ Hin Hhit) as [-> _].
    reflexivity.
  - apply (backup_search MoreSamples.ascii_lower MoreSamples.one_word "").
    reflexivity.
Defined.

End SearchFacts.

(** ** The tag table *)

Module TagFacts.
Import DestinationToolsOsm DestinationBackup OsmTags.

Lemma filter_nil_none {A : Type} (P : A -> Prop) `{!forall x, Decision (P x)}
      (l : list A) :
  filter P l = [] <-> Forall (fun x => ~ P x) l.
Proof.
  induction l as [|x l IH]; [split; [constructor | reflexivity]|].
  destruct (decide (P x)) as [Hx|Hx].
  - rewrite filter_cons_True by exact Hx.
    split; [discriminate|]. intros HF. inversion HF; contradiction.
  - rewrite filter_cons_False by exact Hx. rewrite IH.
    split; [intros HF; constructor; assumption|].
    intros HF. inversion HF; assumption.
Qed.

Lemma table_tags_not_general :
  Forall (fun mapping : string * Tags => snd mapping <> ("amenity", TagTrue))
         tag_mappings.
Proof. repeat constructor; discriminate. Qed.

Lemma categories_have_tags :
  Forall (fun entry : string * list Destination =>
            exists tags : Tags, In (fst entry, tags) tag_mappings)
         destinations_db.
Proof.
  repeat constructor;
    (eexists; unfold tag_mappings; cbn [fst In];
     repeat first [left; reflexivity | right]).
Qed.

Section Builtins.
Variable lower : string -> string.

Lemma matching_tags_members (q : string) (tags : Tags) :
  In tags (map snd (filter (fun mapping => contains (fst mapping) q = true)
                           tag_mappings))
  <-> exists term, In (term, tags) tag_mappings /\ contains term q = true.
Proof.
  rewrite in_map_iff. split.
  - intros ([term tags'] & E & Hin). cbn in E. subst tags'.
    apply list_elem_of_In, list_elem_of_filter in Hin as [Hhit Hin].
    exists term. split; [apply list_elem_of_In, Hin | exact Hhit].
  - intros (term & Hin & Hhit). exists (term, tags). split; [reflexivity|].
    apply list_elem_of_In, list_elem_of_filter.
    split; [exact Hhit | apply list_elem_of_In, Hin].
Qed.

(** X19: [get_osm_tags_for_search] never returns an empty list.  It returns
    the three general tags exactly when no term of its table occurs in the
    lowered search term; otherwise it returns the tags of the terms that
    occur, and only those.  Every category of the backup gazetteer is a term
    of the table, so a query the gazetteer answers by category is never
    searched with the general tags. *)
Theorem osm_tags_outcome (search_term : string) :
  let q := lower search_term in
  let r := get_osm_tags_for_search lower search_term in
  r <> []
  /\ (r = general_tags
      <-> Forall (fun mapping => contains (fst mapping) q = false)
                 tag_mappings)
  /\ (forall (term : string) (tags : Tags),
        In (term, tags) tag_mappings -> contains term q = true -> In tags r)
  /\ (r <> general_tags ->
      forall tags : Tags,
        In tags r ->
        exists term, In (term, tags) tag_mappings /\ contains term q = true)
  /\ (forall (category : string) (places : list Destination),
        In (category, places) destinations_db ->
        contains category q = true ->
        r <> general_tags
        /\ exists tags : Tags, In (category, tags) tag_mappings /\ In tags r).
Proof.
  intros q r.
  pose (matching_tags :=
          map snd (filter (fun mapping => contains (fst mapping) q = true)
                          tag_mappings)).
  assert (matching_tags <> [] -> r = matching_tags /\ r <> general_tags)
    as Hsome.
  { intros Hne. subst r. unfold get_osm_tags_for_search. fold q.
    fold matching_tags.
    destruct matching_tags as [|t ts] eqn:E; [contradiction|].
    split; [reflexivity|]. intros [= -> _].
    assert (In ("amenity", TagTrue) matching_tags) as Hin
        by (rewrite E; left; reflexivity).
    apply matching_tags_members in Hin as (term & Hin & _).
    exact (proj1 (List.Forall_forall _ _) table_tags_not_general
             _ Hin eq_refl). }
  assert (matching_tags = [] -> r = general_tags) as Hnone.
  { intros E. subst r. unfold get_osm_tags_for_search. fold q.
    fold matching_tags. rewrite E. reflexivity. }
  assert (forall term tags, In (term, tags) tag_mappings ->
                            contains term q = true ->
                            In tags matching_tags /\ matching_tags <> [])
    as Hhit.
  { intros term tags Hin Ht.
    assert (In tags matching_tags) as Hm
        by (apply matching_tags_members; exists term; split; assumption).
    split; [exact Hm|]. intros E. rewrite E in Hm. destruct Hm. }
  split; [|split; [|split; [|split]]].
  - destruct matching_tags as [|t ts] eqn:E.
    + rewrite (Hnone eq_refl). discriminate.
    + destruct Hsome as [-> _]; discriminate.
  - split.
    + intros Er.
      assert (matching_tags = []) as E.
      { destruct matching_tags as [|t ts] eqn:E; [reflexivity|].
        destruct Hsome as [_ Hne]; [discriminate | contradiction]. }
      apply map_eq_nil in E. apply filter_nil_none in E.
      eapply Forall_impl; [exact E|]. intros mapping Hm. cbn in Hm.
      destruct (contains (fst mapping) q); [contradiction | reflexivity].
    + intros Hall. apply Hnone. unfold matching_tags.
      assert (filter (fun mapping : string * Tags =>
                        contains (fst mapping) q = true) tag_mappings = [])
        as ->; [|reflexivity].
      apply filter_nil_none. eapply Forall_impl; [exact Hall|].
      intros mapping Hm. cbn in Hm. rewrite Hm. discriminate.
  - intros term tags Hin Ht. destruct (Hhit term tags Hin Ht) as [Hm Hne].
    destruct (Hsome Hne) as [-> _]. exact Hm.
  - intros Hne tags Hin.
    destruct matching_tags as [|t ts] eqn:E;
      [contradiction (Hne (Hnone eq_refl))|].
    destruct Hsome as [Er _]; [discriminate|]. rewrite Er, <- E in Hin.
    apply matching_tags_members, Hin.
  - intros category places Hin Hc.
    destruct (proj1 (List.Forall_forall _ _) categories_have_tags _ Hin)
      as (tags & Htags).
    cbn [fst] in Htags.
    destruct (Hhit category tags Htags Hc) as [Hm Hne].
    destruct (Hsome Hne) as [Er Hng].
    split; [exact Hng|]. exists tags. split; [exact Htags|].
    rewrite Er. exact Hm.
Qed.
End Builtins.

Lemma osm_tags_outcome_witness :
  In ("farmacia", ("amenity", TagStr "pharmacy")) tag_mappings
  /\ contains "farmacia" (MoreSamples.ascii_lower "Farmacia 24h") = true
  /\ In ("amenity", TagStr "pharmacy")
        (get_osm_tags_for_search MoreSamples.ascii_lower "Farmacia 24h").
Proof.
  assert (In ("farmacia", ("amenity", TagStr "pharmacy")) tag_mappings)
    as Hin by (do 3 right; left; reflexivity).
  assert (contains "farmacia" (MoreSamples.ascii_lower "Farmacia 24h") = true)
    as Hhit by reflexivity.
  split; [exact Hin|]. split; [exact Hhit|].
  exact (proj1 (proj2 (proj2 (osm_tags_outcome MoreSamples.ascii_lower
                                "Farmacia 24h")))
           _ _ Hin Hhit).
Defined.
End TagFacts.

(** ** Readings, scores and levels *)

Module ReadingFacts.
Import Py PyFacts FloatFacts NumberFacts AirQualityTools ScoringSpec.
Import AirQualityFacts.
#[local] Opaque fl.

(** [x <= y] on floats, as Python finds it. *)
Local Notation "x '<=f' y" := (le (NFloat x) (NFloat y) = true)
  (at level 70, no associativity).

Lemma fle_cases (x y : float) :
  x <=f y
  <-> match x, y with
      | FNan, _ | _, FNan => False
      | FInf true, _ => True
      | _, FInf false => True
      | FFin a, FFin b => a <= b
      | _, _ => False
      end.
Proof.
  unfold le. cbn [exact].
  destruct x as [|[]|a], y as [|[]|b]; cbn; try tauto;
    try (split; [discriminate | contradiction]).
  rewrite negb_involutive. apply Qle_bool_iff.
Qed.

Lemma fl_le (q q' : Q) : q <= q' -> fl q <=f fl q'.
Proof.
  intros H. pose proof (fl_mono _ _ H) as M.
  pose proof (fl_not_nan q) as N. pose proof (fl_not_nan q') as N'.
  unfold le. cbn [exact].
  destruct (fl q) as [|[]|a], (fl q') as [|[]|b];
    try contradiction; try reflexivity; try discriminate; cbn in *;
    rewrite M; reflexivity.
Qed.

Lemma fle_below_fl (q : Q) : FInf true <=f fl q.
Proof.
  pose proof (fl_not_nan q). destruct (fl q) as [|[]|]; try contradiction;
    reflexivity.
Qed.

Lemma fle_fl_above (q : Q) : fl q <=f FInf false.
Proof.
  pose proof (fl_not_nan q). destruct (fl q) as [|[]|]; try contradiction;
    reflexivity.
Qed.

(** An operation that rounds a monotone function of a finite argument and
    keeps the infinities keeps the order. *)
Lemma lift_mono (f : float -> float) (h : Q -> Q) :
  (forall a, f (FFin a) = fl (h a)) ->
  f (FInf true) = FInf true -> f (FInf false) = FInf false ->
  (forall a a', a <= a' -> h a <= h a') ->
  forall x y, x <=f y -> f x <=f f y.
Proof.
  intros Hfin Hneg Hpos Hh x y Hxy. apply fle_cases in Hxy.
  destruct x as [|[]|a], y as [|[]|b]; try contradiction;
    rewrite ?Hfin, ?Hneg, ?Hpos;
    first [ reflexivity | apply fle_below_fl | apply fle_fl_above
          | apply fl_le, Hh, Hxy ].
Qed.

(** The same for an operation that reverses the order. *)
Lemma lift_anti (f : float -> float) (h : Q -> Q) :
  (forall a, f (FFin a) = fl (h a)) ->
  f (FInf true) = FInf false -> f (FInf false) = FInf true ->
  (forall a a', a <= a' -> h a' <= h a) ->
  forall x y, x <=f y -> f y <=f f x.
Proof.
  intros Hfin Hneg Hpos Hh x y Hxy. apply fle_cases in Hxy.
  destruct x as [|[]|a], y as [|[]|b]; try contradiction;
    rewrite ?Hfin, ?Hneg, ?Hpos;
    first [ reflexivity | apply fle_below_fl | apply fle_fl_above
          | apply fl_le, Hh, Hxy ].
Qed.

Lemma fmul_mono (c : Q) (x y : float) :
  0 < c -> x <=f y -> fmul x (FFin c) <=f fmul y (FFin c).
Proof.
  intros Hc. apply (lift_mono (fun x => fmul x (FFin c)) (fun a => a * c)).
  - reflexivity.
  - cbn. assert (Qeq_bool c 0 = false) as ->.
    { destruct (Qeq_bool c 0) eqn:E; [|reflexivity].
      apply Qeq_bool_eq in E. lra. }
    assert (Qle_bool 0 c = true) as -> by (apply Qle_bool_iff; lra).
    reflexivity.
  - cbn. assert (Qeq_bool c 0 = false) as ->.
    { destruct (Qeq_bool c 0) eqn:E; [|reflexivity].
      apply Qeq_bool_eq in E. lra. }
    assert (Qle_bool 0 c = true) as -> by (apply Qle_bool_iff; lra).
    reflexivity.
  - intros a a' H. nra.
Qed.

Lemma fsub_anti (k : Q) (x y : float) :
  x <=f y -> fsub (FFin k) y <=f fsub (FFin k) x.
Proof.
  apply (lift_anti (fun x => fsub (FFin k) x) (fun a => k + Qred (- a))).
  - reflexivity.
  - reflexivity.
  - reflexivity.
  - intros a a' H. rewrite !Qred_correct. lra.
Qed.


Lemma fle_refl_fin (a : Q) : FFin a <=f FFin a.
Proof. apply fle_cases. apply Qle_refl. Qed.

Lemma fle_trans (x y z : float) : x <=f y -> y <=f z -> x <=f z.
Proof.
  intros H1 H2. apply fle_cases in H1, H2. apply fle_cases.
  destruct x as [|[]|a], y as [|[]|b], z as [|[]|c];
    try contradiction; try exact I. lra.
Qed.

Lemma fmax0_nonneg (r : float) : FFin 0 <=f fmax0 r.
Proof.
  unfold fmax0. destruct (lt (NInt 0) (NFloat r)) eqn:E; [|reflexivity].
  destruct r as [|[]|a]; try discriminate; [reflexivity|].
  apply lt_int_fin in E. apply fle_cases. apply Qlt_le_weak, E.
Qed.

Lemma fmax0_mono (r r' : float) : r <=f r' -> fmax0 r <=f fmax0 r'.
Proof.
  intros H. unfold fmax0 at 1.
  destruct (lt (NInt 0) (NFloat r)) eqn:E; [|apply fmax0_nonneg].
  assert (lt (NInt 0) (NFloat r') = true) as E'.
  { apply fle_cases in H.
    destruct r as [|[]|a], r' as [|[]|b]; try contradiction;
      try discriminate; try reflexivity.
    apply lt_int_fin in E. apply lt_int_fin. lra. }
  unfold fmax0. rewrite E'. exact H.
Qed.

Lemma to_float_max0 (r : float) :
  to_float (nmax (NInt 0) (NFloat r)) = Some (fmax0 r).
Proof.
  unfold nmax, fmax0. destruct (lt (NInt 0) (NFloat r)); [reflexivity|].
  unfold to_float. rewrite fl_0. reflexivity.
Qed.

(** The sum of floats that are not negative keeps the order. *)
Lemma fadd_mono (x x' y y' : float) :
  FFin 0 <=f x -> FFin 0 <=f y -> x <=f x' -> y <=f y' ->
  fadd x y <=f fadd x' y' /\ FFin 0 <=f fadd x y.
Proof.
  intros Px Py Hx Hy. apply fle_cases in Px, Py, Hx, Hy.
  destruct x as [|[]|a], x' as [|[]|a'], y as [|[]|b], y' as [|[]|b'];
    try contradiction; cbn [fadd Bool.eqb];
    (split;
     [ first [ reflexivity | apply fle_fl_above | apply fl_le; lra ]
     | first [ reflexivity
             | rewrite <- fl_0; apply fl_le; change (inject_Z 0) with 0; lra ] ]).
Qed.

(** What the function returns for an overall score [o]. *)
Lemma final_value (o : float) :
  exists s : number,
    nround (nmax (NInt 0) (nmin (NInt 100) (NFloat o))) 2 = Some s
    /\ 0 <= value s /\ value s <= 100
    /\ match o with
       | FNan | FInf false => value s == 100
       | FInf true => value s == 0
       | FFin q =>
           (q <= 0 /\ value s == 0) \/ (100 <= q /\ value s == 100)
           \/ (0 < q /\ q < 100 /\ fl (round q 2) = FFin (value s))
       end.
Proof.
  destruct (nround_clamped (NFloat o)) as (s & Es & _ & Hlo & Hhi).
  exists s. split; [exact Es|]. split; [exact Hlo|]. split; [exact Hhi|].
  destruct o as [|[]|q]; try (injection Es as <-; reflexivity).
  unfold nmin in Es.
  destruct (lt (NFloat (FFin q)) (NInt 100)) eqn:E100.
  - unfold nmax in Es. destruct (lt (NInt 0) (NFloat (FFin q))) eqn:E0.
    + apply lt_fin_int in E100. apply lt_int_fin in E0.
      change (inject_Z 100) with 100 in E100.
      change (inject_Z 0) with 0 in E0.
      right. right. split; [exact E0|]. split; [exact E100|].
      cbn [nround] in Es.
      pose proof (fl_not_nan (round q 2)) as Hnan.
      destruct (fl (round q 2)) as [|neg|v];
        [contradiction | discriminate |].
      injection Es as <-. reflexivity.
    + apply lt_int_fin_false in E0. injection Es as <-.
      left. split; [exact E0 | reflexivity].
  - injection Es as <-. right. left. split; [|reflexivity].
    unfold lt in E100. cbn in E100. apply negb_false_iff, Qle_bool_iff in E100.
    exact E100.
Qed.


(** The clamp and the final rounding keep the order. *)
Lemma final_mono (o o' : float) (s s' : number) :
  o <=f o' ->
  nround (nmax (NInt 0) (nmin (NInt 100) (NFloat o))) 2 = Some s ->
  nround (nmax (NInt 0) (nmin (NInt 100) (NFloat o'))) 2 = Some s' ->
  value s <= value s'.
Proof.
  intros Hle Es Es'.
  destruct (final_value o) as (t & Et & Hlo & Hhi & Ht).
  destruct (final_value o') as (t' & Et' & Hlo' & Hhi' & Ht').
  rewrite Es in Et. injection Et as <-.
  rewrite Es' in Et'. injection Et' as <-.
  apply fle_cases in Hle.
  destruct o as [|[]|q], o' as [|[]|q']; try contradiction; try lra.
  destruct Ht as [[H0 E] | [[H100 E] | (H0 & H100 & E)]];
    destruct Ht' as [[H0' E'] | [[H100' E'] | (H0' & H100' & E')]];
    try lra.
  assert (round q 2 <= round q' 2) as Hr by (apply round_mono, Hle).
  pose proof (fl_le _ _ Hr) as Hfl. rewrite E, E' in Hfl.
  apply fle_cases in Hfl. exact Hfl.
Qed.

Lemma nmax_int (t : Z) : nmax (NInt 0) (NInt t) = NInt (Z.max 0 t).
Proof.
  unfold nmax, lt. cbn.
  destruct (Qle_bool (inject_Z t) (inject_Z 0)) eqn:E; cbn.
  - apply Qle_bool_iff in E. rewrite <- Zle_Qle in E.
    f_equal. lia.
  - apply Qle_bool_false in E. rewrite <- Zlt_Qlt in E. f_equal. lia.
Qed.

Lemma to_float_int (m : Z) (x : float) :
  to_float (NInt m) = Some x -> x = fl (inject_Z m).
Proof.
  unfold to_float. destruct (fl (inject_Z m)); [| discriminate |];
    intros [= <-]; reflexivity.
Qed.

(** What enters the weighted sum for pm2.5 and for pm10. *)
Lemma weight25_int (z : Z) :
  weight_input (component25 (NInt z))
  = to_float (NInt (Z.max 0 (100 - z * 2))).
Proof.
  unfold weight_input, component25. cbn [mul sub mbind option_bind].
  rewrite nmax_int. reflexivity.
Qed.

Lemma weight25_fractional (a : number) :
  fractional a ->
  weight_input (component25 a)
  = Some (fmax0 (fsub (FFin 100) (fmul (exact a) (FFin 2)))).
Proof.
  destruct a as [z|x]; cbn [fractional].
  - intros ->. vm_compute. reflexivity.
  - intros _. unfold weight_input, component25.
    rewrite mul_float_2. cbn [mbind option_bind]. rewrite sub_100_float.
    cbn [mbind option_bind]. apply to_float_max0.
Qed.

Lemma weight10_float (b : number) :
  weight_input (component10 b)
  = x ← to_float b;
    Some (fmax0 (fsub (FFin 100) (fmul x (FFin (1 # 2))))).
Proof.
  unfold weight_input. rewrite component10_float.
  destruct (to_float b) as [x|]; cbn [mbind option_bind]; [|reflexivity].
  apply to_float_max0.
Qed.

(** Two readings of one kind convert in order. *)
Lemma to_float_kind (a a' : number) (x x' : float) :
  same_kind a a' -> le a a' = true ->
  to_float a = Some x -> to_float a' = Some x' -> x <=f x'.
Proof.
  intros [(z & z' & -> & ->) | [F F']] Hle Ex Ex'.
  - apply le_int_int in Hle.
    rewrite (to_float_int _ _ Ex), (to_float_int _ _ Ex').
    apply fl_le. rewrite <- Zle_Qle. exact Hle.
  - assert (x = exact a) as ->.
    { destruct a as [z|y]; cbn in F; [subst z|];
        injection Ex as <-; reflexivity. }
    assert (x' = exact a') as ->.
    { destruct a' as [z|y]; cbn in F'; [subst z|];
        injection Ex' as <-; reflexivity. }
    exact Hle.
Qed.

Lemma weight25_anti (a a' : number) (x x' : float) :
  same_kind a a' -> le a a' = true ->
  weight_input (component25 a) = Some x ->
  weight_input (component25 a') = Some x' ->
  x' <=f x /\ FFin 0 <=f x'.
Proof.
  intros [(z & z' & -> & ->) | [F F']] Hle.
  - apply le_int_int in Hle. rewrite !weight25_int. intros Ex Ex'.
    rewrite (to_float_int _ _ Ex), (to_float_int _ _ Ex').
    split; [apply fl_le; rewrite <- Zle_Qle; lia|].
    rewrite <- fl_0. apply fl_le. rewrite <- Zle_Qle. lia.
  - rewrite (weight25_fractional _ F), (weight25_fractional _ F').
    intros [= <-] [= <-]. split; [|apply fmax0_nonneg].
    apply fmax0_mono, fsub_anti, fmul_mono; [reflexivity | exact Hle].
Qed.

Lemma weight10_anti (b b' : number) (y y' : float) :
  same_kind b b' -> le b b' = true ->
  weight_input (component10 b) = Some y ->
  weight_input (component10 b') = Some y' ->
  y' <=f y /\ FFin 0 <=f y'.
Proof.
  intros Hkind Hle. rewrite !weight10_float.
  destruct (to_float b) as [x|] eqn:Ex; cbn [mbind option_bind];
    [|discriminate].
  destruct (to_float b') as [x'|] eqn:Ex'; cbn [mbind option_bind];
    [|discriminate].
  intros [= <-] [= <-]. split; [|apply fmax0_nonneg].
  apply fmax0_mono, fsub_anti, fmul_mono; [reflexivity|].
  exact (to_float_kind _ _ _ _ Hkind Hle Ex Ex').
Qed.

(** The formula, from the two floats that enter the weighted sum. *)
Lemma code_score_floats (a b : number) :
  code_score a b
  = x ← weight_input (component25 a);
    y ← weight_input (component10 b);
    nround (nmax (NInt 0)
              (nmin (NInt 100)
                 (NFloat (fadd (fmul x (fl (7 # 10)))
                               (fmul y (fl (3 # 10))))))) 2.
Proof.
  unfold code_score, weight_input.
  destruct (component25 a) as [s25|]; cbn [mbind option_bind];
    [|reflexivity].
  destruct (component10 b) as [s10|]; cbn [mbind option_bind].
  - rewrite !weighted.
    destruct (to_float s25) as [x|]; cbn [mbind option_bind]; [|reflexivity].
    destruct (to_float s10) as [y|]; cbn [mbind option_bind]; reflexivity.
  - destruct (to_float s25); reflexivity.
Qed.

(** More pollution never scores better, number by number. *)
Lemma code_score_antitone (a b a' b' s s' : number) :
  same_kind a a' -> same_kind b b' ->
  le a a' = true -> le b b' = true ->
  code_score a b = Some s -> code_score a' b' = Some s' ->
  value s' <= value s.
Proof.
  intros Ka Kb La Lb. rewrite !code_score_floats.
  destruct (weight_input (component25 a)) as [x|] eqn:Ex;
    cbn [mbind option_bind]; [|discriminate].
  destruct (weight_input (component10 b)) as [y|] eqn:Ey;
    cbn [mbind option_bind]; [|discriminate].
  destruct (weight_input (component25 a')) as [x'|] eqn:Ex';
    cbn [mbind option_bind]; [|discriminate].
  destruct (weight_input (component10 b')) as [y'|] eqn:Ey';
    cbn [mbind option_bind]; [|discriminate].
  intros Es Es'.
  destruct (weight25_anti _ _ _ _ Ka La Ex Ex') as [Hx Px].
  destruct (weight10_anti _ _ _ _ Kb Lb Ey Ey') as [Hy Py].
  destruct fl_weight25 as (c7 & E7 & Hc7 & _).
  destruct fl_weight10 as (c3 & E3 & Hc3 & _).
  rewrite E7, E3 in Es, Es'.
  assert (forall u, FFin 0 <=f u -> forall c, 0 < c ->
                    FFin 0 <=f fmul u (FFin c)) as Hpos.
  { intros u Hu c Hc.
    assert (fmul (FFin 0) (FFin c) = FFin 0) as E0.
    { cbn [fmul]. rewrite (fl_comp (0 * c) (inject_Z 0)) by (cbn; ring).
      apply fl_0. }
    pose proof (fmul_mono c _ _ Hc Hu) as H. rewrite E0 in H. exact H. }
  eapply final_mono; [|exact Es' | exact Es].
  apply fadd_mono.
  - apply Hpos; assumption.
  - apply Hpos; assumption.
  - apply fmul_mono; assumption.
  - apply fmul_mono; assumption.
Qed.


(** X20: more pollution never scores better.  Of two readings of one kind
    each (two [int]s or two floats; a zero, null or missing reading counts
    as either) whose scores are computed without an [OverflowError], the one
    with the higher PM2.5 and PM10 gets a score that is at most the other's,
    so it is "Excelente" only if the cleaner one is, and "Mala" whenever the
    cleaner one is.  A PM2.5 of 50 or more with a PM10 that is not negative
    scores at most 30 and reads "Mala". *)
Theorem more_pollution_never_scores_better
        (cleaner dirtier : gmap string pyval) (pm25 pm10 pm25' pm10' : number)
        (Hc25 : reads_as (cleaner !! k25) pm25)
        (Hc10 : reads_as (cleaner !! k10) pm10)
        (Hd25 : reads_as (dirtier !! k25) pm25')
        (Hd10 : reads_as (dirtier !! k10) pm10')
        (Hcomputed : code_score pm25' pm10' <> None) :
  (same_kind pm25 pm25' -> same_kind pm10 pm10' ->
   le pm25 pm25' = true -> le pm10 pm10' = true ->
   code_score pm25 pm10 <> None ->
   calculate_air_quality_score dirtier <= calculate_air_quality_score cleaner
   /\ (get_quality_level (calculate_air_quality_score dirtier)
       = "🟢 Excelente"
       -> get_quality_level (calculate_air_quality_score cleaner)
          = "🟢 Excelente")
   /\ (get_quality_level (calculate_air_quality_score cleaner) = "🔴 Mala"
       -> get_quality_level (calculate_air_quality_score dirtier)
          = "🔴 Mala"))
  /\ (le (NInt 50) pm25' = true -> le (NInt 0) pm10' = true ->
      calculate_air_quality_score dirtier <= 30
      /\ get_quality_level (calculate_air_quality_score dirtier) = "🔴 Mala").
Proof.
  rewrite (score_of_numbers _ _ _ Hc25 Hc10), (score_of_numbers _ _ _ Hd25 Hd10).
  destruct (code_score pm25' pm10') as [s'|] eqn:Es'; [|contradiction].
  cbn [outcome]. split.
  - intros K25 K10 L25 L10 Hc.
    destruct (code_score pm25 pm10) as [s|] eqn:Es; [|contradiction].
    cbn [outcome].
    pose proof (code_score_antitone _ _ _ _ _ _ K25 K10 L25 L10 Es Es')
      as Hle.
    split; [exact Hle|].
    destruct (TierFacts.level_thresholds (value s)) as (T1 & _ & _ & T4).
    destruct (TierFacts.level_thresholds (value s')) as (T1' & _ & _ & T4').
    split.
    + intros H. apply T1. apply T1' in H. lra.
    + intros H. apply T4'. apply T4 in H. lra.
  - intros Hhigh Hpos.
    assert (value s' <= 30) as H30.
    { assert (same_kind (NInt 0) pm10') as K10.
      { destruct pm10' as [z|x];
          [left; exists 0%Z, z; auto | right; split; [reflexivity | exact I]]. }
      destruct pm25' as [z|x].
      - assert (code_score (NInt 50) (NInt 0) = Some (NFloat (FFin 30))) as Er
          by (vm_compute; reflexivity).
        assert (same_kind (NInt 50) (NInt z)) as K25
          by (left; exists 50%Z, z; auto).
        apply (code_score_antitone _ _ _ _ _ _ K25 K10 Hhigh Hpos Er Es').
      - assert (code_score (NFloat (FFin 50)) (NInt 0)
                = Some (NFloat (FFin 30))) as Er by (vm_compute; reflexivity).
        assert (same_kind (NFloat (FFin 50)) (NFloat x)) as K25
          by (right; split; exact I).
        apply (code_score_antitone _ _ _ _ _ _ K25 K10 Hhigh Hpos Er Es'). }
    split; [exact H30|].
    apply (TierFacts.level_thresholds (value s')). lra.
Qed.

Lemma more_pollution_never_scores_better_witness :
  reads_as (sample_metrics !! k25) (NInt 12)
  /\ reads_as (smog_metrics !! k25) (NInt 75)
  /\ code_score (NInt 75) (NInt 60) <> None
  /\ calculate_air_quality_score smog_metrics
     <= calculate_air_quality_score sample_metrics
  /\ get_quality_level (calculate_air_quality_score smog_metrics) = "🔴 Mala".
Proof.
  assert (reads_as (sample_metrics !! k25) (NInt 12)) as Hc25 by reflexivity.
  assert (reads_as (sample_metrics !! k10) (NInt 40)) as Hc10 by reflexivity.
  assert (reads_as (smog_metrics !! k25) (NInt 75)) as Hd25 by reflexivity.
  assert (reads_as (smog_metrics !! k10) (NInt 60)) as Hd10 by reflexivity.
  assert (code_score (NInt 75) (NInt 60) <> None) as Hd
    by (vm_compute; discriminate).
  assert (code_score (NInt 12) (NInt 40) <> None) as Hc
    by (vm_compute; discriminate).
  destruct (more_pollution_never_scores_better sample_metrics smog_metrics
              _ _ _ _ Hc25 Hc10 Hd25 Hd10 Hd) as [Hmono Hhigh].
  split; [exact Hc25|]. split; [exact Hd25|]. split; [exact Hd|].
  split.
  - apply Hmono; try reflexivity; [left; eauto | left; eauto | exact Hc].
  - apply Hhigh; reflexivity.
Defined.

End ReadingFacts.
